(** * kube-dns record engine: [pkg/dns/util/util.go] and [pkg/dns/dns.go]

    A shallow embedding of the two Go files and the properties of the
    record engine that are checked against them.  Go strings are Rocq
    strings (bytes), Go maps are [gmap]s, slices are lists, and a Go
    [(value, error)] pair is a [result]. *)

From Stdlib Require Import ZArith NArith Lia Ascii String Bool DecimalString.
From stdpp Require Import base option list strings gmap sorting.

Set Default Proof Using "Type".
Set Warnings "-register-all".
Local Open Scope Z_scope.

(** ** Go's multiple return [(v, err)] *)

Inductive error : Type :=
| ErrKeyNotFound                (* etcd.Error{Code: etcd.ErrorCodeKeyNotFound} *)
| Errorf (msg : string)         (* fmt.Errorf / errors of the libraries *)
| Panic (msg : string).         (* a run-time panic: no value is returned at all *)

Inductive result (A : Type) : Type :=
| Ok (a : A)
| Err (e : error).
Arguments Ok {A} a.
Arguments Err {A} e.

Definition is_ok {A} (r : result A) : bool :=
  match r with Ok _ => true | Err _ => false end.

(** ** Package [strings] of the Go standard library, as far as it is called *)

Module strings.

(** [len(s)] *)
Definition len (s : string) : nat := String.length s.

(** [s[i:]] for [i <= len(s)] *)
Fixpoint drop (i : nat) (s : string) : string :=
  match i, s with
  | O, _ => s
  | S i', String _ s' => drop i' s'
  | S _, EmptyString => EmptyString
  end.

(** [s[:i]] for [i <= len(s)] *)
Fixpoint take (i : nat) (s : string) : string :=
  match i, s with
  | O, _ => EmptyString
  | S i', String c s' => String c (take i' s')
  | S _, EmptyString => EmptyString
  end.

(** [strings.HasSuffix(s, suffix)]:
    [len(s) >= len(suffix) && s[len(s)-len(suffix):] == suffix] *)
Definition HasSuffix (s suffix : string) : bool :=
  (len suffix <=? len s)%nat && String.eqb (drop (len s - len suffix) s) suffix.

(** [strings.TrimSuffix(s, suffix)] *)
Definition TrimSuffix (s suffix : string) : string :=
  if HasSuffix s suffix then take (len s - len suffix) s else s.

(** [strings.Split(s, sep)] for a separator of one byte, which is what
    every call in the two files passes ("."): the pieces between the
    separators, [[""]] for the empty string. *)
Fixpoint Split (s : string) (sep : ascii) : list string :=
  match s with
  | EmptyString => [EmptyString]
  | String c s' =>
      if Ascii.eqb c sep then EmptyString :: Split s' sep
      else match Split s' sep with
           | h :: t => String c h :: t
           | [] => [String c EmptyString]
           end
  end.

(** [strings.Join(elems, sep)] *)
Fixpoint Join (elems : list string) (sep : string) : string :=
  match elems with
  | [] => EmptyString
  | [x] => x
  | x :: rest => x +:+ sep +:+ Join rest sep
  end.

(** [strings.TrimRight(s, cutset)] for a cutset of one byte. *)
Fixpoint TrimRight (s : string) (cut : ascii) : string :=
  match s with
  | EmptyString => EmptyString
  | String c s' =>
      match TrimRight s' cut with
      | EmptyString => if Ascii.eqb c cut then EmptyString else String c EmptyString
      | r => String c r
      end
  end.

(** [strings.Replace(s, old, new, -1)] for [old] and [new] of one byte. *)
Fixpoint Replace (s : string) (old new : ascii) : string :=
  match s with
  | EmptyString => EmptyString
  | String c s' => String (if Ascii.eqb c old then new else c) (Replace s' old new)
  end.

(** A byte occurs in a string. *)
Fixpoint contains_byte (c : ascii) (s : string) : bool :=
  match s with
  | EmptyString => false
  | String c' s' => Ascii.eqb c' c || contains_byte c s'
  end.

End strings.

(** ** Types of the libraries the engine is written against *)

(** [skymsg.Service]: the record payload handed to the DNS server. *)
Record Service : Type := mkService {
  Host : string;
  Port : Z;
  Priority : Z;
  Weight : Z;
  Ttl : Z
}.

Global Instance Service_eq_dec : EqDecision Service.
Proof. solve_decision. Defined.

(** The zero value of every field but [Host]: the Go literal
    [skymsg.Service{Host: name}]. *)
Definition ServiceHostOnly (name : string) : Service :=
  {| Host := name; Port := 0; Priority := 0; Weight := 0; Ttl := 0 |}.

Module v1.

Definition ClusterIPNone : string := "None".
Definition ServiceTypeExternalName : string := "ExternalName".
Definition LabelZoneFailureDomain : string := "failure-domain.beta.kubernetes.io/zone".
Definition LabelZoneRegion : string := "failure-domain.beta.kubernetes.io/region".

Record ServicePort : Type := {
  sp_Name : string;
  sp_Protocol : string;
  sp_Port : Z
}.

Record ServiceSpec : Type := {
  Type_ : string;
  ClusterIP : string;
  ClusterIPs : list string;
  Ports : list ServicePort;
  ExternalName : string
}.

Record Service : Type := {
  Name : string;
  Namespace : string;
  Spec : ServiceSpec
}.

Record EndpointAddress : Type := {
  IP : string;
  Hostname : string
}.

Record EndpointPort : Type := {
  ep_Name : string;
  ep_Protocol : string;
  ep_Port : Z
}.

Record EndpointSubset : Type := {
  Addresses : list EndpointAddress;
  ep_Ports : list EndpointPort
}.

Record Endpoints : Type := {
  e_Name : string;
  e_Namespace : string;
  Subsets : list EndpointSubset
}.

Record Node : Type := {
  n_Name : string;
  Labels : gmap string string
}.

End v1.

(** What an informer store or an event carries: an [interface{}] whose
    dynamic type the handlers assert. *)
Inductive Object : Type :=
| ObjService (s : v1.Service)
| ObjEndpoints (e : v1.Endpoints)
| ObjNode (n : v1.Node)
| ObjOther.

(** [kcache.MetaNamespaceKeyFunc]: "<namespace>/<name>", or "<name>" for
    an empty namespace. *)
Definition MetaNamespaceKey (namespace name : string) : string :=
  if (0 <? String.length namespace)%nat then namespace +:+ "/" +:+ name else name.

(** [dns.ClientConfig] of [/etc/resolv.conf], the fields that are read. *)
Record ClientConfig : Type := {
  Servers : list string;
  cc_Port : string
}.

(** [server.Config] of SkyDNS, the field that is written. *)
Record ServerConfig : Type := {
  Nameservers : list string
}.

(** [config.Config]: the dynamic configuration snapshot. *)
Record Config : Type := {
  Federations : gmap string string;
  UpstreamNameservers : list string
}.

(** The functions of libraries outside the repository that the two files
    call and whose bodies are not part of it. *)
Class GoLibs : Type := {
  (** [net.IP], [net.ParseIP] ([None] for [nil]) and [IP.String] *)
  NetIP : Type;
  ParseIP : string → option NetIP;
  IPString : NetIP → string;
  (** [net.SplitHostPort] *)
  SplitHostPort : string → result (string * string);
  (** [strconv.Atoi] *)
  Atoi : string → result Z;
  (** [fmt.Sprintf("%v", msg)] of a [*skymsg.Service] *)
  Sprintf_v : Service → string;
  (** [validation.IsDNS1035Label], [IsDNS1123Label], [IsDNS1123Subdomain]:
      the list of complaints, empty when the value is valid *)
  IsDNS1035Label : string → list string;
  IsDNS1123Label : string → list string;
  IsDNS1123Subdomain : string → list string;
  (** [dns.Fqdn] of miekg/dns *)
  Fqdn : string → string;
  (** [dns.ClientConfigFromFile], the resolver file of the host *)
  ClientConfigFromFile : string → result ClientConfig;
  (** [strings.ToLower]: the Unicode lower case of every letter *)
  ToLower : string → string
}.

(** [net.JoinHostPort]: a host with a colon is taken to be an IPv6
    literal and bracketed. *)
Definition JoinHostPort (host port : string) : string :=
  if strings.contains_byte ":" host then "[" +:+ host +:+ "]:" +:+ port
  else host +:+ ":" +:+ port.

(** ** 32-bit FNV-1a ([hash/fnv]) and [%x] *)

Module fnv.
Definition offset32 : Z := 2166136261.
Definition prime32 : Z := 16777619.

(** One step of [sum32a.Write]: [hash ^= uint32(c); hash *= prime32]
    on a [uint32]. *)
Definition step (hash : Z) (c : ascii) : Z :=
  (Z.lxor hash (Z.of_N (N_of_ascii c)) * prime32) mod 2 ^ 32.

Fixpoint Write (hash : Z) (s : string) : Z :=
  match s with
  | EmptyString => hash
  | String c s' => Write (step hash c) s'
  end.

(** [h := fnv.New32a(); h.Write([]byte(s)); h.Sum32()] *)
Definition Sum32a (s : string) : Z := Write offset32 s.
End fnv.

Module fmt.
Definition hex_digit (n : Z) : ascii :=
  if n <? 10 then ascii_of_N (Z.to_N (48 + n)) else ascii_of_N (Z.to_N (87 + n)).

Fixpoint strip_zeros (s : string) : string :=
  match s with
  | String c s' =>
      if Ascii.eqb c "0" && negb (String.eqb s' EmptyString) then strip_zeros s' else s
  | EmptyString => s
  end.

(** [fmt.Sprintf("%x", n)] of a [uint32]: lower-case, no leading zeros. *)
Definition Sprintf_x_uint32 (n : Z) : string :=
  strip_zeros
    (string_of_list_ascii
       (map (λ i, hex_digit (Z.land (Z.shiftr n (4 * i)) 15)) [7; 6; 5; 4; 3; 2; 1; 0])).

(** [fmt.Sprintf("%x", s)] of a string: two digits for every byte. *)
Fixpoint Sprintf_x_string (s : string) : string :=
  match s with
  | EmptyString => EmptyString
  | String c s' =>
      let n := Z.of_N (N_of_ascii c) in
      String (hex_digit (Z.shiftr n 4)) (String (hex_digit (Z.land n 15)) (Sprintf_x_string s'))
  end.
End fmt.

(** ** Package [util] *)

Module util.

(** ArpaSuffix is the standard suffix for PTR IP reverse lookups. *)
Definition ArpaSuffix : string := ".in-addr.arpa.".
Definition defaultPriority : Z := 10.
Definition defaultWeight : Z := 10.
Definition defaultTTL : Z := 30.

Section ReverseArray.
Context {A : Type}.

(** [arr[i], arr[j] = arr[j], arr[i]] *)
Definition swap (arr : list A) (i j : nat) : list A :=
  match arr !! i, arr !! j with
  | Some x, Some y => <[j:=x]> (<[i:=y]> arr)
  | _, _ => arr
  end.

(** The loop [for i := ...; i < len(arr)/2; i++] with [n] iterations left. *)
Fixpoint ReverseArray_loop (n i : nat) (arr : list A) : list A :=
  match n with
  | O => arr
  | S n' => ReverseArray_loop n' (S i) (swap arr i (length arr - i - 1))
  end.

(** ReverseArray reverses an array (in place, and returns it). *)
Definition ReverseArray (arr : list A) : list A :=
  ReverseArray_loop (length arr / 2) 0 arr.
End ReverseArray.

(** ExtractIP turns a standard PTR reverse record lookup name into an
    IP address. *)
Definition ExtractIP (reverseName : string) : string * bool :=
  if negb (strings.HasSuffix reverseName ArpaSuffix) then (EmptyString, false)
  else
    let search := strings.TrimSuffix reverseName ArpaSuffix in
    let segments := ReverseArray (strings.Split search ".") in
    (strings.Join segments ".", true).

Section with_libs.
Context `{GoLibs}.

(** NewServiceRecord creates a new service DNS message. *)
Definition NewServiceRecord (ip : string) (port : Z) : Service :=
  {| Host := ip; Port := port; Priority := defaultPriority;
     Weight := defaultWeight; Ttl := defaultTTL |}.

(** HashServiceRecord hashes the string representation of a DNS
    message. *)
Definition HashServiceRecord (msg : Service) : string :=
  let s := Sprintf_v msg in
  fmt.Sprintf_x_uint32 (fnv.Sum32a s).

(** GetSkyMsg returns the record in the format SkyDNS understands,
    and the hash of the record: [fmt.Sprintf("%x", hash)] of the
    string that [HashServiceRecord] returned. *)
Definition GetSkyMsg (ip : string) (port : Z) : Service * string :=
  let msg := NewServiceRecord ip port in
  let hash := HashServiceRecord msg in
  (msg, fmt.Sprintf_x_string hash).

(** ValidateNameserverIpAndPort splits and validates ip and port for
    nameserver.  If there is no port in the given address, a default
    53 port will be returned. *)
Definition ValidateNameserverIpAndPort (nameServer : string)
  : result (string * string) :=
  match ParseIP nameServer with
  | Some ip => Ok (IPString ip, "53"%string)
  | None =>
      match SplitHostPort nameServer with
      | Err err => Err err
      | Ok (host, port) =>
          match ParseIP host with
          | None => Err (Errorf ("bad IP address: " +:+ host))
          | Some _ =>
              match Atoi port with
              | Err _ => Err (Errorf ("bad port number: " +:+ port))
              | Ok p =>
                  if (p <? 1) || (65535 <? p)
                  then Err (Errorf ("bad port number: " +:+ port))
                  else Ok (host, port)
              end
          end
      end
  end.

(** IsServiceIPSet aims to check if the service's ClusterIP is set or
    not. *)
Definition IsServiceIPSet (service : v1.Service) : bool :=
  negb (String.eqb (v1.ClusterIP (v1.Spec service)) v1.ClusterIPNone)
  && negb (String.eqb (v1.ClusterIP (v1.Spec service)) EmptyString).

(** GetClusterIPs returns IPs set for the service. *)
Definition GetClusterIPs (service : v1.Service) : list string :=
  if (0 <? length (v1.ClusterIPs (v1.Spec service)))%nat
  then v1.ClusterIPs (v1.Spec service)
  else [v1.ClusterIP (v1.Spec service)].
End with_libs.

End util.


(** ** Package [treecache]: the interface [treecache.TreeCache]

    [dns.go] holds its cache behind this interface and only calls its
    methods; the methods take the cache as their last argument here and
    return the changed cache. *)

Module treecache.
Class TreeCache (T : Type) : Type := {
  NewTreeCache : T;
  SetEntry (key : string) (val : Service) (fqdn : string) (path : list string) : T → T;
  SetSubCache (key : string) (subCache : T) (path : list string) : T → T;
  GetEntry (key : string) (path : list string) : T → option Service;
  GetValuesForPathWithWildcards (path : list string) : T → list Service;
  DeletePath (path : list string) : T → T * bool
}.
End treecache.

(** ** Package [dns] *)

Module dns.
Import treecache.

(** A subdomain added to the user specified domain for all services. *)
Definition serviceSubdomain : string := "svc".
(** A subdomain added to the user specified domain for all pods. *)
Definition podSubdomain : string := "pod".
Definition defaultResolvFile : string := "/etc/resolv.conf".

(** [clientset.Interface], the one call that is made:
    [CoreV1().Nodes().List(...)]. *)
Record Clientset : Type := {
  NodesList : result (list v1.Node)
}.

(** [path[i]]; every use is behind a length test, the default is never
    returned. *)
Definition index (path : list string) (i : nat) : string := nth i path EmptyString.

Section with_libs.
Context `{GoLibs} {T : Type} `{TreeCache T}.

(** An informer store ([kcache.Store]) keyed by
    [MetaNamespaceKeyFunc]; the in-memory store of client-go returns
    no error from [GetByKey]. *)
Record KubeDNS : Type := mkKubeDNS {
  kubeClient : Clientset;
  (** skydns points to the skydns server instance for configuration
      syncing ([nil] as [None]). *)
  SkyDNSConfig : option ServerConfig;
  (** domain for which this DNS Server is authoritative. *)
  domain : string;
  endpointsStore : gmap string Object;
  servicesStore : gmap string Object;
  (** [nodesStore.List()], in the order it is returned. *)
  nodesStore : list Object;
  cache : T;
  reverseRecordMap : gmap string Service;
  clusterIPServiceMap : gmap string v1.Service;
  (** The domain in array format and reversed: for "cluster.local",
      ["local"; "cluster"]. *)
  domainPath : list string;
  (** config set from the dynamic configuration source ([nil] as
      [None]). *)
  config : option Config
}.

Definition set_SkyDNSConfig (kd : KubeDNS) (v : option ServerConfig) : KubeDNS :=
  mkKubeDNS (kubeClient kd) v (domain kd) (endpointsStore kd) (servicesStore kd)
    (nodesStore kd) (cache kd) (reverseRecordMap kd) (clusterIPServiceMap kd)
    (domainPath kd) (config kd).
Definition set_endpointsStore (kd : KubeDNS) (v : gmap string Object) : KubeDNS :=
  mkKubeDNS (kubeClient kd) (SkyDNSConfig kd) (domain kd) v (servicesStore kd)
    (nodesStore kd) (cache kd) (reverseRecordMap kd) (clusterIPServiceMap kd)
    (domainPath kd) (config kd).
Definition set_servicesStore (kd : KubeDNS) (v : gmap string Object) : KubeDNS :=
  mkKubeDNS (kubeClient kd) (SkyDNSConfig kd) (domain kd) (endpointsStore kd) v
    (nodesStore kd) (cache kd) (reverseRecordMap kd) (clusterIPServiceMap kd)
    (domainPath kd) (config kd).
Definition set_nodesStore (kd : KubeDNS) (v : list Object) : KubeDNS :=
  mkKubeDNS (kubeClient kd) (SkyDNSConfig kd) (domain kd) (endpointsStore kd)
    (servicesStore kd) v (cache kd) (reverseRecordMap kd) (clusterIPServiceMap kd)
    (domainPath kd) (config kd).
Definition set_cache (kd : KubeDNS) (v : T) : KubeDNS :=
  mkKubeDNS (kubeClient kd) (SkyDNSConfig kd) (domain kd) (endpointsStore kd)
    (servicesStore kd) (nodesStore kd) v (reverseRecordMap kd) (clusterIPServiceMap kd)
    (domainPath kd) (config kd).
Definition set_reverseRecordMap (kd : KubeDNS) (v : gmap string Service) : KubeDNS :=
  mkKubeDNS (kubeClient kd) (SkyDNSConfig kd) (domain kd) (endpointsStore kd)
    (servicesStore kd) (nodesStore kd) (cache kd) v (clusterIPServiceMap kd)
    (domainPath kd) (config kd).
Definition set_clusterIPServiceMap (kd : KubeDNS) (v : gmap string v1.Service) : KubeDNS :=
  mkKubeDNS (kubeClient kd) (SkyDNSConfig kd) (domain kd) (endpointsStore kd)
    (servicesStore kd) (nodesStore kd) (cache kd) (reverseRecordMap kd) v
    (domainPath kd) (config kd).
Definition set_config (kd : KubeDNS) (v : option Config) : KubeDNS :=
  mkKubeDNS (kubeClient kd) (SkyDNSConfig kd) (domain kd) (endpointsStore kd)
    (servicesStore kd) (nodesStore kd) (cache kd) (reverseRecordMap kd)
    (clusterIPServiceMap kd) (domainPath kd) v.

Definition NewKubeDNS (client : Clientset) (clusterDomain : string) : KubeDNS :=
  {| kubeClient := client;
     SkyDNSConfig := None;
     domain := clusterDomain;
     endpointsStore := ∅;
     servicesStore := ∅;
     nodesStore := [];
     cache := NewTreeCache;
     reverseRecordMap := ∅;
     clusterIPServiceMap := ∅;
     domainPath :=
       util.ReverseArray (strings.Split (strings.TrimRight clusterDomain ".") ".");
     config := None |}.

Definition loadDefaultNameserver (kd : KubeDNS) : list string :=
  match ClientConfigFromFile defaultResolvFile with
  | Err _ => []
  | Ok c => foldl (λ nameservers s, nameservers ++ [JoinHostPort s (cc_Port c)]) [] (Servers c)
  end.

(** The loop of [updateConfig] over [nextConfig.UpstreamNameservers]:
    [None] when it meets a name server that does not validate (the
    [return] in the loop), else the [nameServers] it has appended. *)
Fixpoint validateNameservers (upstream nameServers : list string) : option (list string) :=
  match upstream with
  | [] => Some nameServers
  | nameServer :: rest =>
      match util.ValidateNameserverIpAndPort nameServer with
      | Err _ => None
      | Ok (ip, port) => validateNameservers rest (nameServers ++ [JoinHostPort ip port])
      end
  end.

Definition updateConfig (kd : KubeDNS) (nextConfig : Config) : KubeDNS :=
  match SkyDNSConfig kd with
  | Some sky =>
      match validateNameservers (UpstreamNameservers nextConfig) [] with
      | None =>
          if (length (Nameservers sky) =? 0)%nat
          then
            (* Fall back to resolv.conf on initialization failure. *)
            set_SkyDNSConfig kd (Some {| Nameservers := loadDefaultNameserver kd |})
          else kd
      | Some nameServers =>
          let kd' :=
            if (length nameServers =? 0)%nat
            then set_SkyDNSConfig kd (Some {| Nameservers := loadDefaultNameserver kd |})
            else set_SkyDNSConfig kd (Some {| Nameservers := nameServers |}) in
          set_config kd' (Some nextConfig)
      end
  | None => set_config kd (Some nextConfig)
  end.

Definition assertIsService (obj : Object) : option v1.Service :=
  match obj with
  | ObjService service => Some service
  | _ => None
  end.

Definition getHostname (address : v1.EndpointAddress) : string * bool :=
  if (0 <? String.length (v1.Hostname address))%nat
  then (v1.Hostname address, true)
  else (EmptyString, false).

Definition getServiceFQDN (domain : string) (service : v1.Service) : string :=
  strings.Join [v1.Name service; v1.Namespace service; serviceSubdomain; domain] ".".

(** fqdn constructs the fqdn for the given service. subpaths is a
    list of path elements rooted at the given service, ending at a
    service record. *)
Definition fqdn (kd : KubeDNS) (service : v1.Service) (subpaths : list string) : string :=
  let domainLabels :=
    (domainPath kd ++ [serviceSubdomain; v1.Namespace service; v1.Name service])
      ++ subpaths in
  Fqdn (strings.Join (util.ReverseArray domainLabels) ".").

Definition generateSRVRecordValue (kd : KubeDNS) (svc : v1.Service) (portNumber : Z)
    (labels : list string) : Service :=
  let host :=
    strings.Join [v1.Name svc; v1.Namespace svc; serviceSubdomain; domain kd] "." in
  let host := foldl (λ host cNameLabel, cNameLabel +:+ "." +:+ host) host labels in
  fst (util.GetSkyMsg host portNumber).

Definition getServiceFromEndpoints (kd : KubeDNS) (e : v1.Endpoints)
  : result (option v1.Service) :=
  let key := MetaNamespaceKey (v1.e_Namespace e) (v1.e_Name e) in
  match servicesStore kd !! key with
  | None => Ok None
  | Some obj =>
      match assertIsService obj with
      | Some svc => Ok (Some svc)
      | None => Err (Errorf "got a non service object in services store")
      end
  end.

(** The first half of [newPortalService]: the sub-cache of the
    service, one A record for every cluster IP and one SRV record
    for every named port with a protocol. *)
Definition portalSubCache (kd : KubeDNS) (service : v1.Service) : T :=
  foldl
    (λ subCache ip,
       let '(recordValue, recordLabel) := util.GetSkyMsg ip 0 in
       let subCache :=
         SetEntry recordLabel recordValue (fqdn kd service [recordLabel]) [] subCache in
       (* Generate SRV Records *)
       foldl
         (λ subCache port,
            if String.eqb (v1.sp_Name port) EmptyString
               || String.eqb (v1.sp_Protocol port) EmptyString
            then subCache
            else
              let srvValue := generateSRVRecordValue kd service (v1.sp_Port port) [] in
              let l := ["_" +:+ ToLower (v1.sp_Protocol port);
                        "_" +:+ v1.sp_Name port] in
              SetEntry recordLabel srvValue (fqdn kd service (l ++ [recordLabel])) l
                subCache)
         subCache (v1.Ports (v1.Spec service)))
    NewTreeCache (util.GetClusterIPs service).

Definition newPortalService (kd : KubeDNS) (service : v1.Service) : KubeDNS :=
  let subCache := portalSubCache kd service in
  let clusterIPs := util.GetClusterIPs service in
  let subCachePath := domainPath kd ++ [serviceSubdomain; v1.Namespace service] in
  let host := getServiceFQDN (domain kd) service in
  let reverseRecord := fst (util.GetSkyMsg host 0) in
  let kd := set_cache kd (SetSubCache (v1.Name service) subCache subCachePath (cache kd)) in
  foldl
    (λ kd ip,
       set_clusterIPServiceMap
         (set_reverseRecordMap kd (<[ip := reverseRecord]> (reverseRecordMap kd)))
         (<[ip := service]> (clusterIPServiceMap kd)))
    kd clusterIPs.

(** The loops of [generateRecordsForHeadlessService] over the
    subsets and their addresses: the sub-cache and the map
    [generatedRecords]. *)
Definition headlessRecords (kd : KubeDNS) (e : v1.Endpoints) (svc : v1.Service)
  : T * gmap string Service :=
  foldl
    (λ acc subset,
       foldl
         (λ '(subCache, generatedRecords) address,
            let endpointIP := v1.IP address in
            let '(recordValue, endpointName) := util.GetSkyMsg endpointIP 0 in
            let endpointName :=
              let '(hostLabel, exists_) := getHostname address in
              if exists_ then hostLabel else endpointName in
            let subCache :=
              SetEntry endpointName recordValue (fqdn kd svc [endpointName]) [] subCache in
            let subCache :=
              foldl
                (λ subCache endpointPort,
                   if negb (String.eqb (v1.ep_Name endpointPort) EmptyString)
                      && negb (String.eqb (v1.ep_Protocol endpointPort) EmptyString)
                   then
                     let srvValue :=
                       generateSRVRecordValue kd svc (v1.ep_Port endpointPort)
                         [endpointName] in
                     let l := ["_" +:+ ToLower (v1.ep_Protocol endpointPort);
                               "_" +:+ v1.ep_Name endpointPort] in
                     SetEntry endpointName srvValue (fqdn kd svc (l ++ [endpointName])) l
                       subCache
                   else subCache)
                subCache (v1.ep_Ports subset) in
            (* Generate PTR records only for Named Headless service. *)
            if snd (getHostname address)
            then
              let reverseRecord := fst (util.GetSkyMsg (fqdn kd svc [endpointName]) 0) in
              (subCache, <[endpointIP := reverseRecord]> generatedRecords)
            else (subCache, generatedRecords))
         acc (v1.Addresses subset))
    (NewTreeCache, ∅) (v1.Subsets e).

Definition generateRecordsForHeadlessService (kd : KubeDNS) (e : v1.Endpoints)
    (svc : v1.Service) : KubeDNS * option error :=
  let '(subCache, generatedRecords) := headlessRecords kd e svc in
  let subCachePath := domainPath kd ++ [serviceSubdomain; v1.Namespace svc] in
  let kd :=
    set_reverseRecordMap kd
      (map_fold (λ endpointIP reverseRecord m, <[endpointIP := reverseRecord]> m)
         (reverseRecordMap kd) generatedRecords) in
  (set_cache kd (SetSubCache (v1.Name svc) subCache subCachePath (cache kd)), None).

(** Generates skydns records for a headless service. *)
Definition newHeadlessService (kd : KubeDNS) (service : v1.Service)
  : KubeDNS * option error :=
  let key := MetaNamespaceKey (v1.Namespace service) (v1.Name service) in
  match endpointsStore kd !! key with
  | None => (kd, None)
  | Some (ObjEndpoints e) => generateRecordsForHeadlessService kd e service
  | Some _ => (kd, None)
  end.

(** Generates skydns records for an ExternalName service. *)
Definition newExternalNameService (kd : KubeDNS) (service : v1.Service) : KubeDNS :=
  let recordValue := fst (util.GetSkyMsg (v1.ExternalName (v1.Spec service)) 0) in
  let cachePath := domainPath kd ++ [serviceSubdomain; v1.Namespace service] in
  let fqdn := fqdn kd service [] in
  set_cache kd (SetEntry (v1.Name service) recordValue fqdn cachePath (cache kd)).

Definition newService (kd : KubeDNS) (obj : Object) : KubeDNS :=
  match assertIsService obj with
  | Some service =>
      if String.eqb (v1.Type_ (v1.Spec service)) v1.ServiceTypeExternalName
      then newExternalNameService kd service
      else if negb (util.IsServiceIPSet service)
      then fst (newHeadlessService kd service)
      else newPortalService kd service
  | None => kd
  end.

Definition removeService (kd : KubeDNS) (obj : Object) : KubeDNS :=
  match assertIsService obj with
  | Some s =>
      let subCachePath :=
        domainPath kd ++ [serviceSubdomain; v1.Namespace s; v1.Name s] in
      let kd := set_cache kd (fst (DeletePath subCachePath (cache kd))) in
      (* ExternalName services have no IP *)
      if util.IsServiceIPSet s
      then
        foldl
          (λ kd ip,
             set_clusterIPServiceMap
               (set_reverseRecordMap kd (delete ip (reverseRecordMap kd)))
               (delete ip (clusterIPServiceMap kd)))
          kd (util.GetClusterIPs s)
      else kd
  | None => kd
  end.

Definition updateService (kd : KubeDNS) (oldObj newObj : Object) : KubeDNS :=
  match assertIsService newObj with
  | Some new =>
      match assertIsService oldObj with
      | Some old =>
          let kd :=
            if negb (Bool.eqb
                       (String.eqb (v1.Type_ (v1.Spec new)) v1.ServiceTypeExternalName)
                       (String.eqb (v1.Type_ (v1.Spec old)) v1.ServiceTypeExternalName))
            then removeService kd oldObj
            else kd in
          newService kd newObj
      | None => kd
      end
  | None => kd
  end.

Definition addDNSUsingEndpoints (kd : KubeDNS) (e : v1.Endpoints)
  : KubeDNS * option error :=
  match getServiceFromEndpoints kd e with
  | Err err => (kd, Some err)
  | Ok None => (kd, None)
  | Ok (Some svc) =>
      if util.IsServiceIPSet svc
         || String.eqb (v1.Type_ (v1.Spec svc)) v1.ServiceTypeExternalName
      then (kd, None)
      else generateRecordsForHeadlessService kd e svc
  end.

Definition handleEndpointAdd (kd : KubeDNS) (obj : Object) : KubeDNS :=
  match obj with
  | ObjEndpoints e => fst (addDNSUsingEndpoints kd e)
  | _ => kd
  end.

(** The two loops of [handleEndpointUpdate] that fill and prune
    [oldAddressMap]: what is left are the old endpoint addresses
    whose PTR records are to be removed. *)
Definition oldAddressMap (oldEndpoints newEndpoints : v1.Endpoints) : gmap string bool :=
  let m :=
    foldl
      (λ m subset,
         foldl
           (λ m address,
              if snd (getHostname address) then <[v1.IP address := true]> m else m)
           m (v1.Addresses subset))
      (∅ : gmap string bool) (v1.Subsets oldEndpoints) in
  foldl
    (λ m subset,
       foldl
         (λ (m : gmap string bool) address,
            match m !! v1.IP address with
            | Some _ =>
                (* Entries are both in old and new endpoint. Remove from
                   the oldAddressMap if the address is still named to the
                   service. *)
                if snd (getHostname address) then delete (v1.IP address) m else m
            | None => m
            end)
         m (v1.Addresses subset))
    m (v1.Subsets newEndpoints).

Definition handleEndpointUpdate (kd : KubeDNS) (oldObj newObj : Object) : KubeDNS :=
  match oldObj with
  | ObjEndpoints oldEndpoints =>
      match newObj with
      | ObjEndpoints newEndpoints =>
          let kd :=
            match getServiceFromEndpoints kd oldEndpoints with
            | Ok (Some svc) =>
                if negb (util.IsServiceIPSet svc)
                then
                  (* Remove all old PTR records for the endpoints that are
                     not in new endpoints, or the addresses that are no
                     longer named. *)
                  set_reverseRecordMap kd
                    (map_fold (λ k _ m, delete k m) (reverseRecordMap kd)
                       (oldAddressMap oldEndpoints newEndpoints))
                else kd
            | _ => kd
            end in
          handleEndpointAdd kd newObj
      | _ => kd
      end
  | _ => kd
  end.

Definition handleEndpointDelete (kd : KubeDNS) (obj : Object) : KubeDNS :=
  match obj with
  | ObjEndpoints endpoints =>
      match getServiceFromEndpoints kd endpoints with
      | Err _ => kd
      | Ok None => kd
      | Ok (Some svc) =>
          if negb (util.IsServiceIPSet svc)
          then
            (* When endpoints for Named headless services deleted,
               delete old reverse dns records. *)
            foldl
              (λ kd subset,
                 foldl
                   (λ kd address,
                      if snd (getHostname address)
                      then set_reverseRecordMap kd
                             (delete (v1.IP address) (reverseRecordMap kd))
                      else kd)
                   kd (v1.Addresses subset))
              kd (v1.Subsets endpoints)
          else kd
      end
  | _ => kd
  end.

(** Returns true if the given record corresponds to a headless
    service. *)
Definition isHeadlessServiceRecord (kd : KubeDNS) (msg : Service) : bool :=
  match clusterIPServiceMap kd !! Host msg with
  | Some _ => false
  | None => true
  end.

(** Returns true if the service corresponding to the given message
    has endpoints. *)
Definition serviceWithClusterIPHasEndpoints (kd : KubeDNS) (msg : Service) : result bool :=
  match clusterIPServiceMap kd !! Host msg with
  | None => Err (Errorf "method not expected to be called for headless service")
  | Some svc =>
      let key := MetaNamespaceKey (v1.Namespace svc) (v1.Name svc) in
      match endpointsStore kd !! key with
      | None => Ok false
      | Some (ObjEndpoints e) => Ok (0 <? length (v1.Subsets e))%nat
      | Some _ =>
          Err (Errorf "unexpected: found non-endpoint object in endpoint store")
      end
  end.

(** ReverseRecord performs a reverse lookup for the given name. *)
Definition ReverseRecord (kd : KubeDNS) (name : string) : result Service :=
  let '(portalIP, ok) := util.ExtractIP name in
  if negb ok then Err (Errorf ("does not support reverse lookup for " +:+ name))
  else
    match reverseRecordMap kd !! portalIP with
    | Some reverseRecord => Ok reverseRecord
    | None => Err (Errorf "must be exactly one service record")
    end.

(** e.g {"local", "cluster", "pod", "default", "10-0-0-1"} *)
Definition isPodRecord (kd : KubeDNS) (path : list string) : bool :=
  if negb (length path =? length (domainPath kd) + 3)%nat then false
  else if negb (String.eqb (index path (length (domainPath kd))) podSubdomain) then false
  else forallb (λ segment, negb (String.eqb segment "*")) path.

Definition getPodIP (path : list string) : result string :=
  let ipStr := index path (length path - 1) in
  let ip := strings.Replace ipStr "-" "." in
  match ParseIP ip with
  | Some _ => Ok ip
  | None => Err (Errorf ("Invalid IP Address " +:+ ip))
  end.

(** The loop of [isFederationQuery] over [kd.domainPath], from index
    [i] on: [domComp != path[len(path)-i-1]] returns false. *)
Fixpoint matchesDomainPath (i : nat) (domainPath path : list string) : bool :=
  match domainPath with
  | [] => true
  | domComp :: rest =>
      if negb (String.eqb domComp (index path (length path - i - 1))) then false
      else matchesDomainPath (S i) rest path
  end.

(** isFederationQuery checks if the given query [path] matches the
    federated service query pattern.  Reading [kd.config.Federations]
    through a nil [kd.config] panics. *)
Definition isFederationQuery (kd : KubeDNS) (path : list string) : result bool :=
  if negb (length path =? 4 + length (domainPath kd))%nat then Ok false
  else if negb (length (IsDNS1035Label (index path 0)) =? 0)%nat then Ok false
  else if negb (length (IsDNS1123Label (index path 1)) =? 0)%nat then Ok false
  else if negb (length (IsDNS1123Label (index path 2)) =? 0)%nat then Ok false
  else if negb (String.eqb (index path 3) serviceSubdomain) then Ok false
  else if negb (matchesDomainPath 0 (domainPath kd) path) then Ok false
  else
    match config kd with
    | None => Err (Panic "invalid memory address or nil pointer dereference")
    | Some cfg =>
        match Federations cfg !! index path 2 with
        | None => Ok false
        | Some _ => Ok true
        end
    end.

(** The labels of a node are read at the end of
    [getClusterZoneAndRegion]. *)
Definition zoneAndRegionOf (node : option v1.Node) : result (string * string) :=
  match node with
  | None => Err (Errorf "Could not find any nodes")
  | Some node =>
      match v1.Labels node !! v1.LabelZoneFailureDomain with
      | None => Err (Errorf "unknown cluster zone")
      | Some zone =>
          if String.eqb zone EmptyString then Err (Errorf "unknown cluster zone")
          else
            match v1.Labels node !! v1.LabelZoneRegion with
            | None => Err (Errorf "unknown cluster region")
            | Some region =>
                if String.eqb region EmptyString
                then Err (Errorf "unknown cluster region")
                else Ok (zone, region)
            end
      end
  end.

(** getClusterZoneAndRegion returns the name of the zone and the
    region the cluster is running in.  It arbitrarily selects a node
    and reads the failure domain label on the node; a node that it
    had to fetch is added to [nodesStore]. *)
Definition getClusterZoneAndRegion (kd : KubeDNS) : result (string * string) * KubeDNS :=
  match nodesStore kd with
  | obj :: _ =>
      match obj with
      | ObjNode node => (zoneAndRegionOf (Some node), kd)
      | _ => (Err (Errorf "expected node object"), kd)
      end
  | [] =>
      match NodesList (kubeClient kd) with
      | Err _ => (Err (Errorf "failed to retrieve the cluster nodes"), kd)
      | Ok items =>
          if (length items =? 0)%nat
          then (Err (Errorf "failed to retrieve the cluster nodes"), kd)
          else
            (* Select a node (arbitrarily the first node) that has
               LabelZoneFailureDomain and LabelZoneRegion set. *)
            match
              List.find
                (λ nodeItem,
                   bool_decide (is_Some (v1.Labels nodeItem !! v1.LabelZoneFailureDomain))
                   && bool_decide (is_Some (v1.Labels nodeItem !! v1.LabelZoneRegion)))
                items
            with
            | Some node =>
                let kd := set_nodesStore kd (nodesStore kd ++ [ObjNode node]) in
                (zoneAndRegionOf (Some node), kd)
            | None => (zoneAndRegionOf None, kd)
            end
      end
  end.

(** [if !strings.HasSuffix(name, ".") { name = name + "." }] *)
Definition ensureTrailingDot (name : string) : string :=
  if negb (strings.HasSuffix name ".") then name +:+ "." else name.

(** federationRecords checks if the given [queryPath] is for a
    federated service and if it is, it returns a CNAME response
    containing the cluster zone name and federation domain name
    suffix. *)
Definition federationRecords (kd : KubeDNS) (queryPath : list string)
  : result (list Service) * KubeDNS :=
  let path := util.ReverseArray queryPath in
  match isFederationQuery kd path with
  | Err e => (Err e, kd)
  | Ok false => (Err ErrKeyNotFound, kd)
  | Ok true =>
      let path := take (length path - length (domainPath kd)) path in
      match getClusterZoneAndRegion kd with
      | (Err _, kd) =>
          (Err (Errorf "failed to obtain the cluster zone and region"), kd)
      | (Ok (zone, region), kd) =>
          let path := path ++ [zone; region] in
          match config kd with
          | None => (Err (Panic "invalid memory address or nil pointer dereference"), kd)
          | Some cfg =>
              let domain := default EmptyString (Federations cfg !! index path 2) in
              if negb (length (IsDNS1123Subdomain domain) =? 0)%nat
              then (Err (Errorf (domain +:+ " is not a valid domain name for federation "
                                 +:+ index path 2)), kd)
              else
                let name := strings.Join (path ++ [domain]) "." in
                (Ok [ServiceHostOnly (ensureTrailingDot name)], kd)
          end
      end
  end.

Definition getRecordsForPath (kd : KubeDNS) (path : list string) (exact : bool)
  : result (list Service) :=
  if isPodRecord kd path then
    match getPodIP path with
    | Ok ip => Ok [fst (util.GetSkyMsg ip 0)]
    | Err err => Err err
    end
  else if exact then
    match path with
    | [] => Err (Panic "index out of range")
    | _ =>
        let key := index path (length path - 1) in
        if String.eqb key EmptyString then Ok []
        else
          match GetEntry key (take (length path - 1) path) (cache kd) with
          | Some record => Ok [record]
          | None => Err ErrKeyNotFound
          end
    end
  else
    let records := GetValuesForPathWithWildcards path (cache kd) in
    Ok (foldl (λ retval val, retval ++ [val]) [] records).

(** The loop of [recordsForFederation] over the records of the local
    service: a record of a headless service is valid, a record of a
    service with a cluster IP is valid when the service has endpoints;
    the loop breaks at the first valid record. *)
Definition hasValidRecord (kd : KubeDNS) (records : list Service) : bool :=
  existsb
    (λ val,
       if negb (isHeadlessServiceRecord kd val) then
         match serviceWithClusterIPHasEndpoints kd val with
         | Err _ => false
         | Ok ok => ok
         end
       else true)
    records.

Definition recordsForFederation (kd : KubeDNS) (records : list Service)
    (path : list string) (exact : bool) (federationSegments : list string)
  : result (list Service) * KubeDNS :=
  (* For federation query, verify that the local service has endpoints. *)
  let validRecord := hasValidRecord kd records in
  if validRecord then
    (* There is a local service with valid endpoints, return its CNAME. *)
    let name := strings.Join (util.ReverseArray path) "." in
    (Ok [ServiceHostOnly (ensureTrailingDot name)], kd)
  else if negb exact then
    federationRecords kd (util.ReverseArray federationSegments)
  else (Err ErrKeyNotFound, kd).

(** Records responds with DNS records that match the given name, in a
    format understood by the skydns server. *)
Definition Records (kd : KubeDNS) (name : string) (exact : bool)
  : result (list Service) * KubeDNS :=
  let trimmed := strings.TrimRight name "." in
  let segments := strings.Split trimmed "." in
  match (if negb exact then isFederationQuery kd segments else Ok false) with
  | Err e => (Err e, kd)
  | Ok isFederationQuery =>
      let federationSegments := if isFederationQuery then segments else [] in
      let segments :=
        if isFederationQuery then take 2 segments ++ drop 3 segments else segments in
      let path := util.ReverseArray segments in
      match getRecordsForPath kd path exact with
      | Err err => (Err err, kd)
      | Ok records =>
          if isFederationQuery
          then recordsForFederation kd records path exact federationSegments
          else if (0 <? length records)%nat then (Ok records, kd)
          else (Err ErrKeyNotFound, kd)
      end
  end.
End with_libs.
End dns.

(** ** A model of the library functions

    The functions of [GoLibs] written out after the Go standard library
    ([net], [strconv], [fmt]), apimachinery's [validation] and
    miekg/dns, to run the engine on concrete names.  The theorems below
    do not depend on it: they hold for every [GoLibs]. *)

Module gomodel.

Definition byte_of (c : ascii) : Z := Z.of_N (N_of_ascii c).

Definition is_digit (c : ascii) : bool := (48 <=? byte_of c) && (byte_of c <=? 57).
Definition is_lower (c : ascii) : bool := (97 <=? byte_of c) && (byte_of c <=? 122).

Fixpoint index_byte_from (i : nat) (s : string) (c : ascii) : option nat :=
  match s with
  | EmptyString => None
  | String c' s' => if Ascii.eqb c' c then Some i else index_byte_from (S i) s' c
  end.

(** [bytealg.IndexByteString(s, c)] *)
Definition IndexByte (s : string) (c : ascii) : option nat := index_byte_from 0 s c.

Fixpoint last_byte_from (i : nat) (s : string) (c : ascii) (found : option nat) : option nat :=
  match s with
  | EmptyString => found
  | String c' s' => last_byte_from (S i) s' c (if Ascii.eqb c' c then Some i else found)
  end.

(** [last(s, c)] of package net: the index of the last [c]. *)
Definition LastIndexByte (s : string) (c : ascii) : option nat := last_byte_from 0 s c None.

(** [s[i]] *)
Definition at_ (s : string) (i : nat) : option ascii := String.get i s.

(** Bigger than we need, not too big to worry about overflow. *)
Definition big : Z := 16777215.

(** [dtoi]: decimal to integer; number, characters consumed, success. *)
Fixpoint dtoi_from (s : string) (n : Z) (i : nat) : Z * nat * bool :=
  match s with
  | String c s' =>
      if is_digit c then
        let n := n * 10 + (byte_of c - 48) in
        if big <=? n then (big, i, false) else dtoi_from s' n (S i)
      else if (i =? 0)%nat then (0, 0%nat, false) else (n, i, true)
  | EmptyString => if (i =? 0)%nat then (0, 0%nat, false) else (n, i, true)
  end.
Definition dtoi (s : string) : Z * nat * bool := dtoi_from s 0 0.

Definition hex_value (c : ascii) : option Z :=
  let b := byte_of c in
  if (48 <=? b) && (b <=? 57) then Some (b - 48)
  else if (97 <=? b) && (b <=? 102) then Some (b - 97 + 10)
  else if (65 <=? b) && (b <=? 70) then Some (b - 65 + 10)
  else None.

(** [xtoi]: hexadecimal to integer. *)
Fixpoint xtoi_from (s : string) (n : Z) (i : nat) : Z * nat * bool :=
  match s with
  | String c s' =>
      match hex_value c with
      | Some d =>
          let n := n * 16 + d in
          if big <=? n then (0, i, false) else xtoi_from s' n (S i)
      | None => if (i =? 0)%nat then (0, i, false) else (n, i, true)
      end
  | EmptyString => if (i =? 0)%nat then (0, i, false) else (n, i, true)
  end.
Definition xtoi (s : string) : Z * nat * bool := xtoi_from s 0 0.

(** [net.IP]: a slice of bytes, 16 of them for every parsed address. *)
Definition IP : Type := list Z.

Definition v4InV6Prefix : list Z := [0; 0; 0; 0; 0; 0; 0; 0; 0; 0; 255; 255].

(** The loop of [parseIPv4] with [k] octets to go, [i] done. *)
Fixpoint parseIPv4_loop (k i : nat) (s : string) (p : list Z) : option (list Z) :=
  match k with
  | O => if (String.length s =? 0)%nat then Some p else None
  | S k' =>
      if (String.length s =? 0)%nat then None (* Missing octets. *)
      else
        match (if (0 <? i)%nat
               then match s with
                    | String "." s' => Some s'
                    | _ => None
                    end
               else Some s) with
        | None => None
        | Some s =>
            let '(n, c, ok) := dtoi s in
            if negb ok || (255 <? n) then None
            else if (1 <? c)%nat && bool_decide (at_ s 0 = Some "0"%char)
            then None (* Reject non-zero components with leading zeroes. *)
            else parseIPv4_loop k' (S i) (strings.drop c s) (p ++ [n])
        end
  end.

(** [parseIPv4]: an IPv4 address in dotted decimal, as [IPv4(a, b, c, d)]. *)
Definition parseIPv4 (s : string) : option IP :=
  match parseIPv4_loop 4 0 s [] with
  | Some p => Some (v4InV6Prefix ++ p)
  | None => None
  end.

(** The loop of [parseIPv6], at most eight rounds: the bytes parsed so
    far ([i] of them), the position of the ellipsis, what is left of the
    string; [None] where the Go code returns nil. *)
Fixpoint parseIPv6_loop (fuel : nat) (s : string) (ellipsis : option nat) (ip : list Z)
  : option (string * option nat * list Z) :=
  match fuel with
  | O => Some (s, ellipsis, ip)
  | S fuel' =>
      let i := length ip in
      if (16 <=? i)%nat then Some (s, ellipsis, ip)
      else
        let '(n, c, ok) := xtoi s in
        if negb ok || (65535 <? n) then None
        else if (4 <? c)%nat then None (* More than 4 digits in group. *)
        else if bool_decide (at_ s c = Some "."%char) then
          (* If followed by dot, might be in trailing IPv4. *)
          if bool_decide (ellipsis = None) && negb (i =? 12)%nat then None
          else if (16 <? i + 4)%nat then None
          else
            match parseIPv4 s with
            | None => None
            | Some ip4 => Some (EmptyString, ellipsis, ip ++ List.skipn 12 ip4)
            end
        else
          (* Save this 16-bit chunk. *)
          let ip := ip ++ [Z.shiftr n 8; Z.land n 255] in
          let i := length ip in
          let s := strings.drop c s in
          match s with
          | EmptyString => Some (s, ellipsis, ip)
          | String c0 s1 =>
              (* Otherwise must be followed by colon and more. *)
              if negb (Ascii.eqb c0 ":") || (String.length s =? 1)%nat then None
              else
                match s1 with
                | String ":" s2 =>
                    (* Look for ellipsis. *)
                    match ellipsis with
                    | Some _ => None
                    | None =>
                        if (String.length s2 =? 0)%nat then Some (s2, Some i, ip)
                        else parseIPv6_loop fuel' s2 (Some i) ip
                    end
                | _ => parseIPv6_loop fuel' s1 ellipsis ip
                end
          end
  end.

Definition parseIPv6 (s : string) : option IP :=
  let '(s, ellipsis, only) :=
    match s with
    | String ":" (String ":" s') => (s', Some 0%nat, (String.length s' =? 0)%nat)
    | _ => (s, None, false)
    end in
  if only then Some (replicate 16 0)
  else
    match parseIPv6_loop 8 s ellipsis [] with
    | None => None
    | Some (s, ellipsis, ip) =>
        (* Must have used entire string. *)
        if negb (String.length s =? 0)%nat then None
        else if (length ip <? 16)%nat then
          match ellipsis with
          | None => None
          | Some e => Some (take e ip ++ replicate (16 - length ip) 0 ++ drop e ip)
          end
        else
          match ellipsis with
          | Some _ => None (* Ellipsis must represent at least one 0 group. *)
          | None => Some ip
          end
    end.

(** [net.ParseIP]: the first '.' or ':' decides the family. *)
Fixpoint ParseIP_scan (rest s : string) : option IP :=
  match rest with
  | EmptyString => None
  | String c rest' =>
      if Ascii.eqb c "." then parseIPv4 s
      else if Ascii.eqb c ":" then parseIPv6 s
      else ParseIP_scan rest' s
  end.
Definition ParseIP (s : string) : option IP := ParseIP_scan s s.

(** [uitoa] of a byte. *)
Definition digit (n : Z) : ascii := ascii_of_N (Z.to_N (48 + n)).
Definition ubtoa (v : Z) : string :=
  if v <? 10 then String (digit v) EmptyString
  else if v <? 100 then String (digit (v / 10)) (String (digit (v mod 10)) EmptyString)
  else String (digit (v / 100))
         (String (digit ((v / 10) mod 10)) (String (digit (v mod 10)) EmptyString)).

(** The dotted form of the IPv4 address [a.b.c.d]. *)
Definition dotted (a b c d : Z) : string :=
  ubtoa a +:+ "." +:+ ubtoa b +:+ "." +:+ ubtoa c +:+ "." +:+ ubtoa d.

(** [IP.To4]: the last four bytes of a 4-in-6 address. *)
Definition To4 (ip : IP) : option (list Z) :=
  if (length ip =? 4)%nat then Some ip
  else if (length ip =? 16)%nat && bool_decide (take 12 ip = v4InV6Prefix)
  then Some (drop 12 ip)
  else None.

(** The 16-bit groups of a 16-byte address. *)
Fixpoint groups (p : list Z) : list Z :=
  match p with
  | hi :: lo :: rest => Z.lor (Z.shiftl hi 8) lo :: groups rest
  | _ => []
  end.

(** The longest run of zero groups, the first of the longest ones:
    [(e0, e1)] in groups, scanning from group [i]; [run] is the start of
    the run of zeros that reaches [i], if there is one. *)
Fixpoint zero_run (gs : list Z) (i : nat) (run : option nat) (best : option (nat * nat))
  : option (nat * nat) :=
  let close (j : nat) :=
    match run with
    | Some r =>
        match best with
        | Some (e0, e1) => if (e1 - e0 <? j - r)%nat then Some (r, j) else best
        | None => Some (r, j)
        end
    | None => best
    end in
  match gs with
  | [] => close i
  | g :: gs' =>
      if g =? 0 then zero_run gs' (S i) (Some (default i run)) best
      else zero_run gs' (S i) None (close i)
  end.

Definition appendHex (g : Z) : string := fmt.Sprintf_x_uint32 g.

(** The printing loop of [IP.String] over the groups from [i] on. *)
Fixpoint print_groups (gs : list Z) (i : nat) (e : option (nat * nat)) : string :=
  match gs with
  | [] => EmptyString
  | g :: gs' =>
      match e with
      | Some (e0, e1) =>
          if (i =? e0)%nat then "::" +:+ print_groups gs' (S i) e
          else if (e0 <? i)%nat && (i <? e1)%nat then print_groups gs' (S i) e
          else (if (0 <? i)%nat && negb (i =? e1)%nat then ":" else "")
               +:+ appendHex g +:+ print_groups gs' (S i) e
      | None => (if (0 <? i)%nat then ":" else "") +:+ appendHex g +:+ print_groups gs' (S i) e
      end
  end.

(** [IP.String] *)
Definition IPString (ip : IP) : string :=
  if (length ip =? 0)%nat then "<nil>"
  else
    match To4 ip with
    | Some [a; b; c; d] => dotted a b c d
    | _ =>
        if negb (length ip =? 16)%nat then "?"
        else
          let gs := groups ip in
          let e :=
            match zero_run gs 0 None None with
            | Some (e0, e1) =>
                (* "::" is not used to shorten just one 16 bit 0 field. *)
                if (e1 - e0 <=? 1)%nat then None else Some (e0, e1)
            | None => None
            end in
          print_groups gs 0 e
    end.

(** [net.SplitHostPort] *)
Definition SplitHostPort (hostport : string) : result (string * string) :=
  let addrErr (why : string) : result (string * string) :=
    Err (Errorf ("address " +:+ hostport +:+ ": " +:+ why)) in
  let missingPort := "missing port in address" in
  let tooManyColons := "too many colons in address" in
  (* The port starts after the last colon. *)
  match LastIndexByte hostport ":" with
  | None => addrErr missingPort
  | Some i =>
      let parsed : string + string * nat * nat :=
        match at_ hostport 0 with
        | Some "["%char =>
            (* Expect the first ']' just before the last ':'. *)
            match IndexByte hostport "]" with
            | None => inl "missing ']' in address"
            | Some end_ =>
                if (end_ + 1 =? String.length hostport)%nat then inl missingPort
                else if (end_ + 1 =? i)%nat
                then inr (strings.take (end_ - 1) (strings.drop 1 hostport),
                          1%nat, (end_ + 1)%nat)
                else if bool_decide (at_ hostport (end_ + 1) = Some ":"%char)
                then inl tooManyColons
                else inl missingPort
            end
        | _ =>
            let host := strings.take i hostport in
            if bool_decide (is_Some (IndexByte host ":")) then inl tooManyColons
            else inr (host, 0%nat, 0%nat)
        end in
      match parsed with
      | inl why => addrErr why
      | inr (host, j, k) =>
          if bool_decide (is_Some (IndexByte (strings.drop j hostport) "["))
          then addrErr "unexpected '[' in address"
          else if bool_decide (is_Some (IndexByte (strings.drop k hostport) "]"))
          then addrErr "unexpected ']' in address"
          else Ok (host, strings.drop (i + 1) hostport)
      end
  end.

(** The digits of [strconv.Atoi], after the sign. *)
Fixpoint atoi_digits (s : string) (n : Z) : option Z :=
  match s with
  | EmptyString => Some n
  | String c s' => if is_digit c then atoi_digits s' (n * 10 + (byte_of c - 48)) else None
  end.

(** [strconv.Atoi]: an optional sign and decimal digits, in the range of
    [int] (64 bits). *)
Definition Atoi (s : string) : result Z :=
  let syntax := Err (Errorf ("strconv.Atoi: parsing " +:+ s +:+ ": invalid syntax")) in
  let range := Err (Errorf ("strconv.Atoi: parsing " +:+ s +:+ ": value out of range")) in
  let '(neg, digits) :=
    match s with
    | String "+" s' => (false, s')
    | String "-" s' => (true, s')
    | _ => (false, s)
    end in
  if (String.length digits =? 0)%nat then syntax
  else
    match atoi_digits digits 0 with
    | None => syntax
    | Some n =>
        let v := if neg then - n else n in
        if (v <? - 2 ^ 63) || (2 ^ 63 - 1 <? v) then range else Ok v
    end.

(** [strconv.Itoa] *)
Definition Itoa (n : Z) : string := NilZero.string_of_int (Z.to_int n).

(** [fmt.Sprintf("%v", msg)] of a [*skymsg.Service]: the fields Host,
    Port, Priority, Weight, Text, Mail, Ttl, TargetStrip, Group and Key
    in braces; the last five are never set by the engine. *)
Definition Sprintf_v (msg : Service) : string :=
  "&{" +:+ Host msg +:+ " " +:+ Itoa (Port msg) +:+ " " +:+ Itoa (Priority msg)
    +:+ " " +:+ Itoa (Weight msg) +:+ "  false " +:+ Itoa (Ttl msg) +:+ " 0  }".

(** The character classes of the label formats. *)
Definition is_alnum (c : ascii) : bool := is_lower c || is_digit c.
Definition is_label_byte (c : ascii) : bool := is_alnum c || Ascii.eqb c "-".

Fixpoint label_tail (s : string) : bool :=
  match s with
  | EmptyString => true
  | String c EmptyString => is_alnum c
  | String c s' => is_label_byte c && label_tail s'
  end.

(** [^[a-z0-9]([-a-z0-9]*[a-z0-9])?$] *)
Definition matches_dns1123Label (s : string) : bool :=
  match s with
  | EmptyString => false
  | String c s' => is_alnum c && label_tail s'
  end.

(** [^[a-z]([-a-z0-9]*[a-z0-9])?$] *)
Definition matches_dns1035Label (s : string) : bool :=
  match s with
  | EmptyString => false
  | String c s' => is_lower c && label_tail s'
  end.

Definition check (maxLen : nat) (matches : bool) (value : string) : list string :=
  (if (maxLen <? String.length value)%nat then ["must be no more than that many characters"]
   else [])
  ++ (if matches then [] else ["does not match the format"]).

Definition IsDNS1123Label (value : string) : list string :=
  check 63 (matches_dns1123Label value) value.
Definition IsDNS1035Label (value : string) : list string :=
  check 63 (matches_dns1035Label value) value.
(** [label(\.label)*] and at most 253 bytes. *)
Definition IsDNS1123Subdomain (value : string) : list string :=
  check 253 (forallb matches_dns1123Label (strings.Split value ".")) value.

(** The number of backslashes at the end of [s]. *)
Fixpoint trailing_backslashes (s : string) : nat :=
  match s with
  | EmptyString => O
  | String c s' =>
      match s' with
      | EmptyString => if Ascii.eqb c "\" then 1%nat else O
      | _ =>
          let n := trailing_backslashes s' in
          if (n =? String.length s')%nat && Ascii.eqb c "\" then S n else n
      end
  end.

(** [dns.IsFqdn]: the name ends in a dot that is not escaped. *)
Definition IsFqdn (s : string) : bool :=
  let s2 := strings.TrimSuffix s "." in
  if String.eqb s s2 then false
  else Nat.even (trailing_backslashes s2).

(** [dns.Fqdn] *)
Definition Fqdn (s : string) : string := if IsFqdn s then s else s +:+ ".".

(** [strings.ToLower] of ASCII text, its fast path: 'A'..'Z' become
    'a'..'z' and every other byte stays.  Text with bytes above 127 is
    outside this model. *)
Definition lower_byte (c : ascii) : ascii :=
  let n := N_of_ascii c in
  if ((65 <=? n) && (n <=? 90))%N then ascii_of_N (n + 32) else c.

Fixpoint ToLower (s : string) : string :=
  match s with
  | EmptyString => EmptyString
  | String c s' => String (lower_byte c) (ToLower s')
  end.

(** The libraries, on a host whose resolver file reads as [resolv]. *)
Definition libs (resolv : result ClientConfig) : GoLibs :=
  Build_GoLibs IP ParseIP IPString SplitHostPort Atoi Sprintf_v IsDNS1035Label
    IsDNS1123Label IsDNS1123Subdomain Fqdn (λ _, resolv) ToLower.

End gomodel.

(** ** Two caches behind the interface *)

Module calls.
(** A cache that only records the calls that change it, oldest first:
    what the engine writes, whatever the cache does with it. *)
Inductive Call : Type :=
| CallSetEntry (key : string) (val : Service) (fqdn : string) (path : list string)
| CallSetSubCache (key : string) (subCache : list Call) (path : list string)
| CallDeletePath (path : list string).

#[export] Instance recorder : treecache.TreeCache (list Call) :=
  {| treecache.NewTreeCache := [];
     treecache.SetEntry key val fqdn path log := log ++ [CallSetEntry key val fqdn path];
     treecache.SetSubCache key subCache path log := log ++ [CallSetSubCache key subCache path];
     treecache.GetEntry _ _ _ := None;
     treecache.GetValuesForPathWithWildcards _ _ := [];
     treecache.DeletePath path log := (log ++ [CallDeletePath path], false) |}.
End calls.

Module spectree.
(** Modelled from the spec: the tree cache of package [treecache], whose
    file is not among the sources.  A node has a mapping from child
    label to child node and a mapping from leaf key to payload (section
    3); the operations are those of section 4.1. *)
Inductive treeCache : Type :=
| TreeNode (ChildNodes : gmap string treeCache) (Entries : gmap string Service).

Definition ChildNodes (t : treeCache) : gmap string treeCache :=
  match t with TreeNode c _ => c end.
Definition Entries (t : treeCache) : gmap string Service :=
  match t with TreeNode _ e => e end.

Definition empty : treeCache := TreeNode ∅ ∅.

(** The node reached by [path], if all of it exists. *)
Fixpoint getSubCache (path : list string) (t : treeCache) : option treeCache :=
  match path with
  | [] => Some t
  | label :: rest =>
      match ChildNodes t !! label with
      | Some child => getSubCache rest child
      | None => None
      end
  end.

(** Change the node reached by [path], creating missing nodes. *)
Fixpoint atPath (path : list string) (f : treeCache → treeCache) (t : treeCache) : treeCache :=
  match path with
  | [] => f t
  | label :: rest =>
      TreeNode (<[label := atPath rest f (default empty (ChildNodes t !! label))]> (ChildNodes t))
        (Entries t)
  end.

(** Insert or replace a leaf payload in the node reached by the path. *)
Definition SetEntry (key : string) (val : Service) (fqdn : string) (path : list string)
    (t : treeCache) : treeCache :=
  atPath path (λ n, TreeNode (ChildNodes n) (<[key := val]> (Entries n))) t.

(** Replace the child node at path, then child label, wholesale. *)
Definition SetSubCache (key : string) (subCache : treeCache) (path : list string)
    (t : treeCache) : treeCache :=
  atPath path (λ n, TreeNode (<[key := subCache]> (ChildNodes n)) (Entries n)) t.

(** Exact leaf lookup at a specific node; an empty leaf key is a miss. *)
Definition GetEntry (key : string) (path : list string) (t : treeCache) : option Service :=
  match getSubCache path t with
  | Some n => Entries n !! key
  | None => None
  end.

Definition by_key {A} (l : list (string * A)) : list (string * A) :=
  merge_sort (λ x y, Is_true (String.leb x.1 y.1)) l.

(** All leaves of a node and, recursively, of its descendants: the
    leaves in the order of their keys, then the children in the order of
    their labels. *)
Fixpoint leaves (t : treeCache) : list Service :=
  match t with
  | TreeNode children entries =>
      (by_key (map_to_list entries)).*2
      ++ concat (by_key (map_to_list (leaves <$> children))).*2
  end.

(** The nodes addressed by a path; a segment "*" descends into every
    child at its level. *)
Fixpoint addressed (path : list string) (t : treeCache) : list treeCache :=
  match path with
  | [] => [t]
  | label :: rest =>
      if String.eqb label "*"
      then concat (map (addressed rest) (by_key (map_to_list (ChildNodes t))).*2)
      else match ChildNodes t !! label with
           | Some child => addressed rest child
           | None => []
           end
  end.

Definition GetValuesForPathWithWildcards (path : list string) (t : treeCache) : list Service :=
  remove_dups (concat (map leaves (addressed path t))).

Definition is_empty (t : treeCache) : bool :=
  bool_decide (map_to_list (ChildNodes t) = []) && bool_decide (Entries t = ∅).

(** Remove the node at the path and prune the ancestors that are left
    empty; whether a node was removed. *)
Fixpoint DeletePath (path : list string) (t : treeCache) : treeCache * bool :=
  match path with
  | [] => (t, false)
  | label :: rest =>
      match ChildNodes t !! label with
      | None => (t, false)
      | Some child =>
          match rest with
          | [] => (TreeNode (delete label (ChildNodes t)) (Entries t), true)
          | _ =>
              let '(child', removed) := DeletePath rest child in
              if removed && is_empty child'
              then (TreeNode (delete label (ChildNodes t)) (Entries t), true)
              else (TreeNode (<[label := child']> (ChildNodes t)) (Entries t), removed)
          end
      end
  end.

#[export] Instance cache : treecache.TreeCache treeCache :=
  {| treecache.NewTreeCache := empty;
     treecache.SetEntry := SetEntry;
     treecache.SetSubCache := SetSubCache;
     treecache.GetEntry := GetEntry;
     treecache.GetValuesForPathWithWildcards := GetValuesForPathWithWildcards;
     treecache.DeletePath := DeletePath |}.
End spectree.

(** ** The informer

    client-go's informer puts an object into its store (or takes it out)
    and then calls the handler that [setServicesStore] and
    [setEndpointsStore] registered for the event. *)

Module informer.
Import dns.

Inductive Event : Type :=
| ServiceAdded (s : v1.Service)
| ServiceUpdated (old new : v1.Service)
| ServiceDeleted (s : v1.Service)
| EndpointsAdded (e : v1.Endpoints)
| EndpointsUpdated (old new : v1.Endpoints)
| EndpointsDeleted (e : v1.Endpoints).

Section with_libs.
Context `{GoLibs} {T : Type} `{treecache.TreeCache T}.

Definition serviceKey (s : v1.Service) : string :=
  MetaNamespaceKey (v1.Namespace s) (v1.Name s).
Definition endpointsKey (e : v1.Endpoints) : string :=
  MetaNamespaceKey (v1.e_Namespace e) (v1.e_Name e).

Definition deliver (kd : KubeDNS) (ev : Event) : KubeDNS :=
  match ev with
  | ServiceAdded s =>
      newService
        (set_servicesStore kd (<[serviceKey s := ObjService s]> (servicesStore kd)))
        (ObjService s)
  | ServiceUpdated old new =>
      updateService
        (set_servicesStore kd (<[serviceKey new := ObjService new]> (servicesStore kd)))
        (ObjService old) (ObjService new)
  | ServiceDeleted s =>
      removeService
        (set_servicesStore kd (delete (serviceKey s) (servicesStore kd)))
        (ObjService s)
  | EndpointsAdded e =>
      handleEndpointAdd
        (set_endpointsStore kd (<[endpointsKey e := ObjEndpoints e]> (endpointsStore kd)))
        (ObjEndpoints e)
  | EndpointsUpdated old new =>
      handleEndpointUpdate
        (set_endpointsStore kd (<[endpointsKey new := ObjEndpoints new]> (endpointsStore kd)))
        (ObjEndpoints old) (ObjEndpoints new)
  | EndpointsDeleted e =>
      handleEndpointDelete
        (set_endpointsStore kd (delete (endpointsKey e) (endpointsStore kd)))
        (ObjEndpoints e)
  end.

(** The events of a run, in the order they are handled. *)
Definition run (kd : KubeDNS) (events : list Event) : KubeDNS := foldl deliver kd events.
End with_libs.
End informer.

(** ** A small cluster to run the engine on *)

Module example.
#[local] Existing Instance spectree.cache.

(** A host whose resolv.conf names one recursive resolver. *)
Definition host : GoLibs :=
  gomodel.libs (Ok {| Servers := ["169.254.169.254"%string]; cc_Port := "53" |}).

Definition node : v1.Node :=
  {| v1.n_Name := "node-1";
     v1.Labels := {[ v1.LabelZoneFailureDomain := "z1"%string;
                     v1.LabelZoneRegion := "r1"%string ]} |}.

Definition client : dns.Clientset := {| dns.NodesList := Ok [node] |}.

(** The engine for the domain "cluster.local.", before any event. *)
Definition kd0 : dns.KubeDNS :=
  dns.NewKubeDNS (T := spectree.treeCache) client "cluster.local.".

(** The same with a SkyDNS server config that has no name servers yet. *)
Definition kd_sky : dns.KubeDNS :=
  dns.set_SkyDNSConfig kd0 (Some {| Nameservers := [] |}).

Definition federated : Config :=
  {| Federations := {[ "myfed"%string := "example.com"%string ]};
     UpstreamNameservers := [] |}.

(** The engine after a configuration with one federation was loaded. *)
Definition kd_fed : dns.KubeDNS := dns.set_config kd0 (Some federated).

Definition web : v1.Service :=
  {| v1.Name := "web"; v1.Namespace := "prod";
     v1.Spec := {| v1.Type_ := "ClusterIP"; v1.ClusterIP := "10.0.0.5";
                   v1.ClusterIPs := ["10.0.0.5"%string];
                   v1.Ports := [ {| v1.sp_Name := "http"; v1.sp_Protocol := "TCP";
                                    v1.sp_Port := 80 |};
                                 {| v1.sp_Name := ""; v1.sp_Protocol := "UDP";
                                    v1.sp_Port := 53 |} ];
                   v1.ExternalName := "" |} |}.

Definition db : v1.Service :=
  {| v1.Name := "db"; v1.Namespace := "prod";
     v1.Spec := {| v1.Type_ := "ClusterIP"; v1.ClusterIP := "None";
                   v1.ClusterIPs := []; v1.Ports := []; v1.ExternalName := "" |} |}.

Definition endpoints_of (addresses : list v1.EndpointAddress) : v1.Endpoints :=
  {| v1.e_Name := "db"; v1.e_Namespace := "prod";
     v1.Subsets := [ {| v1.Addresses := addresses;
                        v1.ep_Ports := [ {| v1.ep_Name := "sql"; v1.ep_Protocol := "TCP";
                                            v1.ep_Port := 5432 |} ] |} ] |}.

Definition named (ip hostname : string) : v1.EndpointAddress :=
  {| v1.IP := ip; v1.Hostname := hostname |}.
Definition unnamed (ip : string) : v1.EndpointAddress :=
  {| v1.IP := ip; v1.Hostname := "" |}.

End example.

(** ** The vocabulary of the properties *)

Section vocabulary.
Context `{GoLibs} {T : Type} `{treecache.TreeCache T}.
Implicit Types kd : dns.KubeDNS (T:=T).

(** The three tests a "host:port" name server has to pass. *)
Definition validHostPort (s host port : string) : Prop :=
  SplitHostPort s = Ok (host, port)
  ∧ is_Some (ParseIP host)
  ∧ ∃ p : Z, Atoi port = Ok p ∧ 1 ≤ p ≤ 65535.

(** Conditions 1 to 5 of the federated service query pattern: the shape
    of the name. *)
Definition federationShape kd (path : list string) : Prop :=
  length path = (length (dns.domainPath kd) + 4)%nat
  ∧ IsDNS1035Label (dns.index path 0) = []
  ∧ IsDNS1123Label (dns.index path 1) = []
  ∧ IsDNS1123Label (dns.index path 2) = []
  ∧ dns.index path 3 = "svc"%string
  ∧ drop 4 path = reverse (dns.domainPath kd).

(** Condition 6: the federation is one of the configured ones. *)
Definition federationConfigured kd (path : list string) : Prop :=
  ∃ cfg, dns.config kd = Some cfg ∧ is_Some (Federations cfg !! dns.index path 2).

(** The CNAME target of a federation query: the first four labels, the
    zone, the region and the parent domain of the federation. *)
Definition redirectHost (path : list string) (zone region parent : string) : string :=
  dns.ensureTrailingDot
    (strings.Join [dns.index path 0; dns.index path 1; dns.index path 2; "svc"%string;
                   zone; region; parent] ".").

(** The path of the local service that a federation query is tried on
    first: the name without its federation label, reversed. *)
Definition localPath (segments : list string) : list string :=
  reverse (take 2 segments ++ drop 3 segments).

(** What a pod query is answered with: the last label with its dashes
    replaced by dots, when that parses as an IP address. *)
Definition podAnswer (path : list string) : result (list Service) :=
  let ip := strings.Replace (dns.index path (length path - 1)) "-" "." in
  match ParseIP ip with
  | Some _ => Ok [ {| Host := ip; Port := 0; Priority := 10; Weight := 10; Ttl := 30 |} ]
  | None => Err (Errorf ("Invalid IP Address " +:+ ip))
  end.

(** The addresses of an endpoints object, subset after subset. *)
Definition allAddresses (e : v1.Endpoints) : list v1.EndpointAddress :=
  concat (v1.Addresses <$> v1.Subsets e).

(** [ip] is the IP of an address of [e] that carries a hostname. *)
Definition namedIn (e : v1.Endpoints) (ip : string) : Prop :=
  ∃ a, a ∈ allAddresses e ∧ v1.IP a = ip ∧ v1.Hostname a ≠ EmptyString.

(** [ip] is absent from [e], or present without a hostname. *)
Definition unnamedIn (e : v1.Endpoints) (ip : string) : Prop :=
  ∀ a, a ∈ allAddresses e → v1.IP a = ip → v1.Hostname a = EmptyString.

Definition namedb (ip : string) (a : v1.EndpointAddress) : bool :=
  String.eqb (v1.IP a) ip && snd (dns.getHostname a).

(** The reverse record of a named endpoint address. *)
Definition ptrRecord kd (svc : v1.Service) (a : v1.EndpointAddress) : Service :=
  fst (util.GetSkyMsg (dns.fqdn kd svc [v1.Hostname a]) 0).

Definition stage kd (svc : v1.Service) (g : gmap string Service) (a : v1.EndpointAddress)
  : gmap string Service :=
  if snd (dns.getHostname a) then <[v1.IP a := ptrRecord kd svc a]> g else g.

(** What an endpoints object adds to the reverse record map: the staged
    records of [generateRecordsForHeadlessService], when the object
    belongs to a headless service of the services store that is no
    ExternalName service. *)
Definition stagedFor kd (e : v1.Endpoints) : gmap string Service :=
  match dns.getServiceFromEndpoints kd e with
  | Ok (Some svc) =>
      if util.IsServiceIPSet svc
         || String.eqb (v1.Type_ (v1.Spec svc)) v1.ServiceTypeExternalName
      then ∅
      else foldl (stage kd svc) ∅ (allAddresses e)
  | _ => ∅
  end.

(** The IP is in use through the service that the services store holds
    under [key]: as a cluster IP of a service with a cluster IP, or as
    an address with a hostname in the endpoints object that the
    endpoints store holds under the key of a headless service.  An
    ExternalName service uses none. *)
Definition usedAt kd (key ip : string) : Prop :=
  ∃ s, dns.servicesStore kd !! key = Some (ObjService s)
       ∧ v1.Type_ (v1.Spec s) ≠ v1.ServiceTypeExternalName
       ∧ if util.IsServiceIPSet s then ip ∈ util.GetClusterIPs s
         else ∃ e, dns.endpointsStore kd !! key = Some (ObjEndpoints e) ∧ namedIn e ip.

(** Every IP in use has an entry in the reverse record map. *)
Definition ptrComplete kd : Prop :=
  ∀ key ip, usedAt kd key ip → is_Some (dns.reverseRecordMap kd !! ip).

(** The key of the object of an event. *)
Definition eventKey (ev : informer.Event) : string :=
  match ev with
  | informer.ServiceAdded s => informer.serviceKey s
  | informer.ServiceUpdated _ new => informer.serviceKey new
  | informer.ServiceDeleted s => informer.serviceKey s
  | informer.EndpointsAdded e => informer.endpointsKey e
  | informer.EndpointsUpdated _ new => informer.endpointsKey new
  | informer.EndpointsDeleted e => informer.endpointsKey e
  end.

(** An endpoints update carries two versions of one object. *)
Definition sameObject (ev : informer.Event) : Prop :=
  match ev with
  | informer.EndpointsUpdated old new => informer.endpointsKey old = informer.endpointsKey new
  | _ => True
  end.

(** The IPs that an event gives up: the cluster IPs of the old version
    of a service, the addresses that the old version of an endpoints
    object carries with a hostname and the new one does not. *)
Definition released (ev : informer.Event) (ip : string) : Prop :=
  match ev with
  | informer.ServiceAdded _ | informer.EndpointsAdded _ => False
  | informer.ServiceUpdated old _ | informer.ServiceDeleted old =>
      util.IsServiceIPSet old = true ∧ ip ∈ util.GetClusterIPs old
  | informer.EndpointsUpdated old new => namedIn old ip ∧ unnamedIn new ip
  | informer.EndpointsDeleted e => namedIn e ip
  end.

(** The events of a run, each met in the state that the events before
    it have left: an endpoints update carries two versions of one
    object, and the IPs that an event gives up are not in use under
    another key. *)
Fixpoint admissible kd (events : list informer.Event) : Prop :=
  match events with
  | [] => True
  | ev :: rest =>
      sameObject ev
      ∧ (∀ key ip, released ev ip → key ≠ eventKey ev → ¬ usedAt kd key ip)
      ∧ admissible (informer.deliver kd ev) rest
  end.

(** The handlers leave the two informer stores alone. *)
Definition sameStores kd kd' : Prop :=
  dns.servicesStore kd' = dns.servicesStore kd
  ∧ dns.endpointsStore kd' = dns.endpointsStore kd.

End vocabulary.

Section recorded.
Context `{GoLibs}.
#[local] Existing Instance calls.recorder.
Implicit Types kd : dns.KubeDNS (T:=list calls.Call).

(** A service port gets an SRV record: it has a name and a protocol. *)
Definition hasSRV (port : v1.ServicePort) : bool :=
  negb (String.eqb (v1.sp_Name port) EmptyString)
  && negb (String.eqb (v1.sp_Protocol port) EmptyString).

(** The host of the SRV records of a service. *)
Definition srvHost kd (service : v1.Service) : string :=
  v1.Name service +:+ "." +:+ v1.Namespace service +:+ ".svc." +:+ dns.domain kd.

(** The child path of the SRV record of a port. *)
Definition srvPath (port : v1.ServicePort) : list string :=
  ["_" +:+ ToLower (v1.sp_Protocol port); "_" +:+ v1.sp_Name port].

(** The [SetEntry] call that stores the SRV record of a port under the
    leaf key [label]. *)
Definition srvEntry kd (service : v1.Service) (label : string) (port : v1.ServicePort)
  : calls.Call :=
  calls.CallSetEntry label
    {| Host := srvHost kd service; Port := v1.sp_Port port;
       Priority := 10; Weight := 10; Ttl := 30 |}
    (dns.fqdn kd service (srvPath port ++ [label])) (srvPath port).

(** The calls for one cluster IP: the A record, then the SRV records. *)
Definition portalEntries kd (service : v1.Service) (ip : string) : list calls.Call :=
  let label := snd (util.GetSkyMsg ip 0) in
  calls.CallSetEntry label
    {| Host := ip; Port := 0; Priority := 10; Weight := 10; Ttl := 30 |}
    (dns.fqdn kd service [label]) []
  :: (srvEntry kd service label <$> filter (λ port, hasSRV port = true)
                                      (v1.Ports (v1.Spec service))).

(** The label of the records of an endpoint address: its hostname, or
    the hash label of its A record. *)
Definition endpointName (a : v1.EndpointAddress) : string :=
  if snd (dns.getHostname a) then v1.Hostname a else snd (util.GetSkyMsg (v1.IP a) 0).

(** An endpoint port gets an SRV record: it has a name and a protocol. *)
Definition hasEndpointSRV (port : v1.EndpointPort) : bool :=
  negb (String.eqb (v1.ep_Name port) EmptyString)
  && negb (String.eqb (v1.ep_Protocol port) EmptyString).

Definition endpointSrvPath (port : v1.EndpointPort) : list string :=
  ["_" +:+ ToLower (v1.ep_Protocol port); "_" +:+ v1.ep_Name port].

(** The [SetEntry] call for the SRV record of an endpoint port. *)
Definition endpointSrvEntry kd (svc : v1.Service) (label : string) (port : v1.EndpointPort)
  : calls.Call :=
  calls.CallSetEntry label
    {| Host := strings.Join [label; v1.Name svc; v1.Namespace svc; "svc"%string;
                             dns.domain kd] ".";
       Port := v1.ep_Port port; Priority := 10; Weight := 10; Ttl := 30 |}
    (dns.fqdn kd svc (endpointSrvPath port ++ [label])) (endpointSrvPath port).

(** The calls for one address of a subset: the A record, then the SRV
    records of the ports of the subset. *)
Definition headlessEntries kd (svc : v1.Service) (subset : v1.EndpointSubset)
    (a : v1.EndpointAddress) : list calls.Call :=
  calls.CallSetEntry (endpointName a)
    {| Host := v1.IP a; Port := 0; Priority := 10; Weight := 10; Ttl := 30 |}
    (dns.fqdn kd svc [endpointName a]) []
  :: (endpointSrvEntry kd svc (endpointName a)
        <$> filter (λ port, hasEndpointSRV port = true) (v1.ep_Ports subset)).

End recorded.

(** * Properties *)

(** ** [ReverseArray] reverses *)

Section ReverseArray_facts.
Context {A : Type}.
Implicit Types arr : list A.

Lemma swap_length arr i j : length (util.swap arr i j) = length arr.
Proof.
  unfold util.swap. destruct (arr !! i), (arr !! j); rewrite ?length_insert; done.
Qed.

Lemma swap_lookup arr i j k :
  (i < length arr)%nat → (j < length arr)%nat →
  util.swap arr i j !! k =
    if decide (k = j) then arr !! i else if decide (k = i) then arr !! j else arr !! k.
Proof.
  intros Hi Hj. unfold util.swap.
  destruct (lookup_lt_is_Some_2 arr i Hi) as [x Hx].
  destruct (lookup_lt_is_Some_2 arr j Hj) as [y Hy].
  rewrite Hx, Hy.
  destruct (decide (k = j)) as [->|Hkj].
  - rewrite list_lookup_insert_eq; [done | by rewrite length_insert].
  - rewrite list_lookup_insert_ne by done.
    destruct (decide (k = i)) as [->|Hki].
    + by rewrite list_lookup_insert_eq.
    + by rewrite list_lookup_insert_ne.
Qed.

Lemma ReverseArray_loop_length n i arr :
  length (util.ReverseArray_loop n i arr) = length arr.
Proof.
  revert i arr. induction n as [|n IH]; intros i arr; simpl; [done|].
  by rewrite IH, swap_length.
Qed.

Lemma ReverseArray_loop_lookup arr0 n i arr k :
  length arr = length arr0 →
  (2 * (i + n) ≤ length arr0)%nat →
  (k < length arr0)%nat →
  (∀ k', (k' < length arr0)%nat →
     arr !! k' = if decide (k' < i ∨ length arr0 - i ≤ k')%nat
                 then arr0 !! (length arr0 - 1 - k')%nat else arr0 !! k') →
  util.ReverseArray_loop n i arr !! k =
    if decide (k < i + n ∨ length arr0 - (i + n) ≤ k)%nat
    then arr0 !! (length arr0 - 1 - k)%nat else arr0 !! k.
Proof.
  revert i arr. induction n as [|n IH]; intros i arr Hlen Hn Hk Hinv; simpl.
  - rewrite Hinv by done. repeat case_decide; try done; lia.
  - rewrite (IH (S i)); [| by rewrite swap_length | lia | done |].
    + repeat case_decide; try done; lia.
    + intros k' Hk'. rewrite swap_lookup by lia. rewrite Hlen.
      rewrite !Hinv by lia.
      repeat case_decide; try done; try lia; f_equal; lia.
Qed.

Lemma ReverseArray_reverse arr : util.ReverseArray arr = reverse arr.
Proof.
  unfold util.ReverseArray.
  apply list_eq_same_length with (length arr).
  - by rewrite length_reverse.
  - by rewrite ReverseArray_loop_length.
  - intros k x y Hk Hx Hy.
    pose proof (Nat.div_mod_eq (length arr) 2) as Hdm.
    pose proof (Nat.mod_upper_bound (length arr) 2) as Hmod.
    rewrite (ReverseArray_loop_lookup arr) in Hx; [| done | lia | done |].
    + rewrite reverse_lookup in Hy by done.
      case_decide as Hc.
      * replace (length arr - S k)%nat with (length arr - 1 - k)%nat in Hy by lia. congruence.
      * assert (length arr - S k = k)%nat as Heq by lia.
        rewrite Heq in Hy. congruence.
    + intros k' Hk'. case_decide; [lia | done].
Qed.
End ReverseArray_facts.


(** ** Facts about package [strings] *)

Section strings_facts.
Implicit Types s t : string.

Lemma append_cons c s t : String c s +:+ t = String c (s +:+ t).
Proof. reflexivity. Qed.

Lemma len_app s t : strings.len (s +:+ t) = (strings.len s + strings.len t)%nat.
Proof. unfold strings.len. induction s as [|c s IH]; simpl; [done | by rewrite IH]. Qed.

Lemma drop_app s t : strings.drop (strings.len s) (s +:+ t) = t.
Proof. induction s as [|c s IH]; simpl; [by destruct t | done]. Qed.

Lemma take_app s t : strings.take (strings.len s) (s +:+ t) = s.
Proof. induction s as [|c s IH]; simpl; [done | by rewrite IH]. Qed.

Lemma take_drop s i : strings.take i s +:+ strings.drop i s = s.
Proof.
  revert i. induction s as [|c s IH]; intros [|i]; simpl; try done.
  rewrite append_cons. f_equal. apply IH.
Qed.

Lemma HasSuffix_app s suffix : strings.HasSuffix (s +:+ suffix) suffix = true.
Proof.
  unfold strings.HasSuffix. rewrite len_app.
  replace (strings.len s + strings.len suffix - strings.len suffix)%nat
    with (strings.len s) by lia.
  rewrite drop_app, String.eqb_refl, andb_true_r. apply Nat.leb_le. lia.
Qed.

Lemma TrimSuffix_app s suffix : strings.TrimSuffix (s +:+ suffix) suffix = s.
Proof.
  unfold strings.TrimSuffix. rewrite HasSuffix_app, len_app.
  replace (strings.len s + strings.len suffix - strings.len suffix)%nat
    with (strings.len s) by lia.
  apply take_app.
Qed.

Lemma HasSuffix_inv s suffix :
  strings.HasSuffix s suffix = true → ∃ s', s = s' +:+ suffix.
Proof.
  unfold strings.HasSuffix. intros [_ Heq%String.eqb_eq]%andb_true_iff.
  exists (strings.take (strings.len s - strings.len suffix) s).
  etrans; [symmetry; apply (take_drop s (strings.len s - strings.len suffix)) |].
  by rewrite Heq.
Qed.

Lemma Split_nonempty s sep : strings.Split s sep ≠ [].
Proof.
  induction s as [|c s IH]; simpl; [done|].
  destruct (Ascii.eqb c sep); [done|]. by destruct (strings.Split s sep).
Qed.

Lemma Split_no_sep s sep :
  strings.contains_byte sep s = false → strings.Split s sep = [s].
Proof.
  induction s as [|c s IH]; simpl; [done|].
  intros [Hc Hs]%orb_false_iff. rewrite Hc, IH; done.
Qed.

Lemma Split_app s t sep :
  strings.contains_byte sep s = false →
  strings.Split (s +:+ String sep t) sep = s :: strings.Split t sep.
Proof.
  induction s as [|c s IH]; simpl.
  - intros _. by rewrite Ascii.eqb_refl.
  - intros [Hc Hs]%orb_false_iff. rewrite Hc, IH; done.
Qed.

Lemma app_assoc' s t u : (s +:+ t) +:+ u = s +:+ (t +:+ u).
Proof. induction s as [|c s IH]; [done | by rewrite !append_cons, IH]. Qed.
End strings_facts.


Lemma ubtoa_no_dot (v : Z) :
  0 ≤ v < 256 → strings.contains_byte "." (gomodel.ubtoa v) = false.
Proof.
  intros Hv.
  assert (forallb (λ v, negb (strings.contains_byte "." (gomodel.ubtoa v)))
            (Z.of_nat <$> seq 0 256) = true) as Hall by (vm_compute; reflexivity).
  rewrite forallb_forall in Hall.
  apply negb_true_iff, Hall, list_elem_of_In, list_elem_of_fmap.
  exists (Z.to_nat v). split; [lia|]. apply elem_of_seq. lia.
Qed.

Lemma Split_dotted (a b c d : string) :
  strings.contains_byte "." a = false → strings.contains_byte "." b = false →
  strings.contains_byte "." c = false → strings.contains_byte "." d = false →
  strings.Split (a +:+ "." +:+ b +:+ "." +:+ c +:+ "." +:+ d) "." = [a; b; c; d].
Proof.
  intros Ha Hb Hc Hd.
  change (a +:+ "." +:+ b +:+ "." +:+ c +:+ "." +:+ d)
    with (a +:+ String "." (b +:+ String "." (c +:+ String "." d))).
  by rewrite !Split_app, Split_no_sep.
Qed.

(** C6.  For every IPv4 address a.b.c.d, [ExtractIP] of
    "d.c.b.a.in-addr.arpa." is ("a.b.c.d", true); and for every string
    that does not end with the suffix ".in-addr.arpa.", [ExtractIP]
    returns ok = false. *)
Theorem ExtractIP_reverse_roundtrip :
  (∀ a b c d : Z,
     0 ≤ a < 256 → 0 ≤ b < 256 → 0 ≤ c < 256 → 0 ≤ d < 256 →
     util.ExtractIP (gomodel.dotted d c b a +:+ ".in-addr.arpa.")
       = (gomodel.dotted a b c d, true))
  ∧ (∀ reverseName : string,
       strings.HasSuffix reverseName util.ArpaSuffix = false →
       util.ExtractIP reverseName = (EmptyString, false)).
Proof.
  split.
  - intros a b c d Ha Hb Hc Hd. unfold util.ExtractIP, util.ArpaSuffix.
    rewrite HasSuffix_app, TrimSuffix_app. simpl negb. cbv iota.
    unfold gomodel.dotted.
    rewrite Split_dotted by (by apply ubtoa_no_dot).
    rewrite ReverseArray_reverse. reflexivity.
  - intros s Hs. unfold util.ExtractIP. by rewrite Hs.
Qed.

Lemma ExtractIP_reverse_roundtrip_witness :
  util.ExtractIP "5.0.0.10.in-addr.arpa." = ("10.0.0.5"%string, true)
  ∧ util.ExtractIP "5.0.0.10.ip6.arpa." = (EmptyString, false).
Proof.
  split.
  - apply (proj1 ExtractIP_reverse_roundtrip 10 0 0 5); lia.
  - apply (proj2 ExtractIP_reverse_roundtrip). reflexivity.
Defined.

(** ** Upstream name servers *)

Section nameservers.
Context `{GoLibs}.

Lemma ValidateNameserverIpAndPort_hostport (s host port : string) :
  ParseIP s = None →
  util.ValidateNameserverIpAndPort s = Ok (host, port) ↔ validHostPort s host port.
Proof.
  intros Hs. unfold util.ValidateNameserverIpAndPort, validHostPort. rewrite Hs.
  destruct (SplitHostPort s) as [[h p]|e]; [|split; [done | by intros [? _]]].
  destruct (ParseIP h) as [ip|] eqn:Hh.
  - destruct (Atoi p) as [n|e] eqn:Hp.
    + destruct (Z.ltb_spec n 1) as [H1|H1]; [|destruct (Z.ltb_spec 65535 n) as [H2|H2]]; simpl.
      * split; [done|]. intros (Heq & _ & n' & Hn' & Hr). simplify_eq.
        assert (n' = n) by congruence. lia.
      * split; [done|]. intros (Heq & _ & n' & Hn' & Hr). simplify_eq.
        assert (n' = n) by congruence. lia.
      * split.
        -- intros ?; simplify_eq. rewrite Hh, Hp. split_and!; [done | by eexists |].
           exists n. split; [done | lia].
        -- intros (Heq & _); by simplify_eq.
    + split; [done|]. intros (Heq & _ & n' & Hn' & Hr). simplify_eq. congruence.
  - split; [done|]. intros (Heq & [ip Hip] & _). simplify_eq.
Qed.

(** C8, as the code has it: a string that parses as an IP address comes
    back in the canonical text of that address ([ip.String()]) with port
    "53"; any other string is accepted exactly when it splits into a
    host that parses as an IP address and a port that is an integer in
    [1, 65535], which are returned as they are; every other case is an
    error. *)
Theorem ValidateNameserverIpAndPort_spec (s : string) :
  (∀ ip, ParseIP s = Some ip →
     util.ValidateNameserverIpAndPort s = Ok (IPString ip, "53"%string))
  ∧ (ParseIP s = None →
     (∀ host port,
        util.ValidateNameserverIpAndPort s = Ok (host, port) ↔ validHostPort s host port)
     ∧ ((¬ ∃ host port, validHostPort s host port) →
        ∃ err, util.ValidateNameserverIpAndPort s = Err err)).
Proof.
  split.
  - intros ip Hip. unfold util.ValidateNameserverIpAndPort. by rewrite Hip.
  - intros Hs. split.
    + intros host port. by apply ValidateNameserverIpAndPort_hostport.
    + intros Hno. destruct (util.ValidateNameserverIpAndPort s) as [[host port]|err] eqn:Hv.
      * exfalso. apply Hno. exists host, port.
        by apply ValidateNameserverIpAndPort_hostport.
      * by exists err.
Qed.

Lemma validateNameservers_None (upstream nameServers : list string) :
  dns.validateNameservers upstream nameServers = None
  ↔ ∃ nameServer, nameServer ∈ upstream
                  ∧ is_ok (util.ValidateNameserverIpAndPort nameServer) = false.
Proof.
  revert nameServers. induction upstream as [|ns rest IH]; intros acc; simpl.
  - split; [done|]. intros (? & Hin & _). by apply elem_of_nil in Hin.
  - destruct (util.ValidateNameserverIpAndPort ns) as [[ip port]|e] eqn:Hv.
    + rewrite IH. split.
      * intros (x & Hin & Hx). exists x. split; [by right | done].
      * intros (x & Hin & Hx). apply elem_of_cons in Hin as [->|Hin].
        -- by rewrite Hv in Hx.
        -- by exists x.
    + split; [|done]. intros _. exists ns. rewrite Hv. split; [by left | done].
Qed.
End nameservers.

Section updateConfig.
Context `{GoLibs} {T : Type} `{treecache.TreeCache T}.
Implicit Types kd : dns.KubeDNS (T:=T).

(** C9.  With a SkyDNS server config present, an update that holds an
    upstream name server that fails validation is rejected as a whole:
    the stored config snapshot (and with it the Federations map) stays
    what it was, and the name servers of the host's resolv.conf are
    installed only when no name servers were installed before; nothing
    else of the engine changes. *)
Theorem updateConfig_rejects_invalid_nameserver kd (nextConfig : Config) (sky : ServerConfig) :
  dns.SkyDNSConfig kd = Some sky →
  (∃ nameServer, nameServer ∈ UpstreamNameservers nextConfig
                 ∧ is_ok (util.ValidateNameserverIpAndPort nameServer) = false) →
  let kd' := dns.updateConfig kd nextConfig in
  dns.config kd' = dns.config kd
  ∧ (Federations <$> dns.config kd') = (Federations <$> dns.config kd)
  ∧ dns.SkyDNSConfig kd' =
      Some (if (length (Nameservers sky) =? 0)%nat
            then {| Nameservers := dns.loadDefaultNameserver kd |}
            else sky)
  ∧ kd' = dns.set_SkyDNSConfig kd (dns.SkyDNSConfig kd').
Proof.
  intros Hsky Hbad%(validateNameservers_None _ []). cbv zeta.
  unfold dns.updateConfig. rewrite Hsky, Hbad.
  destruct (length (Nameservers sky) =? 0)%nat; simpl.
  - done.
  - split_and!; try done. destruct kd; simpl in *. by subst.
Qed.
End updateConfig.

Section nameserver_examples.
#[local] Existing Instance example.host.
#[local] Existing Instance spectree.cache.

Lemma ValidateNameserverIpAndPort_spec_witness :
  util.ValidateNameserverIpAndPort "8.8.8.8" = Ok ("8.8.8.8"%string, "53"%string)
  ∧ util.ValidateNameserverIpAndPort "8.8.8.8:5353" = Ok ("8.8.8.8"%string, "5353"%string).
Proof.
  split.
  - apply (proj1 (@ValidateNameserverIpAndPort_spec example.host "8.8.8.8")
             (gomodel.v4InV6Prefix ++ [8; 8; 8; 8] : gomodel.IP)).
    vm_compute. reflexivity.
  - apply (proj1 (proj2 (@ValidateNameserverIpAndPort_spec example.host "8.8.8.8:5353") eq_refl)).
    split_and!.
    + vm_compute. reflexivity.
    + eexists. vm_compute. reflexivity.
    + exists 5353. split; [vm_compute; reflexivity | lia].
Defined.

(** C8 as it is stated fails: an address that parses as an IP is not
    returned as it was written, but in its canonical text. *)
Lemma ValidateNameserverIpAndPort_not_verbatim :
  is_Some (ParseIP "2001:DB8::1")
  ∧ util.ValidateNameserverIpAndPort "2001:DB8::1" = Ok ("2001:db8::1"%string, "53"%string)
  ∧ util.ValidateNameserverIpAndPort "2001:DB8::1" ≠ Ok ("2001:DB8::1"%string, "53"%string).
Proof.
  split_and!.
  - eexists. vm_compute. reflexivity.
  - vm_compute. reflexivity.
  - vm_compute. discriminate.
Qed.

Lemma updateConfig_rejects_invalid_nameserver_witness :
  let nextConfig :=
    {| Federations := {[ "myfed"%string := "example.com"%string ]};
       UpstreamNameservers := ["8.8.8.8"%string; "dns.example.com"%string] |} in
  let kd' := dns.updateConfig example.kd_sky nextConfig in
  dns.config kd' = None
  ∧ dns.SkyDNSConfig kd' = Some {| Nameservers := ["169.254.169.254:53"%string] |}.
Proof.
  intros nextConfig kd'.
  destruct (updateConfig_rejects_invalid_nameserver example.kd_sky nextConfig
              {| Nameservers := [] |}) as (Hcfg & _ & Hsky & _).
  - reflexivity.
  - exists "dns.example.com"%string. split.
    + apply elem_of_cons. right. apply elem_of_cons. by left.
    + vm_compute. reflexivity.
  - split; [exact Hcfg | exact Hsky].
Defined.
End nameserver_examples.

(** ** The federation grammar *)

Lemma index_lookup (path : list string) (i : nat) :
  (i < length path)%nat → path !! i = Some (dns.index path i).
Proof.
  intros Hi. unfold dns.index. rewrite nth_lookup.
  by destruct (lookup_lt_is_Some_2 path i Hi) as [x ->].
Qed.

Lemma index_elem_of (path : list string) (i : nat) :
  (i < length path)%nat → dns.index path i ∈ path.
Proof. intros Hi. eapply list_elem_of_lookup_2, index_lookup, Hi. Qed.

Lemma matchesDomainPath_true (i : nat) (domainPath path : list string) :
  dns.matchesDomainPath i domainPath path = true
  ↔ ∀ j d, domainPath !! j = Some d → dns.index path (length path - (i + j) - 1) = d.
Proof.
  revert i. induction domainPath as [|d0 rest IH]; intros i; simpl.
  - split; [intros _ j d Hj; by rewrite lookup_nil in Hj | done].
  - destruct (String.eqb_spec d0 (dns.index path (length path - i - 1))) as [Heq|Hne]; simpl.
    + rewrite IH. split.
      * intros Hrest [|j] d Hj; simpl in Hj.
        -- simplify_eq. by rewrite Nat.add_0_r.
        -- replace (i + S j)%nat with (S i + j)%nat by lia. by apply Hrest.
      * intros Hall j d Hj. specialize (Hall (S j) d Hj).
        by replace (i + S j)%nat with (S i + j)%nat in Hall by lia.
    + split; [done|]. intros Hall. exfalso. apply Hne.
      specialize (Hall 0%nat d0 eq_refl). by rewrite Nat.add_0_r in Hall.
Qed.

Lemma matchesDomainPath_reverse (domainPath path : list string) :
  length path = (4 + length domainPath)%nat →
  dns.matchesDomainPath 0 domainPath path = true ↔ drop 4 path = reverse domainPath.
Proof.
  intros Hlen. rewrite matchesDomainPath_true. split.
  - intros Hall. apply list_eq_same_length with (length domainPath).
    + by rewrite length_reverse.
    + rewrite length_drop. lia.
    + intros k x y Hk Hx Hy. rewrite lookup_drop in Hx.
      rewrite reverse_lookup in Hy by done.
      specialize (Hall _ _ Hy). simpl in Hall.
      rewrite index_lookup in Hx by lia.
      replace (length path - (length domainPath - S k) - 1)%nat with (4 + k)%nat in Hall by lia.
      congruence.
  - intros Hdrop j d Hj. simpl.
    assert (j < length domainPath)%nat as Hlt by (by eapply lookup_lt_Some).
    assert (path !! (length path - j - 1)%nat = Some d) as Hp.
    { replace (length path - j - 1)%nat with (4 + (length domainPath - S j))%nat by lia.
      rewrite <- lookup_drop, Hdrop, reverse_lookup by lia.
      by replace (length domainPath - S (length domainPath - S j))%nat with j by lia. }
    rewrite index_lookup in Hp by lia. congruence.
Qed.

Section federation.
Context `{GoLibs} {T : Type} `{treecache.TreeCache T}.
Implicit Types kd : dns.KubeDNS (T:=T).

Lemma length_zero_nil {A} (l : list A) : (length l =? 0)%nat = true ↔ l = [].
Proof. destruct l; simpl; split; done. Qed.

Lemma isFederationQuery_shape kd path :
  federationShape kd path →
  dns.isFederationQuery kd path =
    match dns.config kd with
    | None => Err (Panic "invalid memory address or nil pointer dereference")
    | Some cfg => Ok (bool_decide (is_Some (Federations cfg !! dns.index path 2)))
    end.
Proof.
  intros (Hlen & Hc0 & Hc1 & Hc2 & Hc3 & Hc4). unfold dns.isFederationQuery.
  replace (length path =? 4 + length (dns.domainPath kd))%nat with true
    by (symmetry; apply Nat.eqb_eq; lia).
  replace (dns.matchesDomainPath 0 (dns.domainPath kd) path) with true
    by (symmetry; apply matchesDomainPath_reverse; [lia | done]).
  rewrite Hc0, Hc1, Hc2, Hc3. simpl.
  destruct (dns.config kd) as [cfg|]; [|done].
  by destruct (Federations cfg !! dns.index path 2).
Qed.

Lemma federationShape_dec kd path :
  federationShape kd path
  ∨ (¬ federationShape kd path ∧ dns.isFederationQuery kd path = Ok false).
Proof.
  unfold dns.isFederationQuery, federationShape.
  destruct (Nat.eqb_spec (length path) (4 + length (dns.domainPath kd))) as [Hlen|Hlen];
    simpl; [|right; split; [intros (? & _); lia | done]].
  destruct (length (IsDNS1035Label (dns.index path 0)) =? 0)%nat eqn:Hc0;
    simpl; [|right; split; [intros (_ & Hc & _); by rewrite Hc in Hc0 | done]].
  destruct (length (IsDNS1123Label (dns.index path 1)) =? 0)%nat eqn:Hc1;
    simpl; [|right; split; [intros (_ & _ & Hc & _); by rewrite Hc in Hc1 | done]].
  destruct (length (IsDNS1123Label (dns.index path 2)) =? 0)%nat eqn:Hc2;
    simpl; [|right; split; [intros (_ & _ & _ & Hc & _); by rewrite Hc in Hc2 | done]].
  destruct (String.eqb_spec (dns.index path 3) dns.serviceSubdomain) as [Hc3|Hc3];
    simpl; [|right; split; [by intros (_ & _ & _ & _ & Hc & _) | done]].
  destruct (dns.matchesDomainPath 0 (dns.domainPath kd) path) eqn:Hc4; simpl.
  - left. apply length_zero_nil in Hc0, Hc1, Hc2.
    apply matchesDomainPath_reverse in Hc4; [|done].
    split_and!; try done. lia.
  - right. split; [|done]. intros (_ & _ & _ & _ & _ & Hc).
    apply matchesDomainPath_reverse in Hc; [|done]. congruence.
Qed.

Lemma isFederationQuery_no_shape kd path :
  ¬ federationShape kd path → dns.isFederationQuery kd path = Ok false.
Proof. intros Hno. by destruct (federationShape_dec kd path) as [?|[_ ?]]. Qed.

Lemma isFederationQuery_true kd path :
  dns.isFederationQuery kd path = Ok true
  ↔ federationShape kd path ∧ federationConfigured kd path.
Proof.
  split.
  - intros Htrue.
    destruct (federationShape_dec kd path) as [Hs|[_ Hf]]; [|congruence].
    split; [done|]. rewrite (isFederationQuery_shape _ _ Hs) in Htrue.
    destruct (dns.config kd) as [cfg|] eqn:Hcfg; [|done].
    exists cfg. split; [done|]. simplify_eq. by eapply bool_decide_eq_true_1.
  - intros [Hs (cfg & Hcfg & Hfed)]. rewrite (isFederationQuery_shape _ _ Hs), Hcfg.
    by rewrite bool_decide_eq_true_2.
Qed.

(** C1, as the code has it.  [isFederationQuery] returns true exactly
    when the six conditions hold.  It returns false when one of the
    first five fails, and when a configuration is loaded whose
    Federations map does not contain path[2].  A path with a "*" label
    is not a federation query, as long as "*" is no valid label and the
    authoritative domain has no "*" label itself. *)
Theorem isFederationQuery_grammar kd (path : list string) :
  (dns.isFederationQuery kd path = Ok true
   ↔ federationShape kd path ∧ federationConfigured kd path)
  ∧ (¬ federationShape kd path → dns.isFederationQuery kd path = Ok false)
  ∧ (∀ cfg, dns.config kd = Some cfg → Federations cfg !! dns.index path 2 = None →
     dns.isFederationQuery kd path = Ok false)
  ∧ (IsDNS1035Label "*" ≠ [] → IsDNS1123Label "*" ≠ [] →
     "*"%string ∉ dns.domainPath kd → "*"%string ∈ path →
     dns.isFederationQuery kd path = Ok false).
Proof.
  split_and!.
  - apply isFederationQuery_true.
  - apply isFederationQuery_no_shape.
  - intros cfg Hcfg Hnone.
    destruct (federationShape_dec kd path) as [Hs|[_ Hf]]; [|done].
    rewrite (isFederationQuery_shape _ _ Hs), Hcfg, Hnone.
    rewrite bool_decide_eq_false_2; [done|]. by intros [? ?].
  - intros H1035 H1123 Hdom Hstar. apply isFederationQuery_no_shape.
    intros (Hlen & Hc0 & Hc1 & Hc2 & Hc3 & Hc4).
    apply list_elem_of_lookup in Hstar as [i Hi].
    assert (i < length path)%nat as Hlt by (by eapply lookup_lt_Some).
    rewrite index_lookup in Hi by done. injection Hi as Hi.
    destruct (decide (i < 4)%nat) as [Hsmall|Hbig].
    + destruct i as [|[|[|[|i]]]]; try lia; rewrite Hi in *; try done.
    + apply Hdom. apply elem_of_reverse. rewrite <- Hc4.
      apply list_elem_of_lookup. exists (i - 4)%nat.
      rewrite lookup_drop. replace (4 + (i - 4))%nat with i by lia.
      rewrite index_lookup by done. by rewrite Hi.
Qed.
End federation.

Section federation_examples.
#[local] Existing Instance example.host.
#[local] Existing Instance spectree.cache.

Lemma isFederationQuery_grammar_witness :
  dns.isFederationQuery example.kd_fed ["mysvc"; "ns"; "myfed"; "svc"; "cluster"; "local"]%string
    = Ok true
  ∧ dns.isFederationQuery example.kd_fed ["*"; "ns"; "myfed"; "svc"; "cluster"; "local"]%string
    = Ok false.
Proof.
  split.
  - apply (proj1 (isFederationQuery_grammar example.kd_fed _)).
    split.
    + split_and!; reflexivity.
    + exists example.federated. split; [reflexivity | by eexists].
  - apply (proj2 (proj2 (proj2 (isFederationQuery_grammar example.kd_fed _)))).
    + vm_compute. discriminate.
    + vm_compute. discriminate.
    + vm_compute. intros Hin. repeat (apply elem_of_cons in Hin as [Hin|Hin]; [discriminate|]).
      by apply elem_of_nil in Hin.
    + apply elem_of_cons. by left.
Defined.

(** C1 as it is stated fails: a path with a "*" label is classified as a
    federation query when the authoritative domain has that label. *)
Lemma isFederationQuery_star_domain :
  "*"%string ∈ ["mysvc"; "ns"; "myfed"; "svc"; "*"; "example"; "com"]%string
  ∧ dns.isFederationQuery
      (dns.set_config (dns.NewKubeDNS example.client "*.example.com.") (Some example.federated))
      ["mysvc"; "ns"; "myfed"; "svc"; "*"; "example"; "com"]%string
    = Ok true.
Proof.
  split.
  - do 4 (apply elem_of_cons; right). apply elem_of_cons. by left.
  - vm_compute. reflexivity.
Qed.
End federation_examples.

(** ** The federation redirect *)

Lemma ensureTrailingDot_suffix (name : string) :
  strings.HasSuffix (dns.ensureTrailingDot name) "." = true.
Proof.
  unfold dns.ensureTrailingDot.
  destruct (strings.HasSuffix name ".") eqn:Hs; simpl; [done | apply HasSuffix_app].
Qed.

Section redirect.
Context `{GoLibs} {T : Type} `{treecache.TreeCache T}.
Implicit Types kd : dns.KubeDNS (T:=T).

Lemma getClusterZoneAndRegion_state kd r kd' :
  dns.getClusterZoneAndRegion kd = (r, kd') →
  kd' = dns.set_nodesStore kd (dns.nodesStore kd').
Proof.
  unfold dns.getClusterZoneAndRegion. intros Hg.
  repeat case_match; simplify_eq; first [by destruct kd | by destruct kd'].
Qed.

Lemma federationRecords_redirect kd (path : list string) (zone region : string) kd' :
  dns.isFederationQuery kd path = Ok true →
  dns.getClusterZoneAndRegion kd = (Ok (zone, region), kd') →
  ∃ cfg parent,
    dns.config kd = Some cfg
    ∧ Federations cfg !! dns.index path 2 = Some parent
    ∧ dns.federationRecords kd (reverse path) =
        (if decide (IsDNS1123Subdomain parent = [])
         then Ok [ServiceHostOnly (redirectHost path zone region parent)]
         else Err (Errorf (parent +:+ " is not a valid domain name for federation "
                           +:+ dns.index path 2)),
         kd').
Proof.
  intros Hfed Hzone.
  pose proof (proj1 (isFederationQuery_true kd path) Hfed) as [Hshape (cfg & Hcfg & [parent Hp])].
  destruct Hshape as (Hlen & _ & _ & _ & Hsvc & _).
  exists cfg, parent. split_and!; [done..|].
  unfold dns.federationRecords.
  rewrite ReverseArray_reverse, reverse_involutive, Hfed, Hzone.
  rewrite (getClusterZoneAndRegion_state _ _ _ Hzone). simpl. rewrite Hcfg.
  replace (length path - length (dns.domainPath kd))%nat with 4%nat by lia.
  assert (take 4 path = [dns.index path 0; dns.index path 1; dns.index path 2; "svc"%string])
    as Htake.
  { rewrite <- Hsvc. unfold dns.index.
    destruct path as [|p0 [|p1 [|p2 [|p3 rest]]]]; simpl in Hlen; try lia. done. }
  assert (∀ a b c l, dns.index (a :: b :: c :: l) 2 = c) as Hidx by done.
  rewrite Htake. simpl. rewrite !Hidx, Hp. simpl.
  by destruct (IsDNS1123Subdomain parent) as [|e errs] eqn:Hsub.
Qed.

Lemma foldl_snoc {A} (acc l : list A) : foldl (λ retval val, retval ++ [val]) acc l = acc ++ l.
Proof.
  revert acc. induction l as [|x l IH]; intros acc; simpl.
  - by rewrite app_nil_r.
  - by rewrite IH, <- app_assoc.
Qed.

Lemma localPath_shape kd (segments : list string) :
  federationShape kd segments →
  localPath segments
    = dns.domainPath kd ++ ["svc"%string; dns.index segments 1; dns.index segments 0].
Proof.
  intros (Hlen & _ & _ & _ & Hsvc & Hdom). unfold localPath.
  destruct segments as [|p0 [|p1 [|p2 [|p3 rest]]]]; simpl in Hlen; try lia.
  simpl in *. unfold dns.index in *. simpl in *. subst p3.
  rewrite drop_0 in Hdom. subst rest.
  rewrite !reverse_cons, reverse_involutive, <- !app_assoc. done.
Qed.

Lemma getRecordsForPath_local kd (segments : list string) :
  federationShape kd segments →
  dns.getRecordsForPath kd (localPath segments) false
    = Ok (treecache.GetValuesForPathWithWildcards (localPath segments) (dns.cache kd)).
Proof.
  intros Hshape. unfold dns.getRecordsForPath, dns.isPodRecord.
  rewrite (localPath_shape _ _ Hshape), length_app. simpl.
  rewrite Nat.eqb_refl. simpl.
  unfold dns.index. rewrite app_nth2 by lia. rewrite Nat.sub_diag. simpl.
  by rewrite foldl_snoc.
Qed.

Lemma federationRecords_lookup_failed kd (path : list string) err kd' :
  dns.isFederationQuery kd path = Ok true →
  dns.getClusterZoneAndRegion kd = (Err err, kd') →
  dns.federationRecords kd (reverse path)
    = (Err (Errorf "failed to obtain the cluster zone and region"), kd').
Proof.
  intros Hfed Hzone. unfold dns.federationRecords.
  by rewrite ReverseArray_reverse, reverse_involutive, Hfed, Hzone.
Qed.

(** C2, as the code has it.  A non-exact query whose name classifies as
    a federation query and whose local service has no valid record is
    answered by [federationRecords].  When the zone and the region of
    the cluster can be obtained, the answer is exactly one CNAME payload
    whose host is the service, namespace, federation and "svc" labels,
    the zone, the region and the parent domain configured for the
    federation, joined with "." and ending in a dot, or, when the parent
    domain fails the RFC 1123 subdomain check, an error and no record.
    When the zone and the region cannot be obtained, the answer is the
    error "failed to obtain the cluster zone and region" and no
    record. *)
Theorem federationRecords_cname kd (name : string) :
  let segments := strings.Split (strings.TrimRight name ".") "." in
  dns.isFederationQuery kd segments = Ok true →
  dns.hasValidRecord kd
    (treecache.GetValuesForPathWithWildcards (localPath segments) (dns.cache kd)) = false →
  ∃ cfg parent,
    dns.config kd = Some cfg
    ∧ Federations cfg !! dns.index segments 2 = Some parent
    ∧ dns.Records kd name false = dns.federationRecords kd (reverse segments)
    ∧ (∀ zone region kd',
         dns.getClusterZoneAndRegion kd = (Ok (zone, region), kd') →
         strings.HasSuffix (redirectHost segments zone region parent) "." = true
         ∧ dns.federationRecords kd (reverse segments)
           = (if decide (IsDNS1123Subdomain parent = [])
              then Ok [ServiceHostOnly (redirectHost segments zone region parent)]
              else Err (Errorf (parent +:+ " is not a valid domain name for federation "
                                +:+ dns.index segments 2)),
              kd'))
    ∧ (∀ err kd',
         dns.getClusterZoneAndRegion kd = (Err err, kd') →
         dns.federationRecords kd (reverse segments)
           = (Err (Errorf "failed to obtain the cluster zone and region"), kd')).
Proof.
  intros segments Hfed Hlocal.
  pose proof (proj1 (isFederationQuery_true kd segments) Hfed)
    as [Hshape (cfg & Hcfg & [parent Hparent])].
  exists cfg, parent. split_and!; [done..| | |].
  - unfold dns.Records. fold segments. simpl negb. cbv iota. rewrite Hfed.
    rewrite ReverseArray_reverse. fold (localPath segments).
    rewrite (getRecordsForPath_local _ _ Hshape).
    unfold dns.recordsForFederation. rewrite Hlocal. simpl.
    by rewrite ReverseArray_reverse.
  - intros zone region kd' Hzone. split; [apply ensureTrailingDot_suffix|].
    destruct (federationRecords_redirect kd segments zone region kd' Hfed Hzone)
      as (cfg' & parent' & Hcfg' & Hparent' & Hrec).
    assert (cfg' = cfg) as -> by congruence.
    assert (parent' = parent) as -> by congruence.
    exact Hrec.
  - intros err kd' Hzone. by apply (federationRecords_lookup_failed _ _ err).
Qed.

Lemma federationRecords_host_only kd (queryPath : list string) rs kd' :
  dns.federationRecords kd queryPath = (Ok rs, kd') →
  ∃ name, rs = [ServiceHostOnly name].
Proof.
  unfold dns.federationRecords. intros Hrec.
  repeat case_match; simplify_eq. by eexists.
Qed.

(** C10.  Every record that comes back on the federation path, the CNAME
    of the local service as well as the redirect CNAME of the federation
    fallback, has only its host set: port, priority, weight and ttl are
    0, where every other synthesized record has priority 10, weight 10
    and ttl 30. *)
Theorem federation_cname_host_only kd (records : list Service) (path : list string)
    (exact : bool) (federationSegments : list string) rs kd' :
  dns.recordsForFederation kd records path exact federationSegments = (Ok rs, kd') →
  (∃ name,
     rs = [ {| Host := name; Port := 0; Priority := 0; Weight := 0; Ttl := 0 |} ]
     ∧ (dns.hasValidRecord kd records = true →
        name = dns.ensureTrailingDot (strings.Join (reverse path) ".")))
  ∧ (∀ ip port,
       util.NewServiceRecord ip port
         = {| Host := ip; Port := port; Priority := 10; Weight := 10; Ttl := 30 |}).
Proof.
  intros Hrec. split; [|done].
  unfold dns.recordsForFederation in Hrec.
  destruct (dns.hasValidRecord kd records).
  - simplify_eq. eexists. split; [done|]. intros _. by rewrite ReverseArray_reverse.
  - destruct exact; simpl in Hrec; [done|].
    apply federationRecords_host_only in Hrec as [name ->]. by exists name.
Qed.
End redirect.

Section redirect_examples.
#[local] Existing Instance example.host.
#[local] Existing Instance spectree.cache.

Lemma federationRecords_cname_witness :
  dns.Records example.kd_fed "mysvc.ns.myfed.svc.cluster.local." false
    = (Ok [ServiceHostOnly "mysvc.ns.myfed.svc.z1.r1.example.com."],
       dns.set_nodesStore example.kd_fed [ObjNode example.node]).
Proof.
  destruct (federationRecords_cname example.kd_fed "mysvc.ns.myfed.svc.cluster.local.")
    as (cfg & parent & Hcfg & Hparent & -> & Hfound & _).
  - vm_compute. reflexivity.
  - vm_compute. reflexivity.
  - injection Hcfg as <-. vm_compute in Hparent. injection Hparent as <-.
    destruct (Hfound "z1"%string "r1"%string
                (dns.set_nodesStore example.kd_fed [ObjNode example.node])) as [_ ->].
    + vm_compute. reflexivity.
    + vm_compute. reflexivity.
Defined.

(** C2 as it is stated fails: the only node of the cluster has no zone
    and no region label; the query classifies as a federation query, the
    local service has no record and the parent domain of the federation
    is a valid subdomain, yet the answer is an error. *)
Lemma federation_query_without_zone :
  let bare := {| v1.n_Name := "node-1"; v1.Labels := ∅ |} in
  let kd :=
    dns.set_config
      (dns.NewKubeDNS (T := spectree.treeCache) {| dns.NodesList := Ok [bare] |}
         "cluster.local.")
      (Some example.federated) in
  let segments := strings.Split (strings.TrimRight "mysvc.ns.myfed.svc.cluster.local." ".") "." in
  dns.isFederationQuery kd segments = Ok true
  ∧ dns.hasValidRecord kd
      (treecache.GetValuesForPathWithWildcards (localPath segments) (dns.cache kd)) = false
  ∧ Federations example.federated !! "myfed" = Some "example.com"
  ∧ IsDNS1123Subdomain "example.com" = []
  ∧ dns.federationRecords kd (reverse segments)
    = (Err (Errorf "failed to obtain the cluster zone and region"), kd)
  ∧ dns.Records kd "mysvc.ns.myfed.svc.cluster.local." false
    = (Err (Errorf "failed to obtain the cluster zone and region"), kd).
Proof. vm_compute. split_and!; reflexivity. Qed.

Lemma federation_cname_host_only_witness :
  ∃ name : string,
    [ServiceHostOnly "mysvc.ns.myfed.svc.z1.r1.example.com."]
      = [ {| Host := name; Port := 0; Priority := 0; Weight := 0; Ttl := 0 |} ].
Proof.
  destruct (federation_cname_host_only example.kd_fed []
              ["local"; "cluster"; "svc"; "ns"; "mysvc"]%string false
              ["mysvc"; "ns"; "myfed"; "svc"; "cluster"; "local"]%string
              [ServiceHostOnly "mysvc.ns.myfed.svc.z1.r1.example.com."]
              (dns.set_nodesStore example.kd_fed [ObjNode example.node]))
    as [(name & Hname & _) _].
  - vm_compute. reflexivity.
  - by exists name.
Defined.
End redirect_examples.

(** ** Pod records *)

Section pod_records.
Context `{GoLibs} {T : Type} `{treecache.TreeCache T}.
Implicit Types kd : dns.KubeDNS (T:=T).

Lemma isPodRecord_true kd (path : list string) :
  length path = (length (dns.domainPath kd) + 3)%nat →
  dns.index path (length (dns.domainPath kd)) = "pod"%string →
  "*"%string ∉ path →
  dns.isPodRecord kd path = true.
Proof.
  intros Hlen Hpod Hstar. unfold dns.isPodRecord.
  rewrite Hlen, Nat.eqb_refl, Hpod. simpl.
  apply forallb_forall. intros segment Hin%list_elem_of_In.
  destruct (String.eqb_spec segment "*") as [->|]; done.
Qed.

Lemma getRecordsForPath_pod kd (path : list string) (exact : bool) :
  dns.isPodRecord kd path = true →
  dns.getRecordsForPath kd path exact = podAnswer path.
Proof.
  intros Hpod. unfold dns.getRecordsForPath, dns.getPodIP, podAnswer.
  rewrite Hpod. by destruct (ParseIP _).
Qed.

(** C7.  A query path of length len(domainPath)+3 with "pod" right
    after the domain labels and no "*" label is answered from the path
    alone: with the one payload {host = ip, port = 0} when the last
    label, dashes replaced by dots, parses as an IP address, and with an
    error and no records when it does not.  Whatever the tree cache
    holds, the answer is the same. *)
Theorem pod_record_purity kd (path : list string) (exact : bool) :
  length path = (length (dns.domainPath kd) + 3)%nat →
  dns.index path (length (dns.domainPath kd)) = "pod"%string →
  "*"%string ∉ path →
  dns.getRecordsForPath kd path exact = podAnswer path
  ∧ (∀ name : string,
       reverse (strings.Split (strings.TrimRight name ".") ".") = path →
       dns.Records kd name exact = (podAnswer path, kd))
  ∧ (∀ (c : T) (name : string),
       reverse (strings.Split (strings.TrimRight name ".") ".") = path →
       fst (dns.Records (dns.set_cache kd c) name exact) = podAnswer path).
Proof.
  intros Hlen Hpod Hstar.
  assert (∀ kd2 name,
            dns.domainPath kd2 = dns.domainPath kd →
            reverse (strings.Split (strings.TrimRight name ".") ".") = path →
            dns.Records kd2 name exact = (podAnswer path, kd2)) as Hrecords.
  { intros kd2 name Hdom Hname. unfold dns.Records.
    set (segments := strings.Split (strings.TrimRight name ".") ".") in *.
    assert (dns.isFederationQuery kd2 segments = Ok false) as Hfed.
    { unfold dns.isFederationQuery.
      replace (length segments =? 4 + length (dns.domainPath kd2))%nat with false; [done|].
      symmetry. apply Nat.eqb_neq. rewrite Hdom, <- (length_reverse segments), Hname. lia. }
    replace (if negb exact then dns.isFederationQuery kd2 segments else Ok false)
      with (Ok false : result bool) by (by destruct exact).
    rewrite ReverseArray_reverse, Hname.
    rewrite getRecordsForPath_pod
      by (apply isPodRecord_true; [by rewrite Hdom | by rewrite Hdom | done]).
    unfold podAnswer. by destruct (ParseIP _). }
  split_and!.
  - by apply getRecordsForPath_pod, isPodRecord_true.
  - intros name Hname. by apply Hrecords.
  - intros c name Hname. by rewrite (Hrecords (dns.set_cache kd c) name).
Qed.
End pod_records.

Section pod_examples.
#[local] Existing Instance example.host.
#[local] Existing Instance spectree.cache.

Lemma pod_record_purity_witness :
  dns.Records example.kd0 "10-0-0-1.default.pod.cluster.local." false
    = (Ok [ {| Host := "10.0.0.1"; Port := 0; Priority := 10; Weight := 10; Ttl := 30 |} ],
       example.kd0)
  ∧ fst (dns.Records example.kd0 "10-0-0-256.default.pod.cluster.local." true)
    = Err (Errorf "Invalid IP Address 10.0.0.256").
Proof.
  assert (∀ label : string,
            label ≠ "*"%string →
            "*"%string ∉ ["local"; "cluster"; "pod"; "default"; label]%string) as Hstar.
  { intros label Hlabel.
    repeat (apply not_elem_of_cons; split; [done|]). apply not_elem_of_nil. }
  split.
  - apply (proj1 (proj2 (pod_record_purity example.kd0
                           ["local"; "cluster"; "pod"; "default"; "10-0-0-1"]%string false
                           eq_refl eq_refl (Hstar "10-0-0-1"%string ltac:(discriminate))))).
    vm_compute. reflexivity.
  - rewrite (proj1 (proj2 (pod_record_purity example.kd0
                           ["local"; "cluster"; "pod"; "default"; "10-0-0-256"]%string true
                           eq_refl eq_refl (Hstar "10-0-0-256"%string ltac:(discriminate))))).
    + vm_compute. reflexivity.
    + vm_compute. reflexivity.
Defined.
End pod_examples.

(** ** The reverse record map *)

Lemma getHostname_snd (a : v1.EndpointAddress) :
  snd (dns.getHostname a) = true ↔ v1.Hostname a ≠ EmptyString.
Proof. unfold dns.getHostname. by destruct (v1.Hostname a). Qed.

Lemma getHostname_named (a : v1.EndpointAddress) :
  snd (dns.getHostname a) = true → dns.getHostname a = (v1.Hostname a, true).
Proof. unfold dns.getHostname. by destruct (v1.Hostname a). Qed.

Lemma existsb_namedb (e : v1.Endpoints) (ip : string) :
  existsb (namedb ip) (allAddresses e) = true ↔ namedIn e ip.
Proof.
  rewrite existsb_exists. unfold namedIn, namedb. split.
  - intros (a & Hin%list_elem_of_In & [Hip%String.eqb_eq Hn%getHostname_snd]%andb_true_iff).
    by exists a.
  - intros (a & Hin & Hip & Hn). exists a. split; [by apply list_elem_of_In|].
    apply andb_true_iff. split; [by apply String.eqb_eq | by apply getHostname_snd].
Qed.

Lemma not_namedIn (e : v1.Endpoints) (ip : string) : ¬ namedIn e ip ↔ unnamedIn e ip.
Proof.
  unfold namedIn, unnamedIn. split.
  - intros Hno a Hin Hip. destruct (v1.Hostname a) eqn:Hh; [done|].
    exfalso. apply Hno. exists a. by rewrite Hh.
  - intros Hall (a & Hin & Hip & Hn). by apply Hn, Hall.
Qed.

Lemma namedIn_dec (e : v1.Endpoints) (ip : string) : namedIn e ip ∨ unnamedIn e ip.
Proof.
  destruct (existsb (namedb ip) (allAddresses e)) eqn:Hb.
  - left. by apply existsb_namedb.
  - right. apply not_namedIn. intros Hn%existsb_namedb. congruence.
Qed.

Lemma foldl_subsets {A B C} (f : A → C → A) (g : B → list C) (a : A) (l : list B) :
  foldl (λ acc x, foldl f acc (g x)) a l = foldl f a (concat (g <$> l)).
Proof.
  revert a. induction l as [|x l IH]; intros a; simpl; [done|].
  by rewrite foldl_app, IH.
Qed.

Section oldAddressMap.
Implicit Types m : gmap string bool.

Let fill m (address : v1.EndpointAddress) : gmap string bool :=
  if snd (dns.getHostname address) then <[v1.IP address := true]> m else m.

Let prune m (address : v1.EndpointAddress) : gmap string bool :=
  match m !! v1.IP address with
  | Some _ => if snd (dns.getHostname address) then delete (v1.IP address) m else m
  | None => m
  end.

Lemma fill_lookup (l : list v1.EndpointAddress) m (ip : string) :
  foldl fill m l !! ip = if existsb (namedb ip) l then Some true else m !! ip.
Proof.
  revert m. induction l as [|a l IH]; intros m; simpl; [done|].
  rewrite IH.
  destruct (existsb (namedb ip) l); [by rewrite orb_true_r|]. rewrite orb_false_r.
  unfold fill, namedb.
  destruct (snd (dns.getHostname a)).
  - destruct (String.eqb_spec (v1.IP a) ip) as [->|Hne]; simpl.
    + by rewrite lookup_insert_eq.
    + by rewrite lookup_insert_ne.
  - by rewrite andb_false_r.
Qed.

Lemma prune_lookup (l : list v1.EndpointAddress) m (ip : string) :
  foldl prune m l !! ip = if existsb (namedb ip) l then None else m !! ip.
Proof.
  revert m. induction l as [|a l IH]; intros m; simpl; [done|].
  rewrite IH. destruct (existsb (namedb ip) l); [by rewrite orb_true_r|].
  rewrite orb_false_r. unfold prune, namedb.
  destruct (String.eqb_spec (v1.IP a) ip) as [->|Hne]; simpl.
  - destruct (snd (dns.getHostname a)); simpl.
    + destruct (m !! ip) eqn:Hm; [by rewrite lookup_delete_eq | by rewrite Hm].
    + by destruct (m !! ip) eqn:Hm; rewrite ?Hm.
  - destruct (m !! v1.IP a); [|done].
    destruct (snd (dns.getHostname a)); [|done]. by rewrite lookup_delete_ne.
Qed.

Lemma oldAddressMap_lookup (oldEndpoints newEndpoints : v1.Endpoints) (ip : string) :
  dns.oldAddressMap oldEndpoints newEndpoints !! ip =
    if existsb (namedb ip) (allAddresses newEndpoints) then None
    else if existsb (namedb ip) (allAddresses oldEndpoints) then Some true
    else None.
Proof.
  unfold dns.oldAddressMap.
  rewrite (foldl_subsets prune v1.Addresses), (foldl_subsets fill v1.Addresses).
  fold (allAddresses oldEndpoints) (allAddresses newEndpoints).
  by rewrite prune_lookup, fill_lookup, lookup_empty.
Qed.

Lemma oldAddressMap_dom (oldEndpoints newEndpoints : v1.Endpoints) (ip : string) :
  ip ∈ dom (dns.oldAddressMap oldEndpoints newEndpoints)
  ↔ namedIn oldEndpoints ip ∧ unnamedIn newEndpoints ip.
Proof.
  rewrite elem_of_dom, oldAddressMap_lookup, <- not_namedIn, <- !existsb_namedb.
  destruct (existsb (namedb ip) (allAddresses newEndpoints));
    destruct (existsb (namedb ip) (allAddresses oldEndpoints)); split;
    try (intros [? ?]; done); try (intros [? ?]; congruence); done.
Qed.
End oldAddressMap.

Lemma map_fold_delete_lookup {A B} (m : gmap string A) (d : gmap string B) (k : string) :
  map_fold (λ k _ m, delete k m) m d !! k = if d !! k is Some _ then None else m !! k.
Proof.
  induction d as [|i x d Hi Hfirst IH] using map_first_key_ind.
  - by rewrite map_fold_empty, lookup_empty.
  - rewrite map_fold_insert_first_key by done.
    destruct (decide (i = k)) as [->|Hne].
    + by rewrite lookup_delete_eq, lookup_insert_eq.
    + by rewrite lookup_delete_ne, lookup_insert_ne.
Qed.

Lemma map_fold_insert_lookup {A} (m g : gmap string A) (k : string) :
  map_fold (λ k v m, <[k := v]> m) m g !! k = if g !! k is Some v then Some v else m !! k.
Proof.
  induction g as [|i x g Hi Hfirst IH] using map_first_key_ind.
  - by rewrite map_fold_empty, lookup_empty.
  - rewrite map_fold_insert_first_key by done.
    destruct (decide (i = k)) as [->|Hne].
    + by rewrite !lookup_insert_eq.
    + by rewrite !lookup_insert_ne.
Qed.

Section headless.
Context `{GoLibs} {T : Type} `{treecache.TreeCache T}.
Implicit Types kd : dns.KubeDNS (T:=T).

Lemma headlessRecords_generated kd (e : v1.Endpoints) (svc : v1.Service) :
  snd (dns.headlessRecords kd e svc) = foldl (stage kd svc) ∅ (allAddresses e).
Proof.
  unfold dns.headlessRecords, allAddresses.
  generalize (treecache.NewTreeCache (T:=T)) (∅ : gmap string Service).
  induction (v1.Subsets e) as [|subset subsets IH]; intros c g; [done|].
  rewrite fmap_cons, concat_cons, foldl_app. cbn [foldl].
  match goal with
  | |- context [foldl ?F (c, g) (v1.Addresses subset)] =>
      assert (∀ l c g, ∃ c', foldl F (c, g) l = (c', foldl (stage kd svc) g l)) as Hinner
  end.
  { clear. induction l as [|a l IHl]; intros c g; [by eexists|].
    cbn [foldl]. unfold stage at 2.
    destruct (util.GetSkyMsg (v1.IP a) 0) as [recordValue endpointName].
    destruct (snd (dns.getHostname a)) eqn:Hn.
    - rewrite (getHostname_named _ Hn). apply IHl.
    - destruct (dns.getHostname a) as [hostLabel exists_]. cbn [snd] in Hn. subst exists_.
      apply IHl. }
  destruct (Hinner (v1.Addresses subset) c g) as [c' ->]. apply IH.
Qed.

Lemma stage_lookup_unnamed kd svc (l : list v1.EndpointAddress) g (ip : string) :
  existsb (namedb ip) l = false → foldl (stage kd svc) g l !! ip = g !! ip.
Proof.
  revert g. induction l as [|a l IH]; intros g; simpl; [done|].
  intros [Ha Hl]%orb_false_iff. rewrite IH by done. unfold stage, namedb in *.
  destruct (snd (dns.getHostname a)); [|done].
  rewrite andb_true_r in Ha. apply String.eqb_neq in Ha. by rewrite lookup_insert_ne.
Qed.

Lemma stage_lookup_named kd svc (l : list v1.EndpointAddress) g (ip : string) :
  existsb (namedb ip) l = true →
  ∃ a, a ∈ l ∧ v1.IP a = ip ∧ v1.Hostname a ≠ EmptyString
       ∧ foldl (stage kd svc) g l !! ip = Some (ptrRecord kd svc a).
Proof.
  revert g. induction l as [|a l IH]; intros g; simpl; [done|].
  destruct (existsb (namedb ip) l) eqn:Hl.
  - intros _. destruct (IH (stage kd svc g a) eq_refl) as (a' & Hin & Hrest).
    exists a'. split; [by right | done].
  - rewrite orb_false_r. intros [Hip%String.eqb_eq Hn]%andb_true_iff.
    exists a. split_and!; [by left | done | by apply getHostname_snd |].
    rewrite stage_lookup_unnamed by done. unfold stage. rewrite Hn, <- Hip.
    apply lookup_insert_eq.
Qed.

Lemma generateRecordsForHeadlessService_reverse kd e svc (ip : string) :
  dns.reverseRecordMap (fst (dns.generateRecordsForHeadlessService kd e svc)) !! ip =
    match foldl (stage kd svc) ∅ (allAddresses e) !! ip with
    | Some r => Some r
    | None => dns.reverseRecordMap kd !! ip
    end.
Proof.
  unfold dns.generateRecordsForHeadlessService.
  rewrite <- headlessRecords_generated.
  destruct (dns.headlessRecords kd e svc) as [subCache generated]. simpl.
  apply map_fold_insert_lookup.
Qed.

Lemma handleEndpointAdd_reverse kd (e : v1.Endpoints) (ip : string) :
  dns.reverseRecordMap (dns.handleEndpointAdd kd (ObjEndpoints e)) !! ip =
    match stagedFor kd e !! ip with
    | Some r => Some r
    | None => dns.reverseRecordMap kd !! ip
    end.
Proof.
  unfold dns.handleEndpointAdd, dns.addDNSUsingEndpoints, stagedFor.
  destruct (dns.getServiceFromEndpoints kd e) as [[svc|]|err]; simpl;
    [|by rewrite lookup_empty..].
  destruct (util.IsServiceIPSet svc || _); simpl; [by rewrite lookup_empty|].
  apply generateRecordsForHeadlessService_reverse.
Qed.

Lemma stagedFor_unnamed kd (e : v1.Endpoints) (ip : string) :
  unnamedIn e ip → stagedFor kd e !! ip = None.
Proof.
  intros Hun%not_namedIn. unfold stagedFor.
  repeat case_match; try apply lookup_empty.
  rewrite stage_lookup_unnamed; [apply lookup_empty|].
  destruct (existsb (namedb ip) (allAddresses e)) eqn:Hb; [|done].
  by apply existsb_namedb in Hb.
Qed.

(** C4.  On an endpoints update whose owning service is headless, the
    entries that are deleted from the reverse record map are exactly
    those of the IPs that carried a hostname in the old endpoints object
    and are absent from the new one or present in it without a hostname:
    these are the keys that are left in [oldAddressMap], their entries
    are gone when the handler completes, and for every other IP the
    handler leaves what adding the new endpoints object alone would have
    left, so an old IP that is still present with a hostname is not
    deleted. *)
Theorem handleEndpointUpdate_deletes_stale_ptr kd (oldEndpoints newEndpoints : v1.Endpoints)
    (svc : v1.Service) :
  dns.getServiceFromEndpoints kd oldEndpoints = Ok (Some svc) →
  util.IsServiceIPSet svc = false →
  let kd' := dns.handleEndpointUpdate kd (ObjEndpoints oldEndpoints) (ObjEndpoints newEndpoints) in
  (∀ ip, ip ∈ dom (dns.oldAddressMap oldEndpoints newEndpoints)
         ↔ namedIn oldEndpoints ip ∧ unnamedIn newEndpoints ip)
  ∧ (∀ ip, namedIn oldEndpoints ip → unnamedIn newEndpoints ip →
           dns.reverseRecordMap kd' !! ip = None)
  ∧ (∀ ip, ¬ (namedIn oldEndpoints ip ∧ unnamedIn newEndpoints ip) →
           dns.reverseRecordMap kd' !! ip
             = dns.reverseRecordMap (dns.handleEndpointAdd kd (ObjEndpoints newEndpoints)) !! ip)
  ∧ (∀ ip, namedIn oldEndpoints ip → namedIn newEndpoints ip →
           dns.reverseRecordMap kd !! ip ≠ None →
           dns.reverseRecordMap kd' !! ip ≠ None).
Proof.
  intros Hsvc Hheadless kd'.
  assert (∀ ip,
            dns.reverseRecordMap kd' !! ip =
              match stagedFor kd newEndpoints !! ip with
              | Some r => Some r
              | None =>
                  if dns.oldAddressMap oldEndpoints newEndpoints !! ip is Some _ then None
                  else dns.reverseRecordMap kd !! ip
              end) as Hlookup.
  { intros ip. unfold kd', dns.handleEndpointUpdate. rewrite Hsvc, Hheadless. simpl negb.
    cbv iota. rewrite handleEndpointAdd_reverse. simpl.
    by rewrite map_fold_delete_lookup. }
  split_and!.
  - apply oldAddressMap_dom.
  - intros ip Hold Hnew. rewrite Hlookup, stagedFor_unnamed by done.
    pose proof (proj2 (oldAddressMap_dom oldEndpoints newEndpoints ip) (conj Hold Hnew)) as Hd.
    apply elem_of_dom in Hd as [b ->]. done.
  - intros ip Hnot. rewrite Hlookup, handleEndpointAdd_reverse.
    destruct (stagedFor kd newEndpoints !! ip); [done|].
    destruct (dns.oldAddressMap oldEndpoints newEndpoints !! ip) eqn:Hd; [|done].
    exfalso. apply Hnot, oldAddressMap_dom, elem_of_dom. by eexists.
  - intros ip Hold Hnew Hbefore. rewrite Hlookup.
    destruct (stagedFor kd newEndpoints !! ip); [done|].
    destruct (dns.oldAddressMap oldEndpoints newEndpoints !! ip) eqn:Hd; [|done].
    exfalso. assert (ip ∈ dom (dns.oldAddressMap oldEndpoints newEndpoints)) as Hin
      by (apply elem_of_dom; by eexists).
    apply oldAddressMap_dom in Hin as [_ Hun]. by apply not_namedIn in Hun.
Qed.
End headless.

Section portal.
Context `{GoLibs} {T : Type} `{treecache.TreeCache T}.
Implicit Types kd : dns.KubeDNS (T:=T).

Lemma newPortalService_reverse kd (service : v1.Service) (ip : string) :
  dns.reverseRecordMap (dns.newPortalService kd service) !! ip =
    if decide (ip ∈ util.GetClusterIPs service)
    then Some (fst (util.GetSkyMsg (dns.getServiceFQDN (dns.domain kd) service) 0))
    else dns.reverseRecordMap kd !! ip.
Proof.
  unfold dns.newPortalService.
  set (reverseRecord := fst (util.GetSkyMsg (dns.getServiceFQDN (dns.domain kd) service) 0)).
  set (kd1 := dns.set_cache kd _).
  change (dns.reverseRecordMap kd) with (dns.reverseRecordMap kd1).
  generalize kd1. clear kd1.
  induction (util.GetClusterIPs service) as [|ip0 ips IH]; intros kd1; cbn [foldl].
  - rewrite decide_False; [done | apply not_elem_of_nil].
  - rewrite IH. cbn [dns.reverseRecordMap dns.set_clusterIPServiceMap dns.set_reverseRecordMap].
    destruct (decide (ip ∈ ips)) as [Hin|Hnin].
    + rewrite decide_True; [done | by right].
    + destruct (decide (ip = ip0)) as [->|Hne].
      * rewrite lookup_insert_eq, decide_True; [done | by left].
      * rewrite lookup_insert_ne by done. rewrite decide_False; [done|].
        intros [?|?]%elem_of_cons; done.
Qed.

End portal.

Section reverse_examples.
#[local] Existing Instance example.host.
#[local] Existing Instance spectree.cache.

Lemma handleEndpointUpdate_deletes_stale_ptr_witness :
  let kd :=
    informer.run example.kd0
      [informer.ServiceAdded example.db;
       informer.EndpointsAdded
         (example.endpoints_of [example.named "10.0.0.7" "db-0";
                                example.named "10.0.0.8" "db-1"])] in
  let kd' :=
    dns.handleEndpointUpdate kd
      (ObjEndpoints (example.endpoints_of [example.named "10.0.0.7" "db-0";
                                           example.named "10.0.0.8" "db-1"]))
      (ObjEndpoints (example.endpoints_of [example.named "10.0.0.7" "db-0";
                                           example.unnamed "10.0.0.8"])) in
  is_Some (dns.reverseRecordMap kd !! "10.0.0.8")
  ∧ dns.reverseRecordMap kd' !! "10.0.0.8" = None.
Proof.
  intros kd kd'. split.
  - eexists. vm_compute. reflexivity.
  - apply (handleEndpointUpdate_deletes_stale_ptr kd _ _ example.db).
    + vm_compute. reflexivity.
    + reflexivity.
    + apply existsb_namedb. vm_compute. reflexivity.
    + apply not_namedIn. intros Hn%existsb_namedb. vm_compute in Hn. discriminate.
Defined.

(** The entries of a headless service outlive it when the service is
    deleted before its endpoints object: [handleEndpointDelete] finds no
    service and deletes nothing.  After the service is created again,
    the map still has the entry of an endpoint IP that now comes without
    a hostname. *)
Lemma stale_ptr_after_service_delete :
  let first := example.endpoints_of [example.named "10.0.0.7" "db-0"] in
  let second := example.endpoints_of [example.unnamed "10.0.0.7"] in
  let kd :=
    informer.run example.kd0
      [informer.ServiceAdded example.db;
       informer.EndpointsAdded first;
       informer.ServiceDeleted example.db;
       informer.EndpointsDeleted first;
       informer.ServiceAdded example.db;
       informer.EndpointsAdded second] in
  dns.servicesStore kd !! "prod/db" = Some (ObjService example.db)
  ∧ util.IsServiceIPSet example.db = false
  ∧ dns.endpointsStore kd !! "prod/db" = Some (ObjEndpoints second)
  ∧ allAddresses second = [example.unnamed "10.0.0.7"]
  ∧ dns.reverseRecordMap kd !! "10.0.0.7"
    = Some {| Host := "db-0.db.prod.svc.cluster.local."; Port := 0; Priority := 10;
              Weight := 10; Ttl := 30 |}.
Proof. vm_compute. split_and!; reflexivity. Qed.
End reverse_examples.

(** ** The records of a service with a cluster IP *)

Lemma drop_app_ge (s t : string) (k : nat) :
  strings.drop (strings.len s + k) (s +:+ t) = strings.drop k t.
Proof. induction s as [|c s IH]; [done | by rewrite append_cons]. Qed.

Lemma HasSuffix_append_nonempty (s t : string) (c : ascii) :
  t ≠ EmptyString → strings.HasSuffix (s +:+ t) (String c EmptyString)
                    = strings.HasSuffix t (String c EmptyString).
Proof.
  intros Ht. unfold strings.HasSuffix. rewrite len_app.
  assert (0 < strings.len t)%nat as Hlen by (destruct t; [done | cbn; lia]).
  replace (strings.len s + strings.len t - strings.len (String c EmptyString))%nat
    with (strings.len s + (strings.len t - 1))%nat by (cbn; lia).
  rewrite drop_app_ge.
  replace (strings.len (String c EmptyString) <=? strings.len s + strings.len t)%nat
    with true by (symmetry; apply Nat.leb_le; cbn; lia).
  replace (strings.len (String c EmptyString) <=? strings.len t)%nat
    with true by (symmetry; apply Nat.leb_le; cbn; lia).
  done.
Qed.

Lemma GetSkyMsg_eq `{GoLibs} (ip : string) (port : Z) :
  util.GetSkyMsg ip port = (util.NewServiceRecord ip port, snd (util.GetSkyMsg ip port)).
Proof. reflexivity. Qed.

Section portal_records.
Context `{GoLibs}.
#[local] Existing Instance calls.recorder.
Implicit Types kd : dns.KubeDNS (T:=list calls.Call).

Lemma portal_ports kd (service : v1.Service) (label : string) (ports : list v1.ServicePort)
    (log : list calls.Call) :
  foldl
    (λ subCache port,
       if String.eqb (v1.sp_Name port) EmptyString
          || String.eqb (v1.sp_Protocol port) EmptyString
       then subCache
       else
         let srvValue := dns.generateSRVRecordValue kd service (v1.sp_Port port) [] in
         let l := ["_" +:+ ToLower (v1.sp_Protocol port);
                   "_" +:+ v1.sp_Name port] in
         treecache.SetEntry label srvValue (dns.fqdn kd service (l ++ [label])) l subCache)
    log ports
  = log ++ (srvEntry kd service label <$> filter (λ port, hasSRV port = true) ports).
Proof.
  revert log. induction ports as [|port ports IH]; intros log; cbn [foldl].
  - by rewrite filter_nil, fmap_nil, app_nil_r.
  - rewrite IH, filter_cons.
    assert (String.eqb (v1.sp_Name port) EmptyString
            || String.eqb (v1.sp_Protocol port) EmptyString = negb (hasSRV port)) as ->.
    { unfold hasSRV. by destruct (String.eqb _ _), (String.eqb _ _). }
    destruct (hasSRV port) eqn:Hsrv; cbn [negb].
    + rewrite decide_True by done. rewrite fmap_cons.
      cbn [treecache.SetEntry calls.recorder]. rewrite <- app_assoc. reflexivity.
    + by rewrite decide_False.
Qed.

Lemma newPortalService_cache kd (service : v1.Service) :
  dns.cache (dns.newPortalService kd service)
    = treecache.SetSubCache (v1.Name service) (dns.portalSubCache kd service)
        (dns.domainPath kd ++ [dns.serviceSubdomain; v1.Namespace service]) (dns.cache kd).
Proof.
  unfold dns.newPortalService.
  set (kd1 := dns.set_cache kd _).
  change (treecache.SetSubCache _ _ _ _) with (dns.cache kd1).
  generalize kd1. clear kd1.
  induction (util.GetClusterIPs service) as [|ip ips IH]; intros kd1; cbn [foldl]; [done|].
  by rewrite IH.
Qed.

Opaque util.GetSkyMsg.

Lemma portalSubCache_entries kd (service : v1.Service) :
  dns.portalSubCache kd service
    = concat (portalEntries kd service <$> util.GetClusterIPs service).
Proof.
  unfold dns.portalSubCache.
  change (treecache.NewTreeCache (T:=list calls.Call)) with ([] : list calls.Call).
  rewrite <- (app_nil_l (concat _)). generalize ([] : list calls.Call).
  induction (util.GetClusterIPs service) as [|ip ips IH]; intros log; cbn [foldl].
  - by rewrite fmap_nil, app_nil_r.
  - rewrite fmap_cons, concat_cons.
    destruct (util.GetSkyMsg ip 0) as [recordValue recordLabel] eqn:Hmsg.
    rewrite portal_ports, IH. unfold portalEntries at 2. rewrite Hmsg. cbn [snd].
    rewrite GetSkyMsg_eq in Hmsg. injection Hmsg as <- _.
    cbn [treecache.SetEntry calls.recorder].
    rewrite <- !app_assoc. reflexivity.
Qed.

(** C5, as the code has it.  [newPortalService] changes the cache by one
    call: it installs, as the node of the service beneath the domain
    path, "svc" and the namespace, a sub-cache that holds for every
    cluster IP of the service the A record and then one SRV record for
    exactly the ports that have a name and a protocol, in their order:
    each under the child path ["_" + lower-case protocol, "_" + name]
    with the leaf key of the A record, its port the service port, and
    its host the name, the namespace, "svc" and the configured domain
    joined with dots.  No dot is appended: the host ends in a dot
    exactly when the configured domain ends in one or is empty. *)
Theorem portal_srv_records kd (service : v1.Service) :
  dns.cache (dns.newPortalService kd service)
    = dns.cache kd
      ++ [calls.CallSetSubCache (v1.Name service)
            (concat (portalEntries kd service <$> util.GetClusterIPs service))
            (dns.domainPath kd ++ ["svc"%string; v1.Namespace service])]
  ∧ strings.HasSuffix (srvHost kd service) "."
    = strings.HasSuffix (dns.domain kd) "." || String.eqb (dns.domain kd) ""
  ∧ (v1.Type_ (v1.Spec service) ≠ v1.ServiceTypeExternalName →
     util.IsServiceIPSet service = true →
     dns.newService kd (ObjService service) = dns.newPortalService kd service).
Proof.
  split_and!.
  - rewrite newPortalService_cache, portalSubCache_entries. reflexivity.
  - unfold srvHost. rewrite <- !app_assoc'.
    destruct (dns.domain kd) as [|c d] eqn:Hdom.
    + rewrite (app_assoc' _ ".svc." ""). change (".svc." +:+ "") with ".svc.".
      by rewrite HasSuffix_append_nonempty.
    + rewrite HasSuffix_append_nonempty by done. by rewrite orb_false_r.
  - intros Htype%String.eqb_neq Hset. unfold dns.newService. cbn [dns.assertIsService].
    by rewrite Htype, Hset.
Qed.

Transparent util.GetSkyMsg.
End portal_records.

Section portal_examples.
#[local] Existing Instance example.host.
#[local] Existing Instance calls.recorder.

Lemma portal_srv_records_witness :
  dns.cache (dns.newService (dns.NewKubeDNS example.client "cluster.local.")
               (ObjService example.web))
    = [calls.CallSetSubCache "web"
         [calls.CallSetEntry "3262663632636439"
            {| Host := "10.0.0.5"; Port := 0; Priority := 10; Weight := 10; Ttl := 30 |}
            "3262663632636439.web.prod.svc.cluster.local." [];
          calls.CallSetEntry "3262663632636439"
            {| Host := "web.prod.svc.cluster.local."; Port := 80; Priority := 10;
               Weight := 10; Ttl := 30 |}
            "3262663632636439._http._tcp.web.prod.svc.cluster.local."
            ["_tcp"; "_http"]%string]
         ["local"; "cluster"; "svc"; "prod"]%string]
  ∧ strings.HasSuffix
      (srvHost (dns.NewKubeDNS example.client "cluster.local.") example.web) "." = true.
Proof.
  destruct (portal_srv_records (dns.NewKubeDNS example.client "cluster.local.") example.web)
    as (Hcalls & Hdot & Hadd).
  split_and!.
  - rewrite Hadd; [| discriminate | reflexivity].
    rewrite Hcalls. vm_compute. reflexivity.
  - rewrite Hdot. reflexivity.
Defined.

(** C5 as it is stated fails: for the domain "cluster.local" the host of
    the SRV record has no trailing dot. *)
Lemma portal_srv_host_without_dot :
  dns.portalSubCache (dns.NewKubeDNS example.client "cluster.local") example.web !! 1%nat
    = Some (calls.CallSetEntry "3262663632636439"
              {| Host := "web.prod.svc.cluster.local"; Port := 80; Priority := 10;
                 Weight := 10; Ttl := 30 |}
              "3262663632636439._http._tcp.web.prod.svc.cluster.local."
              ["_tcp"; "_http"]%string)
  ∧ strings.HasSuffix "web.prod.svc.cluster.local" "." = false.
Proof. split; vm_compute; reflexivity. Qed.
End portal_examples.

(** * Further properties of the code *)

(** ** Package [util] *)

Lemma Join_cons (x : string) (l : list string) (sep : string) :
  l ≠ [] → strings.Join (x :: l) sep = x +:+ sep +:+ strings.Join l sep.
Proof. by destruct l. Qed.

Lemma Join_Split (s : string) (sep : ascii) :
  strings.Join (strings.Split s sep) (String sep EmptyString) = s.
Proof.
  induction s as [|c s IH]; [done|]. cbn [strings.Split].
  pose proof (Split_nonempty s sep) as Hne.
  destruct (Ascii.eqb_spec c sep) as [->|Hc].
  - rewrite Join_cons by done. by rewrite IH.
  - destruct (strings.Split s sep) as [|h t]; [done|].
    destruct t as [|h' t].
    + cbn in *. by rewrite IH.
    + rewrite Join_cons in * by done. rewrite append_cons. by rewrite IH.
Qed.

Lemma Split_sep_free (s : string) (sep : ascii) :
  Forall (λ x, strings.contains_byte sep x = false) (strings.Split s sep).
Proof.
  induction s as [|c s IH]; cbn [strings.Split]; [by repeat constructor|].
  destruct (Ascii.eqb c sep) eqn:Hc; [by constructor|].
  destruct (strings.Split s sep) as [|h t]; [by repeat constructor; cbn; rewrite Hc|].
  inversion IH as [|? ? Hh Ht]; subst. constructor; [|done]. cbn. by rewrite Hc.
Qed.

Lemma Split_Join (l : list string) (sep : ascii) :
  l ≠ [] → Forall (λ x, strings.contains_byte sep x = false) l →
  strings.Split (strings.Join l (String sep EmptyString)) sep = l.
Proof.
  induction l as [|x l IH]; [done|]. intros _ Hall.
  inversion Hall as [|? ? Hx Hl]; subst.
  destruct l as [|y l].
  - by apply Split_no_sep.
  - rewrite Join_cons by done.
    change (x +:+ String sep EmptyString +:+ strings.Join (y :: l) (String sep EmptyString))
      with (x +:+ String sep (strings.Join (y :: l) (String sep EmptyString))).
    rewrite Split_app by done. by rewrite IH.
Qed.

(** X1.  [ReverseArray], the loop that swaps [arr[i]] and
    [arr[len(arr)-i-1]] for [i < len(arr)/2], returns the slice in
    reverse order, with the same length, and undoes itself. *)
Theorem ReverseArray_reverses {A : Type} (arr : list A) :
  util.ReverseArray arr = reverse arr
  ∧ length (util.ReverseArray arr) = length arr
  ∧ util.ReverseArray (util.ReverseArray arr) = arr.
Proof.
  split_and!.
  - apply ReverseArray_reverse.
  - by rewrite ReverseArray_reverse, length_reverse.
  - by rewrite !ReverseArray_reverse, reverse_involutive.
Qed.

(** X2.  [ExtractIP] tests nothing but the suffix: every name
    s + ".in-addr.arpa." is accepted, IP address or not, and comes back
    as the labels of s in reverse order.  Applied to its own result
    (with the suffix again) it gives back s. *)
Theorem ExtractIP_involutive (s : string) :
  util.ExtractIP (s +:+ util.ArpaSuffix)
    = (strings.Join (reverse (strings.Split s ".")) ".", true)
  ∧ util.ExtractIP (fst (util.ExtractIP (s +:+ util.ArpaSuffix)) +:+ util.ArpaSuffix)
    = (s, true).
Proof.
  assert (∀ s, util.ExtractIP (s +:+ util.ArpaSuffix)
               = (strings.Join (reverse (strings.Split s ".")) ".", true)) as Hext.
  { intros s'. unfold util.ExtractIP.
    by rewrite HasSuffix_app, TrimSuffix_app, ReverseArray_reverse. }
  split; [apply Hext|].
  rewrite (Hext s). cbn [fst]. rewrite Hext. f_equal.
  rewrite Split_Join.
  - rewrite reverse_involutive. apply Join_Split.
  - intros Hnil. apply (Split_nonempty s "."). apply (f_equal reverse) in Hnil.
    by rewrite reverse_involutive in Hnil.
  - apply Forall_reverse, Split_sep_free.
Qed.

Lemma strip_zeros_length (s : string) :
  s ≠ EmptyString →
  (1 ≤ String.length (fmt.strip_zeros s) ≤ String.length s)%nat.
Proof.
  induction s as [|c s IH]; [done|]. intros _. cbn [fmt.strip_zeros].
  destruct (Ascii.eqb c "0" && negb (String.eqb s EmptyString)) eqn:Hc.
  - apply andb_true_iff in Hc as [_ Hs%negb_true_iff%String.eqb_neq].
    specialize (IH Hs). cbn [String.length]. lia.
  - cbn [String.length]. lia.
Qed.

Lemma Sprintf_x_string_length (s : string) :
  String.length (fmt.Sprintf_x_string s) = (2 * String.length s)%nat.
Proof.
  induction s as [|c s IH]; [done|].
  cbn [fmt.Sprintf_x_string String.length]. rewrite IH. lia.
Qed.

Lemma Sprintf_x_uint32_length (n : Z) :
  (1 ≤ String.length (fmt.Sprintf_x_uint32 n) ≤ 8)%nat.
Proof.
  unfold fmt.Sprintf_x_uint32. cbn [map string_of_list_ascii].
  match goal with |- context [fmt.strip_zeros ?s] => pose proof (strip_zeros_length s) as Hs end.
  cbn [String.length] in Hs. apply Hs. done.
Qed.

Lemma fnv_Write_range (s : string) (hash : Z) :
  0 ≤ hash < 2 ^ 32 → 0 ≤ fnv.Write hash s < 2 ^ 32.
Proof.
  revert hash. induction s as [|c s IH]; intros hash Hh; cbn [fnv.Write]; [done|].
  apply IH. unfold fnv.step. apply Z.mod_pos_bound. lia.
Qed.

(** X3.  [GetSkyMsg] returns the record with the default priority 10,
    weight 10 and ttl 30, and as its label not the hash itself but the
    [%x] rendering of the hash string: the 32-bit FNV-1a sum is below
    2^32, its hexadecimal text has 1 to 8 characters, and the label has
    twice as many, between 2 and 16. *)
Theorem GetSkyMsg_record_and_label `{GoLibs} (ip : string) (port : Z) :
  fst (util.GetSkyMsg ip port)
    = {| Host := ip; Port := port; Priority := 10; Weight := 10; Ttl := 30 |}
  ∧ snd (util.GetSkyMsg ip port)
    = fmt.Sprintf_x_string (util.HashServiceRecord (fst (util.GetSkyMsg ip port)))
  ∧ 0 ≤ fnv.Sum32a (Sprintf_v (fst (util.GetSkyMsg ip port))) < 2 ^ 32
  ∧ (1 ≤ String.length (util.HashServiceRecord (fst (util.GetSkyMsg ip port))) ≤ 8)%nat
  ∧ (String.length (snd (util.GetSkyMsg ip port))
     = 2 * String.length (util.HashServiceRecord (fst (util.GetSkyMsg ip port))))%nat.
Proof.
  split; [|split; [|split; [|split]]].
  - reflexivity.
  - reflexivity.
  - apply fnv_Write_range. vm_compute. split; [discriminate | reflexivity].
  - apply Sprintf_x_uint32_length.
  - change (snd (util.GetSkyMsg ip port))
      with (fmt.Sprintf_x_string (util.HashServiceRecord (fst (util.GetSkyMsg ip port)))).
    apply Sprintf_x_string_length.
Qed.

(** ** Configuration updates that are accepted *)

Section accepted.
Context `{GoLibs} {T : Type} `{treecache.TreeCache T}.
Implicit Types kd : dns.KubeDNS (T:=T).

Lemma validateNameservers_Some (upstream acc nameServers : list string) :
  dns.validateNameservers upstream acc = Some nameServers →
  ∃ validated,
    nameServers = acc ++ validated
    ∧ Forall2 (λ nameServer out,
                 ∃ ip port, util.ValidateNameserverIpAndPort nameServer = Ok (ip, port)
                            ∧ out = JoinHostPort ip port)
        upstream validated.
Proof.
  revert acc. induction upstream as [|ns rest IH]; intros acc; cbn [dns.validateNameservers].
  - intros [= <-]. exists []. by rewrite app_nil_r.
  - destruct (util.ValidateNameserverIpAndPort ns) as [[ip port]|e] eqn:Hv; [|done].
    intros (validated & -> & Hall)%IH.
    exists (JoinHostPort ip port :: validated). rewrite <- app_assoc. split; [done|].
    constructor; [by exists ip, port | done].
Qed.

(** X4.  Without a SkyDNS server config, [updateConfig] stores the new
    configuration and validates nothing.  With one, an update whose
    upstream name servers all validate is stored, and the name servers
    that are installed are the validated ones as "host:port", one for
    each upstream entry and in their order; when the update names no
    upstream server, those of the host's resolv.conf are installed,
    whatever was installed before. *)
Theorem updateConfig_accepts kd (nextConfig : Config) :
  (dns.SkyDNSConfig kd = None →
   dns.updateConfig kd nextConfig = dns.set_config kd (Some nextConfig))
  ∧ (∀ sky nameServers,
       dns.SkyDNSConfig kd = Some sky →
       dns.validateNameservers (UpstreamNameservers nextConfig) [] = Some nameServers →
       dns.config (dns.updateConfig kd nextConfig) = Some nextConfig
       ∧ dns.SkyDNSConfig (dns.updateConfig kd nextConfig)
         = Some {| Nameservers := if decide (UpstreamNameservers nextConfig = [])
                                  then dns.loadDefaultNameserver kd else nameServers |}
       ∧ Forall2 (λ nameServer out,
                    ∃ ip port, util.ValidateNameserverIpAndPort nameServer = Ok (ip, port)
                               ∧ out = JoinHostPort ip port)
           (UpstreamNameservers nextConfig) nameServers).
Proof.
  split.
  - intros Hnone. unfold dns.updateConfig. by rewrite Hnone.
  - intros sky nameServers Hsky Hvalid.
    destruct (validateNameservers_Some _ _ _ Hvalid) as (validated & -> & Hall).
    rewrite app_nil_l in *. unfold dns.updateConfig. rewrite Hsky, Hvalid.
    destruct Hall as [|ns out rest outs Hns Hrest]; cbn [length Nat.eqb]; [|by split_and!; [..|constructor]].
    split_and!; [done.. | constructor].
Qed.
End accepted.

(** ** Queries *)

Lemma TrimRight_app_cut (s : string) (cut : ascii) :
  strings.TrimRight (s +:+ String cut EmptyString) cut = strings.TrimRight s cut.
Proof.
  induction s as [|c s IH].
  - change (EmptyString +:+ String cut EmptyString) with (String cut EmptyString).
    cbn [strings.TrimRight]. by rewrite Ascii.eqb_refl.
  - rewrite append_cons. cbn [strings.TrimRight]. by rewrite IH.
Qed.

Section queries.
Context `{GoLibs} {T : Type} `{treecache.TreeCache T}.
Implicit Types kd : dns.KubeDNS (T:=T).

Lemma set_nodesStore_id kd : kd = dns.set_nodesStore kd (dns.nodesStore kd).
Proof. by destruct kd. Qed.

Lemma federationRecords_state kd (queryPath : list string) :
  snd (dns.federationRecords kd queryPath)
    = dns.set_nodesStore kd (dns.nodesStore (snd (dns.federationRecords kd queryPath))).
Proof.
  unfold dns.federationRecords.
  destruct (dns.isFederationQuery kd _) as [[|]|e]; cbn [snd]; try apply set_nodesStore_id.
  destruct (dns.getClusterZoneAndRegion kd) as [r kd'] eqn:Hz.
  assert (kd' = dns.set_nodesStore kd (dns.nodesStore kd')) as Hkd'
    by (by eapply getClusterZoneAndRegion_state).
  destruct r as [[zone region]|e]; [|done].
  repeat case_match; done.
Qed.

Lemma federationRecords_nonempty kd (queryPath : list string) rs kd' :
  dns.federationRecords kd queryPath = (Ok rs, kd') → rs ≠ [].
Proof. intros (name & ->)%federationRecords_host_only. done. Qed.

(** X5.  A query changes nothing of the engine but, when it had to look
    up the zone and the region for a federation redirect, the node
    store: cache, reverse record map, service map, configuration and
    informer stores are what they were.  An exact query changes nothing
    at all. *)
Theorem Records_leaves_engine kd (name : string) (exact : bool) :
  snd (dns.Records kd name exact)
    = dns.set_nodesStore kd (dns.nodesStore (snd (dns.Records kd name exact)))
  ∧ snd (dns.Records kd name true) = kd.
Proof.
  split.
  - unfold dns.Records, dns.recordsForFederation.
    repeat case_match; cbn [snd]; try apply set_nodesStore_id; apply federationRecords_state.
  - unfold dns.Records, dns.recordsForFederation. cbn [negb].
    repeat case_match; done.
Qed.

(** X6.  A query that succeeds returns at least one record: an empty
    answer is turned into the key-not-found error. *)
Theorem Records_success_nonempty kd (name : string) (exact : bool) rs kd' :
  dns.Records kd name exact = (Ok rs, kd') → rs ≠ [].
Proof.
  unfold dns.Records, dns.recordsForFederation. intros Hrec.
  repeat case_match; simplify_eq; try done;
    try (by eapply federationRecords_nonempty);
    by intros ->.
Qed.

(** X7.  A non-exact federation query whose local service has a valid
    record is answered with one CNAME payload for the local service: the
    name without its federation label, with a trailing dot; the engine
    is left as it was. *)
Theorem federation_query_local_cname kd (name : string) :
  let segments := strings.Split (strings.TrimRight name ".") "." in
  dns.isFederationQuery kd segments = Ok true →
  dns.hasValidRecord kd
    (treecache.GetValuesForPathWithWildcards (localPath segments) (dns.cache kd)) = true →
  dns.Records kd name false
    = (Ok [ServiceHostOnly
             (dns.ensureTrailingDot (strings.Join (take 2 segments ++ drop 3 segments) "."))],
       kd).
Proof.
  intros segments Hfed Hvalid.
  unfold dns.Records. fold segments. cbn [negb]. rewrite Hfed.
  rewrite ReverseArray_reverse. fold (localPath segments).
  apply isFederationQuery_true in Hfed as [Hshape _].
  rewrite (getRecordsForPath_local _ _ Hshape).
  unfold dns.recordsForFederation. rewrite Hvalid.
  rewrite ReverseArray_reverse. unfold localPath. by rewrite reverse_involutive.
Qed.

(** X8.  The records of the local service make a federation query local
    exactly when one of them is valid: a record whose host is no
    cluster IP of the service map (a headless service), or a record of a
    service of the map whose endpoints object is in the endpoints store
    and has at least one subset. *)
Theorem hasValidRecord_iff kd (records : list Service) :
  dns.hasValidRecord kd records = true
  ↔ ∃ val, val ∈ records
           ∧ (dns.clusterIPServiceMap kd !! Host val = None
              ∨ ∃ svc e,
                  dns.clusterIPServiceMap kd !! Host val = Some svc
                  ∧ dns.endpointsStore kd !! MetaNamespaceKey (v1.Namespace svc) (v1.Name svc)
                    = Some (ObjEndpoints e)
                  ∧ v1.Subsets e ≠ []).
Proof.
  unfold dns.hasValidRecord. rewrite existsb_exists. split.
  - intros (val & Hin%list_elem_of_In & Hval). exists val. split; [done|].
    unfold dns.isHeadlessServiceRecord, dns.serviceWithClusterIPHasEndpoints in Hval.
    destruct (dns.clusterIPServiceMap kd !! Host val) as [svc|]; [|by left].
    right. cbn [negb] in Hval.
    destruct (dns.endpointsStore kd !! _) as [[| e | |]|] eqn:He; try done.
    exists svc, e. split_and!; [done..|]. by destruct (v1.Subsets e).
  - intros (val & Hin & Hval). exists val. split; [by apply list_elem_of_In|].
    unfold dns.isHeadlessServiceRecord, dns.serviceWithClusterIPHasEndpoints.
    destruct Hval as [-> | (svc & e & -> & -> & Hsub)]; [done|].
    cbn [negb]. by destruct (v1.Subsets e).
Qed.

(** X9.  Trailing dots of the queried name do not matter. *)
Theorem Records_trailing_dot kd (name : string) (exact : bool) :
  dns.Records kd (name +:+ ".") exact = dns.Records kd name exact.
Proof. unfold dns.Records. by rewrite TrimRight_app_cut. Qed.
End queries.

(** ** Services and the two flat maps *)

Lemma ExtractIP_dotted (a b c d : Z) :
  0 ≤ a < 256 → 0 ≤ b < 256 → 0 ≤ c < 256 → 0 ≤ d < 256 →
  util.ExtractIP (gomodel.dotted d c b a +:+ util.ArpaSuffix)
    = (gomodel.dotted a b c d, true).
Proof.
  intros Ha Hb Hc Hd. unfold util.ExtractIP.
  rewrite HasSuffix_app, TrimSuffix_app. cbn [negb]. unfold gomodel.dotted.
  rewrite Split_dotted by (by apply ubtoa_no_dot).
  by rewrite ReverseArray_reverse.
Qed.

Section services.
Context `{GoLibs} {T : Type} `{treecache.TreeCache T}.
Implicit Types kd : dns.KubeDNS (T:=T).

Lemma newPortalService_clusterIPServiceMap kd (service : v1.Service) (ip : string) :
  dns.clusterIPServiceMap (dns.newPortalService kd service) !! ip =
    if decide (ip ∈ util.GetClusterIPs service) then Some service
    else dns.clusterIPServiceMap kd !! ip.
Proof.
  unfold dns.newPortalService.
  set (kd1 := dns.set_cache kd _).
  change (dns.clusterIPServiceMap kd) with (dns.clusterIPServiceMap kd1).
  generalize kd1. clear kd1.
  induction (util.GetClusterIPs service) as [|ip0 ips IH]; intros kd1; cbn [foldl].
  - rewrite decide_False; [done | apply not_elem_of_nil].
  - rewrite IH. cbn [dns.clusterIPServiceMap dns.set_clusterIPServiceMap].
    destruct (decide (ip ∈ ips)) as [Hin|Hnin].
    + rewrite decide_True; [done | by right].
    + destruct (decide (ip = ip0)) as [->|Hne].
      * rewrite lookup_insert_eq, decide_True; [done | by left].
      * rewrite lookup_insert_ne by done. rewrite decide_False; [done|].
        intros [?|?]%elem_of_cons; done.
Qed.

Lemma removeService_lookup kd (s : v1.Service) (ip : string) :
  util.IsServiceIPSet s = true →
  dns.reverseRecordMap (dns.removeService kd (ObjService s)) !! ip
    = (if decide (ip ∈ util.GetClusterIPs s) then None else dns.reverseRecordMap kd !! ip)
  ∧ dns.clusterIPServiceMap (dns.removeService kd (ObjService s)) !! ip
    = (if decide (ip ∈ util.GetClusterIPs s) then None else dns.clusterIPServiceMap kd !! ip).
Proof.
  intros Hset. unfold dns.removeService. cbn [dns.assertIsService]. rewrite Hset.
  set (kd1 := dns.set_cache kd _).
  change (dns.reverseRecordMap kd) with (dns.reverseRecordMap kd1).
  change (dns.clusterIPServiceMap kd) with (dns.clusterIPServiceMap kd1).
  generalize kd1. clear kd1.
  induction (util.GetClusterIPs s) as [|ip0 ips IH]; intros kd1; cbn [foldl].
  - rewrite !decide_False by apply not_elem_of_nil. done.
  - destruct (IH (dns.set_clusterIPServiceMap
                    (dns.set_reverseRecordMap kd1 (delete ip0 (dns.reverseRecordMap kd1)))
                    (delete ip0 (dns.clusterIPServiceMap kd1)))) as [-> ->].
    cbn [dns.reverseRecordMap dns.clusterIPServiceMap dns.set_clusterIPServiceMap
         dns.set_reverseRecordMap].
    destruct (decide (ip ∈ ips)) as [Hin|Hnin].
    + rewrite !decide_True by (by right). done.
    + destruct (decide (ip = ip0)) as [->|Hne].
      * rewrite !lookup_delete_eq, !decide_True by (by left). done.
      * rewrite !lookup_delete_ne by done.
        rewrite !decide_False by (intros [?|?]%elem_of_cons; done). done.
Qed.

(** X10.  A reverse lookup of a name without the suffix
    ".in-addr.arpa." is an error, whatever the map holds.  After the
    handler of a service-add event for a service with a cluster IP, the
    reverse name of each of its IPv4 cluster IPs resolves to the record
    of the service: host <name>.<namespace>.svc.<domain>, port 0. *)
Theorem ReverseRecord_after_newService kd (service : v1.Service) :
  (∀ name, strings.HasSuffix name util.ArpaSuffix = false →
           dns.ReverseRecord kd name
             = Err (Errorf ("does not support reverse lookup for " +:+ name)))
  ∧ (∀ a b c d : Z,
       0 ≤ a < 256 → 0 ≤ b < 256 → 0 ≤ c < 256 → 0 ≤ d < 256 →
       v1.Type_ (v1.Spec service) ≠ v1.ServiceTypeExternalName →
       util.IsServiceIPSet service = true →
       gomodel.dotted a b c d ∈ util.GetClusterIPs service →
       dns.ReverseRecord (dns.newService kd (ObjService service))
         (gomodel.dotted d c b a +:+ ".in-addr.arpa.")
       = Ok {| Host := dns.getServiceFQDN (dns.domain kd) service; Port := 0;
               Priority := 10; Weight := 10; Ttl := 30 |}).
Proof.
  split.
  - intros name Hsuffix. unfold dns.ReverseRecord, util.ExtractIP. by rewrite Hsuffix.
  - intros a b c d Ha Hb Hc Hd Htype Hset Hin. unfold dns.ReverseRecord.
    change ".in-addr.arpa."%string with util.ArpaSuffix.
    rewrite ExtractIP_dotted by done. cbn [negb].
    unfold dns.newService. cbn [dns.assertIsService].
    apply String.eqb_neq in Htype. rewrite Htype, Hset. cbn [negb].
    rewrite newPortalService_reverse, decide_True by done. reflexivity.
Qed.

(** X11.  [removeService] of a service with a cluster IP deletes the
    entries of its cluster IPs from the reverse record map and from the
    service map and leaves every other entry; of a service without one
    (headless or ExternalName) it leaves both maps as they are, so the
    PTR entries of the endpoints of a headless service outlive the
    service. *)
Theorem removeService_maps kd (s : v1.Service) :
  (util.IsServiceIPSet s = true →
   ∀ ip,
     dns.reverseRecordMap (dns.removeService kd (ObjService s)) !! ip
       = (if decide (ip ∈ util.GetClusterIPs s) then None else dns.reverseRecordMap kd !! ip)
     ∧ dns.clusterIPServiceMap (dns.removeService kd (ObjService s)) !! ip
       = (if decide (ip ∈ util.GetClusterIPs s) then None
          else dns.clusterIPServiceMap kd !! ip))
  ∧ (util.IsServiceIPSet s = false →
     dns.reverseRecordMap (dns.removeService kd (ObjService s)) = dns.reverseRecordMap kd
     ∧ dns.clusterIPServiceMap (dns.removeService kd (ObjService s))
       = dns.clusterIPServiceMap kd).
Proof.
  split.
  - intros Hset ip. by apply removeService_lookup.
  - intros Hunset. unfold dns.removeService. cbn [dns.assertIsService]. by rewrite Hunset.
Qed.

(** X12.  An update of a service that does not change it to or from an
    ExternalName service is handled as the add of the new object,
    whether the new object has a cluster IP or is headless; the old
    object is not looked at.  So when the update gives a service with a
    cluster IP other cluster IPs, the reverse entries of the IPs it no
    longer has stay in the map. *)
Theorem updateService_keeps_old_ptr kd (old new : v1.Service) :
  String.eqb (v1.Type_ (v1.Spec new)) v1.ServiceTypeExternalName = false →
  String.eqb (v1.Type_ (v1.Spec old)) v1.ServiceTypeExternalName = false →
  dns.updateService kd (ObjService old) (ObjService new) = dns.newService kd (ObjService new)
  ∧ (∀ ip : string,
       util.IsServiceIPSet new = true →
       ip ∉ util.GetClusterIPs new →
       dns.reverseRecordMap (dns.updateService kd (ObjService old) (ObjService new)) !! ip
         = dns.reverseRecordMap kd !! ip).
Proof.
  intros Hnew Hold.
  assert (dns.updateService kd (ObjService old) (ObjService new)
          = dns.newService kd (ObjService new)) as Hupd.
  { unfold dns.updateService. cbn [dns.assertIsService]. by rewrite Hnew, Hold. }
  split; [done|]. intros ip Hset Hnin.
  rewrite Hupd. unfold dns.newService. cbn [dns.assertIsService].
  rewrite Hnew, Hset. cbn [negb]. by rewrite newPortalService_reverse, decide_False.
Qed.

Lemma handleEndpointDelete_lookup kd (l : list v1.EndpointSubset) (ip : string) :
  dns.reverseRecordMap
    (foldl
       (λ kd subset,
          foldl
            (λ kd address,
               if snd (dns.getHostname address)
               then dns.set_reverseRecordMap kd
                      (delete (v1.IP address) (dns.reverseRecordMap kd))
               else kd)
            kd (v1.Addresses subset))
       kd l) !! ip
  = if existsb (namedb ip) (concat (v1.Addresses <$> l)) then None
    else dns.reverseRecordMap kd !! ip.
Proof.
  rewrite (foldl_subsets
             (λ kd address,
                if snd (dns.getHostname address)
                then dns.set_reverseRecordMap kd
                       (delete (v1.IP address) (dns.reverseRecordMap kd))
                else kd) v1.Addresses).
  generalize (concat (v1.Addresses <$> l)). clear l. intros l.
  revert kd. induction l as [|a l IH]; intros kd; cbn [foldl existsb]; [done|].
  rewrite IH. destruct (existsb (namedb ip) l); [by rewrite orb_true_r|].
  rewrite orb_false_r. unfold namedb.
  destruct (snd (dns.getHostname a)); [|by rewrite andb_false_r].
  rewrite andb_true_r. cbn [dns.reverseRecordMap dns.set_reverseRecordMap].
  destruct (String.eqb_spec (v1.IP a) ip) as [->|Hne].
  - by rewrite lookup_delete_eq.
  - by rewrite lookup_delete_ne.
Qed.

Lemma handleEndpointDelete_cache kd (l : list v1.EndpointSubset) :
  dns.cache
    (foldl
       (λ kd subset,
          foldl
            (λ kd address,
               if snd (dns.getHostname address)
               then dns.set_reverseRecordMap kd
                      (delete (v1.IP address) (dns.reverseRecordMap kd))
               else kd)
            kd (v1.Addresses subset))
       kd l)
  = dns.cache kd.
Proof.
  rewrite (foldl_subsets
             (λ kd address,
                if snd (dns.getHostname address)
                then dns.set_reverseRecordMap kd
                       (delete (v1.IP address) (dns.reverseRecordMap kd))
                else kd) v1.Addresses).
  generalize (concat (v1.Addresses <$> l)). clear l. intros l.
  revert kd. induction l as [|a l IH]; intros kd; cbn [foldl]; [done|].
  rewrite IH. by destruct (snd (dns.getHostname a)).
Qed.

(** X13.  The handler of an endpoints delete event, for a headless
    service of the services store, deletes the reverse entry of every
    IP that the deleted object named and leaves the others; the records
    of the endpoints in the tree cache are not taken out.  When the
    service has a cluster IP, or is no longer in the services store, the
    handler changes nothing. *)
Theorem handleEndpointDelete_effect kd (e : v1.Endpoints) :
  dns.cache (dns.handleEndpointDelete kd (ObjEndpoints e)) = dns.cache kd
  ∧ (∀ svc ip,
       dns.getServiceFromEndpoints kd e = Ok (Some svc) →
       util.IsServiceIPSet svc = false →
       (namedIn e ip →
        dns.reverseRecordMap (dns.handleEndpointDelete kd (ObjEndpoints e)) !! ip = None)
       ∧ (unnamedIn e ip →
          dns.reverseRecordMap (dns.handleEndpointDelete kd (ObjEndpoints e)) !! ip
            = dns.reverseRecordMap kd !! ip))
  ∧ (∀ svc,
       dns.getServiceFromEndpoints kd e = Ok (Some svc) →
       util.IsServiceIPSet svc = true →
       dns.handleEndpointDelete kd (ObjEndpoints e) = kd)
  ∧ (dns.getServiceFromEndpoints kd e = Ok None →
     dns.handleEndpointDelete kd (ObjEndpoints e) = kd).
Proof.
  split_and!.
  - unfold dns.handleEndpointDelete.
    destruct (dns.getServiceFromEndpoints kd e) as [[svc|]|err]; [|done..].
    destruct (util.IsServiceIPSet svc); cbn [negb]; [done|].
    apply handleEndpointDelete_cache.
  - intros svc ip Hsvc Hheadless. unfold dns.handleEndpointDelete.
    rewrite Hsvc, Hheadless. cbn [negb]. rewrite handleEndpointDelete_lookup.
    fold (allAddresses e). split.
    + intros Hnamed%existsb_namedb. by rewrite Hnamed.
    + intros Hun%not_namedIn.
      destruct (existsb (namedb ip) (allAddresses e)) eqn:Hb; [|done].
      by apply existsb_namedb in Hb.
  - intros svc Hsvc Hset. unfold dns.handleEndpointDelete. by rewrite Hsvc, Hset.
  - intros Hnone. unfold dns.handleEndpointDelete. by rewrite Hnone.
Qed.
End services.

(** ** Names of records *)

Lemma Join_app (l1 l2 : list string) (sep : string) :
  l1 ≠ [] → l2 ≠ [] →
  strings.Join (l1 ++ l2) sep = strings.Join l1 sep +:+ sep +:+ strings.Join l2 sep.
Proof.
  intros Hl1 Hl2. induction l1 as [|x l1 IH]; [done|].
  destruct l1 as [|y l1].
  - cbn [app]. by rewrite Join_cons.
  - rewrite <- app_comm_cons, !Join_cons by done. rewrite IH by done.
    by rewrite !app_assoc'.
Qed.

Lemma prepend_labels (labels : list string) (host : string) :
  foldl (λ host cNameLabel, cNameLabel +:+ "." +:+ host) host labels
    = strings.Join (reverse labels ++ [host]) ".".
Proof.
  revert host. induction labels as [|l labels IH]; intros host; cbn [foldl]; [done|].
  rewrite IH, reverse_cons, <- !app_assoc. cbn [app].
  destruct (reverse labels) as [|x r] eqn:Hr; [done|].
  rewrite !(Join_app (x :: r)) by done. done.
Qed.

Section names.
Context `{GoLibs} {T : Type} `{treecache.TreeCache T}.
Implicit Types kd : dns.KubeDNS (T:=T).

(** X14.  The name under which a record is stored: the sub-path labels
    in reverse order, the name and the namespace of the service, "svc"
    and the labels of the domain, joined with dots and made fully
    qualified.  For an engine made by [NewKubeDNS] the labels of the
    domain are those of the cluster domain without its trailing dots. *)
Theorem fqdn_labels kd (service : v1.Service) (subpaths : list string)
    (client : dns.Clientset) (clusterDomain : string) :
  dns.fqdn kd service subpaths
    = Fqdn (strings.Join
              (reverse subpaths
               ++ [v1.Name service; v1.Namespace service; "svc"%string]
               ++ reverse (dns.domainPath kd)) ".")
  ∧ reverse (dns.domainPath (dns.NewKubeDNS (T:=T) client clusterDomain))
    = strings.Split (strings.TrimRight clusterDomain ".") "."
  ∧ dns.fqdn (dns.NewKubeDNS (T:=T) client clusterDomain) service subpaths
    = Fqdn (strings.Join
              (reverse subpaths ++ [v1.Name service; v1.Namespace service; "svc"%string]) "."
            +:+ "." +:+ strings.TrimRight clusterDomain ".").
Proof.
  assert (∀ kd', dns.fqdn kd' service subpaths
                 = Fqdn (strings.Join
                           (reverse subpaths
                            ++ [v1.Name service; v1.Namespace service; "svc"%string]
                            ++ reverse (dns.domainPath kd')) ".")) as Hfqdn.
  { intros kd'. unfold dns.fqdn. rewrite ReverseArray_reverse.
    rewrite !reverse_app. reflexivity. }
  assert (reverse (dns.domainPath (dns.NewKubeDNS (T:=T) client clusterDomain))
          = strings.Split (strings.TrimRight clusterDomain ".") ".") as Hdom.
  { cbn [dns.NewKubeDNS dns.domainPath].
    by rewrite ReverseArray_reverse, reverse_involutive. }
  split_and!; [apply Hfqdn | done |].
  rewrite Hfqdn, Hdom. f_equal.
  rewrite app_assoc, Join_app.
  - by rewrite Join_Split.
  - by destruct (reverse subpaths).
  - apply Split_nonempty.
Qed.

Lemma generateSRVRecordValue_eq kd (svc : v1.Service) (portNumber : Z)
    (labels : list string) :
  dns.generateSRVRecordValue kd svc portNumber labels
    = {| Host := strings.Join
                   (reverse labels
                    ++ [v1.Name svc; v1.Namespace svc; "svc"%string; dns.domain kd]) ".";
         Port := portNumber; Priority := 10; Weight := 10; Ttl := 30 |}.
Proof.
  unfold dns.generateSRVRecordValue. rewrite prepend_labels.
  change (fst (util.GetSkyMsg ?h portNumber)) with (util.NewServiceRecord h portNumber).
  unfold util.NewServiceRecord. f_equal.
  destruct (reverse labels) as [|x r]; [done|].
  rewrite !(Join_app (x :: r)) by done. done.
Qed.

(** X15.  The payload of an SRV record: its host is the given labels,
    the last one first, in front of <name>.<namespace>.svc.<domain>; its
    port is the given port; priority, weight and ttl are the defaults. *)
Theorem generateSRVRecordValue_host kd (svc : v1.Service) (portNumber : Z)
    (labels : list string) :
  dns.generateSRVRecordValue kd svc portNumber labels
    = {| Host := strings.Join
                   (reverse labels
                    ++ [v1.Name svc; v1.Namespace svc; "svc"%string; dns.domain kd]) ".";
         Port := portNumber; Priority := 10; Weight := 10; Ttl := 30 |}.
Proof. apply generateSRVRecordValue_eq. Qed.

(** X16.  The node that decides the zone and the region is looked up
    once: after a call that leaves a node in the node store, every later
    call returns the same result, error or not, whatever the cluster's
    API would return by then.  A call with an empty node store that gets
    an error or an empty list from the API fails and leaves the store
    empty. *)
Theorem getClusterZoneAndRegion_cached kd r kd' :
  dns.getClusterZoneAndRegion kd = (r, kd') →
  (dns.nodesStore kd' ≠ [] →
   ∀ kd2 : dns.KubeDNS (T:=T),
     dns.nodesStore kd2 = dns.nodesStore kd' → dns.getClusterZoneAndRegion kd2 = (r, kd2))
  ∧ (dns.nodesStore kd = [] →
     (∀ items, dns.NodesList (dns.kubeClient kd) = Ok items → items = []) →
     r = Err (Errorf "failed to retrieve the cluster nodes") ∧ kd' = kd).
Proof.
  intros Hcall. split.
  - intros Hstore kd2 Hsame. unfold dns.getClusterZoneAndRegion in *.
    rewrite Hsame. destruct (dns.nodesStore kd) as [|obj objs] eqn:Hkd.
    + destruct (dns.NodesList (dns.kubeClient kd)) as [items|e];
        [|by simplify_eq; rewrite Hkd in Hstore].
      destruct (length items =? 0)%nat; [by simplify_eq; rewrite Hkd in Hstore|].
      destruct (find _ items) as [node|];
        [|by simplify_eq; rewrite Hkd in Hstore].
      simplify_eq. cbn [dns.nodesStore dns.set_nodesStore]. by rewrite ?Hkd.
    + destruct obj; simplify_eq; by rewrite ?Hkd.
  - intros Hempty Hitems. unfold dns.getClusterZoneAndRegion in Hcall.
    rewrite Hempty in Hcall.
    destruct (dns.NodesList (dns.kubeClient kd)) as [items|e]; [|by simplify_eq].
    rewrite (Hitems items eq_refl) in Hcall. cbn in Hcall. by simplify_eq.
Qed.
End names.

(** ** Headless services *)

Section arrival.
Context `{GoLibs} {T : Type} `{treecache.TreeCache T}.
Implicit Types kd : dns.KubeDNS (T:=T).

(** X17.  For a headless service, it does not matter whether the
    service or its endpoints object arrives first: when neither was in
    the stores, the two orders of the add events leave the same engine,
    with the records of the endpoints object generated once. *)
Theorem headless_arrival_order kd (s : v1.Service) (e : v1.Endpoints) :
  informer.serviceKey s = informer.endpointsKey e →
  dns.servicesStore kd !! informer.serviceKey s = None →
  dns.endpointsStore kd !! informer.serviceKey s = None →
  String.eqb (v1.Type_ (v1.Spec s)) v1.ServiceTypeExternalName = false →
  util.IsServiceIPSet s = false →
  informer.run kd [informer.ServiceAdded s; informer.EndpointsAdded e]
    = informer.run kd [informer.EndpointsAdded e; informer.ServiceAdded s]
  ∧ informer.run kd [informer.ServiceAdded s; informer.EndpointsAdded e]
    = fst (dns.generateRecordsForHeadlessService
             (dns.set_endpointsStore
                (dns.set_servicesStore kd
                   (<[informer.serviceKey s := ObjService s]> (dns.servicesStore kd)))
                (<[informer.serviceKey s := ObjEndpoints e]> (dns.endpointsStore kd)))
             e s).
Proof.
  intros Hkey Hsvc Hep Htype Hheadless.
  set (kdS := dns.set_servicesStore kd
                (<[informer.serviceKey s := ObjService s]> (dns.servicesStore kd))).
  set (kdE := dns.set_endpointsStore kd
                (<[informer.endpointsKey e := ObjEndpoints e]> (dns.endpointsStore kd))).
  assert (informer.deliver kd (informer.ServiceAdded s) = kdS) as HS.
  { cbn [informer.deliver]. fold kdS. unfold dns.newService. cbn [dns.assertIsService].
    rewrite Htype, Hheadless. cbn [negb]. unfold dns.newHeadlessService.
    fold (informer.serviceKey s). change (dns.endpointsStore kdS) with (dns.endpointsStore kd).
    by rewrite Hep. }
  assert (informer.deliver kd (informer.EndpointsAdded e) = kdE) as HE.
  { cbn [informer.deliver]. fold kdE.
    unfold dns.handleEndpointAdd, dns.addDNSUsingEndpoints, dns.getServiceFromEndpoints.
    fold (informer.endpointsKey e). change (dns.servicesStore kdE) with (dns.servicesStore kd).
    by rewrite <- Hkey, Hsvc. }
  assert (informer.deliver kdS (informer.EndpointsAdded e)
          = fst (dns.generateRecordsForHeadlessService
                   (dns.set_endpointsStore kdS
                      (<[informer.serviceKey s := ObjEndpoints e]> (dns.endpointsStore kd)))
                   e s)) as HSE.
  { cbn [informer.deliver].
    unfold dns.handleEndpointAdd, dns.addDNSUsingEndpoints, dns.getServiceFromEndpoints.
    fold (informer.endpointsKey e). rewrite <- Hkey.
    change (dns.servicesStore (dns.set_endpointsStore kdS ?m))
      with (<[informer.serviceKey s := ObjService s]> (dns.servicesStore kd)).
    rewrite lookup_insert_eq. cbn [dns.assertIsService].
    by rewrite Htype, Hheadless. }
  assert (informer.deliver kdE (informer.ServiceAdded s)
          = fst (dns.generateRecordsForHeadlessService
                   (dns.set_servicesStore kdE
                      (<[informer.serviceKey s := ObjService s]> (dns.servicesStore kd)))
                   e s)) as HES.
  { cbn [informer.deliver]. unfold dns.newService. cbn [dns.assertIsService].
    rewrite Htype, Hheadless. cbn [negb]. unfold dns.newHeadlessService.
    fold (informer.serviceKey s).
    change (dns.endpointsStore (dns.set_servicesStore kdE ?m))
      with (<[informer.endpointsKey e := ObjEndpoints e]> (dns.endpointsStore kd)).
    by rewrite <- Hkey, lookup_insert_eq. }
  unfold informer.run. cbn [foldl]. rewrite HS, HE, HSE, HES.
  split; [|done]. unfold kdE. by rewrite <- Hkey.
Qed.
End arrival.

Lemma foldl_log_step {B C G : Type} (F : list C * G → B → list C * G)
    (entries : B → list C) :
  (∀ log g b, ∃ g1, F (log, g) b = (log ++ entries b, g1)) →
  ∀ l log g, ∃ g', foldl F (log, g) l = (log ++ concat (entries <$> l), g').
Proof.
  intros Hstep. induction l as [|b l IH]; intros log g; cbn [foldl].
  - eexists. by rewrite fmap_nil, app_nil_r.
  - destruct (Hstep log g b) as [g1 ->]. destruct (IH (log ++ entries b) g1) as [g' ->].
    exists g'. by rewrite fmap_cons, concat_cons, app_assoc.
Qed.

Section recorded_services.
Context `{GoLibs}.
#[local] Existing Instance calls.recorder.
Implicit Types kd : dns.KubeDNS (T:=list calls.Call).

Opaque util.GetSkyMsg.

Lemma headless_ports kd (svc : v1.Service) (label : string) (ports : list v1.EndpointPort)
    (log : list calls.Call) :
  foldl
    (λ subCache endpointPort,
       if negb (String.eqb (v1.ep_Name endpointPort) EmptyString)
          && negb (String.eqb (v1.ep_Protocol endpointPort) EmptyString)
       then
         treecache.SetEntry label
           (dns.generateSRVRecordValue kd svc (v1.ep_Port endpointPort) [label])
           (dns.fqdn kd svc
              (["_" +:+ ToLower (v1.ep_Protocol endpointPort);
                "_" +:+ v1.ep_Name endpointPort] ++ [label]))
           ["_" +:+ ToLower (v1.ep_Protocol endpointPort);
            "_" +:+ v1.ep_Name endpointPort]
           subCache
       else subCache)
    log ports
  = log ++ (endpointSrvEntry kd svc label <$> filter (λ port, hasEndpointSRV port = true) ports).
Proof.
  revert log. induction ports as [|port ports IH]; intros log; cbn [foldl].
  - by rewrite filter_nil, fmap_nil, app_nil_r.
  - rewrite IH, filter_cons. fold (hasEndpointSRV port).
    destruct (hasEndpointSRV port) eqn:Hsrv.
    + rewrite decide_True by done. rewrite fmap_cons.
      cbn [treecache.SetEntry calls.recorder]. rewrite <- app_assoc.
      rewrite generateSRVRecordValue_eq. reflexivity.
    + by rewrite decide_False.
Qed.

(** X18.  The sub-cache of a headless service: for every address of
    every subset, in their order, the A record of the address under the
    hostname of the address, or under the hash label when it has none,
    and then one SRV record for exactly the ports of the subset that
    have a name and a protocol, under ["_" + lower-case protocol,
    "_" + name] with the same leaf key, the port of the endpoint port,
    and the host <label>.<name>.<namespace>.svc.<domain>. *)
Theorem headless_service_records kd (e : v1.Endpoints) (svc : v1.Service) :
  fst (dns.headlessRecords kd e svc)
    = concat ((λ subset, concat (headlessEntries kd svc subset <$> v1.Addresses subset))
                <$> v1.Subsets e).
Proof.
  unfold dns.headlessRecords.
  change (treecache.NewTreeCache (T:=list calls.Call)) with ([] : list calls.Call).
  rewrite <- (app_nil_l (concat _)).
  generalize ([] : list calls.Call) (∅ : gmap string Service).
  induction (v1.Subsets e) as [|subset subsets IH]; intros log g; cbn [foldl].
  - by rewrite fmap_nil, app_nil_r.
  - rewrite fmap_cons, concat_cons.
    match goal with
    | |- context [foldl ?F (log, g) (v1.Addresses subset)] =>
        assert (∀ log g a,
                  ∃ g1, F (log, g) a = (log ++ headlessEntries kd svc subset a, g1)) as Hstep;
        [| destruct (foldl_log_step F _ Hstep (v1.Addresses subset) log g) as [g' ->]]
    end.
    + clear. intros log g a. unfold headlessEntries, endpointName.
      rewrite (GetSkyMsg_eq (v1.IP a) 0).
      destruct (snd (dns.getHostname a)) eqn:Hn.
      * rewrite (getHostname_named _ Hn). cbv beta iota zeta.
        rewrite headless_ports. cbn [treecache.SetEntry calls.recorder].
        eexists. by rewrite <- !app_assoc.
      * destruct (dns.getHostname a) as [hostLabel exists_]. cbn [snd] in Hn. subst exists_.
        cbv beta iota zeta.
        rewrite headless_ports. cbn [treecache.SetEntry calls.recorder].
        eexists. by rewrite <- !app_assoc.
    + rewrite IH. by rewrite <- !app_assoc.
Qed.

(** X19.  A service of type ExternalName gets one record and nothing
    else: the handler of its add event stores the payload
    {host = ExternalName, port = 0} under the name of the service at the
    path of its namespace, and touches neither the reverse record map
    nor the service map, whatever the ClusterIP field of the service
    holds. *)
Theorem newService_ExternalName kd (service : v1.Service) :
  v1.Type_ (v1.Spec service) = v1.ServiceTypeExternalName →
  dns.cache (dns.newService kd (ObjService service))
    = dns.cache kd
      ++ [calls.CallSetEntry (v1.Name service)
            {| Host := v1.ExternalName (v1.Spec service); Port := 0; Priority := 10;
               Weight := 10; Ttl := 30 |}
            (dns.fqdn kd service [])
            (dns.domainPath kd ++ ["svc"%string; v1.Namespace service])]
  ∧ dns.reverseRecordMap (dns.newService kd (ObjService service)) = dns.reverseRecordMap kd
  ∧ dns.clusterIPServiceMap (dns.newService kd (ObjService service))
    = dns.clusterIPServiceMap kd.
Proof.
  intros Htype. unfold dns.newService. cbn [dns.assertIsService].
  rewrite Htype. cbn [String.eqb]. rewrite (proj2 (String.eqb_eq _ _) eq_refl).
  unfold dns.newExternalNameService. rewrite (GetSkyMsg_eq _ 0). done.
Qed.

Transparent util.GetSkyMsg.
End recorded_services.

(** ** The further properties on the small cluster *)

Section further_examples.
#[local] Existing Instance example.host.
#[local] Existing Instance spectree.cache.

Lemma Records_success_nonempty_witness :
  dns.Records example.kd0 "10-0-0-1.default.pod.cluster.local." false
    = (Ok [ {| Host := "10.0.0.1"; Port := 0; Priority := 10; Weight := 10; Ttl := 30 |} ],
       example.kd0)
  ∧ [ {| Host := "10.0.0.1"; Port := 0; Priority := 10; Weight := 10; Ttl := 30 |} ] ≠ [].
Proof.
  assert (dns.Records example.kd0 "10-0-0-1.default.pod.cluster.local." false
          = (Ok [ {| Host := "10.0.0.1"; Port := 0; Priority := 10; Weight := 10;
                     Ttl := 30 |} ], example.kd0)) as Hrec by (vm_compute; reflexivity).
  split; [exact Hrec|].
  exact (Records_success_nonempty example.kd0 _ false _ _ Hrec).
Defined.

Lemma federation_query_local_cname_witness :
  let kd :=
    informer.run example.kd_fed
      [informer.ServiceAdded example.web;
       informer.EndpointsAdded
         {| v1.e_Name := "web"; v1.e_Namespace := "prod";
            v1.Subsets := [ {| v1.Addresses := [example.unnamed "10.1.0.3"];
                               v1.ep_Ports := [] |} ] |}] in
  dns.Records kd "web.prod.myfed.svc.cluster.local." false
    = (Ok [ServiceHostOnly "web.prod.svc.cluster.local."], kd).
Proof.
  intros kd.
  rewrite (federation_query_local_cname kd "web.prod.myfed.svc.cluster.local.").
  - vm_compute. reflexivity.
  - vm_compute. reflexivity.
  - vm_compute. reflexivity.
Defined.

Lemma updateService_keeps_old_ptr_witness :
  let kd := informer.run example.kd0 [informer.ServiceAdded example.web] in
  let moved :=
    {| v1.Name := "web"; v1.Namespace := "prod";
       v1.Spec := {| v1.Type_ := "ClusterIP"; v1.ClusterIP := "10.0.0.9";
                     v1.ClusterIPs := ["10.0.0.9"%string]; v1.Ports := [];
                     v1.ExternalName := "" |} |} in
  dns.updateService kd (ObjService example.web) (ObjService moved)
    = dns.newService kd (ObjService moved)
  ∧ dns.updateService kd (ObjService example.web) (ObjService example.db)
    = dns.newService kd (ObjService example.db)
  ∧ dns.reverseRecordMap (dns.updateService kd (ObjService example.web) (ObjService moved))
      !! "10.0.0.5"
    = Some {| Host := "web.prod.svc.cluster.local."; Port := 0; Priority := 10;
              Weight := 10; Ttl := 30 |}.
Proof.
  intros kd moved. split_and!.
  - exact (proj1 (updateService_keeps_old_ptr kd example.web moved eq_refl eq_refl)).
  - exact (proj1 (updateService_keeps_old_ptr kd example.web example.db eq_refl eq_refl)).
  - rewrite (proj2 (updateService_keeps_old_ptr kd example.web moved eq_refl eq_refl)
               "10.0.0.5" eq_refl
               ltac:(intros [Heq|Hin%elem_of_nil]%elem_of_cons; [discriminate | done])).
    vm_compute. reflexivity.
Defined.

Lemma getClusterZoneAndRegion_cached_witness :
  let offline : dns.Clientset := {| dns.NodesList := Err (Errorf "connection refused") |} in
  let kd2 :=
    dns.set_nodesStore (dns.NewKubeDNS offline "cluster.local.") [ObjNode example.node] in
  dns.getClusterZoneAndRegion kd2 = (Ok ("z1"%string, "r1"%string), kd2).
Proof.
  intros offline kd2.
  apply (proj1 (getClusterZoneAndRegion_cached example.kd_fed (Ok ("z1"%string, "r1"%string))
                  (dns.set_nodesStore example.kd_fed [ObjNode example.node]) eq_refl)).
  - discriminate.
  - reflexivity.
Defined.

Lemma headless_arrival_order_witness :
  informer.run example.kd0
    [informer.ServiceAdded example.db;
     informer.EndpointsAdded (example.endpoints_of [example.named "10.0.0.7" "db-0"])]
  = informer.run example.kd0
      [informer.EndpointsAdded (example.endpoints_of [example.named "10.0.0.7" "db-0"]);
       informer.ServiceAdded example.db].
Proof.
  apply (headless_arrival_order example.kd0 example.db
           (example.endpoints_of [example.named "10.0.0.7" "db-0"])); reflexivity.
Defined.
End further_examples.

Section further_recorded_examples.
#[local] Existing Instance example.host.
#[local] Existing Instance calls.recorder.

Lemma newService_ExternalName_witness :
  let alias :=
    {| v1.Name := "alias"; v1.Namespace := "prod";
       v1.Spec := {| v1.Type_ := "ExternalName"; v1.ClusterIP := "";
                     v1.ClusterIPs := []; v1.Ports := [];
                     v1.ExternalName := "example.com" |} |} in
  dns.cache (dns.newService (dns.NewKubeDNS example.client "cluster.local.")
               (ObjService alias))
  = [calls.CallSetEntry "alias"
       {| Host := "example.com"; Port := 0; Priority := 10; Weight := 10; Ttl := 30 |}
       "alias.prod.svc.cluster.local." ["local"; "cluster"; "svc"; "prod"]%string].
Proof.
  intros alias.
  rewrite (proj1 (newService_ExternalName (dns.NewKubeDNS example.client "cluster.local.")
                    alias eq_refl)).
  vm_compute. reflexivity.
Defined.
End further_recorded_examples.

(** ** Queries answered from the tree cache *)

Section plain_queries.
Context `{GoLibs} {T : Type} `{treecache.TreeCache T}.

Lemma index_last (l : list string) (x : string) :
  dns.index (l ++ [x]) (length (l ++ [x]) - 1) = x.
Proof.
  unfold dns.index. rewrite length_app. simpl.
  rewrite app_nth2 by lia.
  replace (length l + 1 - 1 - length l)%nat with 0%nat by lia. done.
Qed.

Lemma take_init (l : list string) (x : string) :
  take (length (l ++ [x]) - 1) (l ++ [x]) = l.
Proof.
  rewrite length_app. simpl.
  replace (length l + 1 - 1)%nat with (length l) by lia.
  by rewrite take_app_length.
Qed.

(** X20.  An exact query for a name that is no pod name is answered
    from one entry of the tree cache: the first label of the name is the
    key, the other labels, the last one first, are the path.  The answer
    is that one record, or the key-not-found error when there is no such
    entry or the first label is empty.  The name is not looked at as a
    federation name, so an engine without a configuration answers as
    well, and the engine is left as it was. *)
Theorem Records_exact_entry kd (name key : string) (rest : list string) :
  strings.Split (strings.TrimRight name ".") "." = key :: rest →
  dns.isPodRecord kd (reverse (key :: rest)) = false →
  dns.Records kd name true
    = (if String.eqb key "" then Err ErrKeyNotFound
       else match treecache.GetEntry key (reverse rest) (dns.cache kd) with
            | Some record => Ok [record]
            | None => Err ErrKeyNotFound
            end,
       kd).
Proof.
  intros Hsplit Hpod. unfold dns.Records. cbv zeta. rewrite Hsplit.
  cbn [negb]. cbv iota. rewrite ReverseArray_reverse.
  unfold dns.getRecordsForPath. rewrite Hpod.
  rewrite reverse_cons.
  destruct (reverse rest ++ [key]) as [|x l] eqn:Hpath.
  { by destruct (reverse rest). }
  rewrite <- Hpath. rewrite index_last, take_init.
  destruct (String.eqb key ""); [done|].
  by destruct (treecache.GetEntry key (reverse rest) (dns.cache kd)).
Qed.

(** X21.  A query that is not exact, for a name that is neither a
    federation name nor a pod name, is answered with all the records
    that the tree cache finds for the labels of the name, the last one
    first, with its wildcards, in the order of the cache; when there are
    none, with the key-not-found error.  The engine is left as it
    was. *)
Theorem Records_wildcard kd (name : string) :
  let segments := strings.Split (strings.TrimRight name ".") "." in
  dns.isFederationQuery kd segments = Ok false →
  dns.isPodRecord kd (reverse segments) = false →
  dns.Records kd name false
    = (match treecache.GetValuesForPathWithWildcards (reverse segments) (dns.cache kd) with
       | [] => Err ErrKeyNotFound
       | records => Ok records
       end,
       kd).
Proof.
  intros segments Hfed Hpod. unfold dns.Records. cbv zeta. fold segments.
  cbn [negb]. rewrite Hfed. cbv iota. rewrite ReverseArray_reverse.
  unfold dns.getRecordsForPath. rewrite Hpod. cbv zeta. rewrite foldl_snoc.
  cbn [app].
  by destruct (treecache.GetValuesForPathWithWildcards (reverse segments) (dns.cache kd)).
Qed.

(** ** Events that change nothing *)

(** X22.  Unless the services store holds a service without a cluster
    IP under the key of the endpoints object, the handlers of the
    endpoints events change nothing: not for a service with a cluster
    IP, not when the service is unknown, not when the store holds
    another object under the key. *)
Theorem endpoints_events_without_headless_service kd (old e : v1.Endpoints) :
  v1.e_Namespace old = v1.e_Namespace e →
  v1.e_Name old = v1.e_Name e →
  (∀ svc, dns.getServiceFromEndpoints kd e = Ok (Some svc) →
          util.IsServiceIPSet svc = true) →
  dns.handleEndpointAdd kd (ObjEndpoints e) = kd
  ∧ dns.handleEndpointUpdate kd (ObjEndpoints old) (ObjEndpoints e) = kd
  ∧ dns.handleEndpointDelete kd (ObjEndpoints e) = kd.
Proof.
  intros Hns Hname Hportal.
  assert (dns.getServiceFromEndpoints kd old = dns.getServiceFromEndpoints kd e) as Hold.
  { unfold dns.getServiceFromEndpoints. by rewrite Hns, Hname. }
  assert (dns.handleEndpointAdd kd (ObjEndpoints e) = kd) as Hadd.
  { unfold dns.handleEndpointAdd, dns.addDNSUsingEndpoints.
    destruct (dns.getServiceFromEndpoints kd e) as [[svc|]|err] eqn:Hsvc; [|done..].
    by rewrite (Hportal svc eq_refl). }
  split_and!.
  - exact Hadd.
  - unfold dns.handleEndpointUpdate. rewrite Hold.
    destruct (dns.getServiceFromEndpoints kd e) as [[svc|]|err] eqn:Hsvc; [|done..].
    by rewrite (Hportal svc eq_refl).
  - unfold dns.handleEndpointDelete.
    destruct (dns.getServiceFromEndpoints kd e) as [[svc|]|err] eqn:Hsvc; [|done..].
    by rewrite (Hportal svc eq_refl).
Qed.

(** X23.  An event that carries an object of another type than the
    handler expects is dropped: the service handlers change nothing for
    an object that is no service (for an update, when either of the two
    objects is none), the endpoints handlers nothing for an object that
    is no endpoints object. *)
Theorem handlers_drop_foreign_objects kd (obj other : Object) :
  (dns.assertIsService obj = None →
   dns.newService kd obj = kd
   ∧ dns.removeService kd obj = kd
   ∧ dns.updateService kd obj other = kd
   ∧ dns.updateService kd other obj = kd)
  ∧ ((∀ e, obj ≠ ObjEndpoints e) →
     dns.handleEndpointAdd kd obj = kd
     ∧ dns.handleEndpointUpdate kd obj other = kd
     ∧ dns.handleEndpointUpdate kd other obj = kd
     ∧ dns.handleEndpointDelete kd obj = kd).
Proof.
  split.
  - intros Hobj. unfold dns.newService, dns.removeService, dns.updateService.
    rewrite Hobj. split_and!; try done.
    by destruct (dns.assertIsService other).
  - intros Hobj.
    unfold dns.handleEndpointAdd, dns.handleEndpointUpdate, dns.handleEndpointDelete.
    destruct obj as [s|e|n|]; try (by destruct (Hobj e)); split_and!; try done;
      by destruct other.
Qed.
End plain_queries.

(** ** Queries and events on the small cluster *)

Section more_examples.
#[local] Existing Instance example.host.
#[local] Existing Instance spectree.cache.

Lemma Records_exact_entry_witness :
  let alias :=
    {| v1.Name := "alias"; v1.Namespace := "prod";
       v1.Spec := {| v1.Type_ := "ExternalName"; v1.ClusterIP := "";
                     v1.ClusterIPs := []; v1.Ports := [];
                     v1.ExternalName := "example.com" |} |} in
  let kd := informer.run example.kd0 [informer.ServiceAdded alias] in
  dns.Records kd "alias.prod.svc.cluster.local." true
    = (Ok [ {| Host := "example.com"; Port := 0; Priority := 10; Weight := 10;
               Ttl := 30 |} ], kd)
  ∧ dns.Records kd "web.prod.svc.cluster.local." true = (Err ErrKeyNotFound, kd).
Proof.
  intros alias kd. split.
  - rewrite (Records_exact_entry kd "alias.prod.svc.cluster.local." "alias"
               ["prod"; "svc"; "cluster"; "local"]%string).
    + vm_compute. reflexivity.
    + vm_compute. reflexivity.
    + vm_compute. reflexivity.
  - rewrite (Records_exact_entry kd "web.prod.svc.cluster.local." "web"
               ["prod"; "svc"; "cluster"; "local"]%string).
    + vm_compute. reflexivity.
    + vm_compute. reflexivity.
    + vm_compute. reflexivity.
Defined.

Lemma Records_wildcard_witness :
  let kd := informer.run example.kd0 [informer.ServiceAdded example.web] in
  dns.Records kd "*.prod.svc.cluster.local." false
    = (Ok [ {| Host := "10.0.0.5"; Port := 0; Priority := 10; Weight := 10; Ttl := 30 |};
            {| Host := "web.prod.svc.cluster.local."; Port := 80; Priority := 10;
               Weight := 10; Ttl := 30 |} ], kd)
  ∧ dns.Records kd "nothing.prod.svc.cluster.local." false = (Err ErrKeyNotFound, kd).
Proof.
  intros kd. split.
  - rewrite (Records_wildcard kd "*.prod.svc.cluster.local.").
    + vm_compute. reflexivity.
    + vm_compute. reflexivity.
    + vm_compute. reflexivity.
  - rewrite (Records_wildcard kd "nothing.prod.svc.cluster.local.").
    + vm_compute. reflexivity.
    + vm_compute. reflexivity.
    + vm_compute. reflexivity.
Defined.

Lemma endpoints_events_without_headless_service_witness :
  let kd := informer.run example.kd0 [informer.ServiceAdded example.web] in
  let e :=
    {| v1.e_Name := "web"; v1.e_Namespace := "prod";
       v1.Subsets := [ {| v1.Addresses := [example.named "10.1.0.3" "web-0"];
                          v1.ep_Ports := [] |} ] |} in
  let old := {| v1.e_Name := "web"; v1.e_Namespace := "prod"; v1.Subsets := [] |} in
  dns.getServiceFromEndpoints kd e = Ok (Some example.web)
  ∧ dns.handleEndpointAdd kd (ObjEndpoints e) = kd
  ∧ dns.handleEndpointUpdate kd (ObjEndpoints old) (ObjEndpoints e) = kd
  ∧ dns.handleEndpointDelete kd (ObjEndpoints e) = kd.
Proof.
  intros kd e old. split; [vm_compute; reflexivity|].
  apply (endpoints_events_without_headless_service kd old e eq_refl eq_refl).
  intros svc Hsvc. vm_compute in Hsvc. injection Hsvc as <-. vm_compute. reflexivity.
Defined.
End more_examples.

(** ** The reverse record map, handler by handler *)

Section handlers.
Context `{GoLibs} {T : Type} `{treecache.TreeCache T}.
Implicit Types kd : dns.KubeDNS (T:=T).

Lemma handleEndpointUpdate_reverse kd (oldEndpoints newEndpoints : v1.Endpoints)
    (svc : v1.Service) (ip : string) :
  dns.getServiceFromEndpoints kd oldEndpoints = Ok (Some svc) →
  util.IsServiceIPSet svc = false →
  dns.reverseRecordMap
    (dns.handleEndpointUpdate kd (ObjEndpoints oldEndpoints) (ObjEndpoints newEndpoints)) !! ip
  = match stagedFor kd newEndpoints !! ip with
    | Some r => Some r
    | None =>
        if dns.oldAddressMap oldEndpoints newEndpoints !! ip is Some _ then None
        else dns.reverseRecordMap kd !! ip
    end.
Proof.
  intros Hsvc Hheadless. unfold dns.handleEndpointUpdate. rewrite Hsvc, Hheadless.
  simpl negb. cbv iota. rewrite handleEndpointAdd_reverse. simpl.
  by rewrite map_fold_delete_lookup.
Qed.

Lemma staged_named kd (svc : v1.Service) (e : v1.Endpoints) (ip : string) :
  namedIn e ip → is_Some (foldl (stage kd svc) ∅ (allAddresses e) !! ip).
Proof.
  intros Hnamed%existsb_namedb.
  destruct (stage_lookup_named kd svc _ ∅ ip Hnamed) as (a & _ & _ & _ & ->). by eexists.
Qed.

Lemma staged_unnamed kd (svc : v1.Service) (e : v1.Endpoints) (ip : string) :
  unnamedIn e ip → foldl (stage kd svc) ∅ (allAddresses e) !! ip = None.
Proof.
  intros Hun%not_namedIn. rewrite stage_lookup_unnamed; [apply lookup_empty|].
  destruct (existsb (namedb ip) (allAddresses e)) eqn:Hb; [|done].
  by apply existsb_namedb in Hb.
Qed.

Lemma newService_headless_reverse kd (service : v1.Service) (e : v1.Endpoints) (ip : string) :
  v1.Type_ (v1.Spec service) ≠ v1.ServiceTypeExternalName →
  util.IsServiceIPSet service = false →
  dns.endpointsStore kd !! MetaNamespaceKey (v1.Namespace service) (v1.Name service)
    = Some (ObjEndpoints e) →
  dns.reverseRecordMap (dns.newService kd (ObjService service)) !! ip
  = match foldl (stage kd service) ∅ (allAddresses e) !! ip with
    | Some r => Some r
    | None => dns.reverseRecordMap kd !! ip
    end.
Proof.
  intros Htype%String.eqb_neq Hheadless He.
  unfold dns.newService. cbn [dns.assertIsService]. rewrite Htype, Hheadless. cbn [negb].
  unfold dns.newHeadlessService. rewrite He.
  apply generateRecordsForHeadlessService_reverse.
Qed.

Lemma removeService_reverse kd (s : v1.Service) (ip : string) :
  dns.reverseRecordMap (dns.removeService kd (ObjService s)) !! ip
  = if util.IsServiceIPSet s && bool_decide (ip ∈ util.GetClusterIPs s) then None
    else dns.reverseRecordMap kd !! ip.
Proof.
  destruct (util.IsServiceIPSet s) eqn:Hset.
  - rewrite (proj1 (removeService_lookup kd s ip Hset)). cbn [andb].
    by destruct (decide (ip ∈ util.GetClusterIPs s));
      [rewrite bool_decide_eq_true_2 | rewrite bool_decide_eq_false_2].
  - unfold dns.removeService. cbn [dns.assertIsService]. by rewrite Hset.
Qed.

Lemma removeService_stores kd (obj : Object) :
  dns.endpointsStore (dns.removeService kd obj) = dns.endpointsStore kd
  ∧ dns.domain (dns.removeService kd obj) = dns.domain kd.
Proof.
  unfold dns.removeService. destruct (dns.assertIsService obj) as [s|]; [|done].
  destruct (util.IsServiceIPSet s); [|done].
  set (kd1 := dns.set_cache kd _).
  change (dns.endpointsStore kd) with (dns.endpointsStore kd1).
  change (dns.domain kd) with (dns.domain kd1).
  generalize kd1. clear kd1.
  induction (util.GetClusterIPs s) as [|ip ips IH]; intros kd1; cbn [foldl]; [done|].
  by destruct (IH (dns.set_clusterIPServiceMap
                     (dns.set_reverseRecordMap kd1 (delete ip (dns.reverseRecordMap kd1)))
                     (delete ip (dns.clusterIPServiceMap kd1)))) as [-> ->].
Qed.

(** C3, as the code has it, handler by handler.  The map is keyed by
    the IP alone and a handler writes the entries of the object at hand.

    When the handler of a service add or update event completes for a
    service with a cluster IP, the map has an entry for each of its
    cluster IPs.  When it completes for a headless service whose
    endpoints object is in the endpoints store, and when the handler of
    an endpoints add or update event completes for a headless service of
    the services store, the map has an entry for every address of the
    endpoints object that carries a hostname.  (ExternalName services
    are neither.)

    For an IP that the endpoints object holds only without a hostname,
    these handlers create no entry: the add handlers leave the map as
    they found it there, after a service update an entry there was
    there before, and the endpoints update handler has deleted the entry
    when the old object named the IP.

    The delete handlers leave the entry of every IP that is no cluster
    IP of the deleted service, and of every IP that the deleted
    endpoints object holds only without a hostname. *)
Theorem reverse_records_after_handler kd :
  (∀ (service : v1.Service) (ip : string),
     v1.Type_ (v1.Spec service) ≠ v1.ServiceTypeExternalName →
     util.IsServiceIPSet service = true →
     ip ∈ util.GetClusterIPs service →
     dns.reverseRecordMap (dns.newService kd (ObjService service)) !! ip
       = Some (fst (util.GetSkyMsg (dns.getServiceFQDN (dns.domain kd) service) 0)))
  ∧ (∀ (service : v1.Service) (e : v1.Endpoints) (ip : string),
       v1.Type_ (v1.Spec service) ≠ v1.ServiceTypeExternalName →
       util.IsServiceIPSet service = false →
       dns.endpointsStore kd !! MetaNamespaceKey (v1.Namespace service) (v1.Name service)
         = Some (ObjEndpoints e) →
       let kd' := dns.newService kd (ObjService service) in
       (namedIn e ip → is_Some (dns.reverseRecordMap kd' !! ip))
       ∧ (unnamedIn e ip → dns.reverseRecordMap kd' !! ip = dns.reverseRecordMap kd !! ip))
  ∧ (∀ (old new : v1.Service) (ip : string),
       v1.Type_ (v1.Spec new) ≠ v1.ServiceTypeExternalName →
       let kd' := dns.updateService kd (ObjService old) (ObjService new) in
       (util.IsServiceIPSet new = true →
        ip ∈ util.GetClusterIPs new →
        dns.reverseRecordMap kd' !! ip
          = Some (fst (util.GetSkyMsg (dns.getServiceFQDN (dns.domain kd) new) 0)))
       ∧ (∀ e : v1.Endpoints,
            util.IsServiceIPSet new = false →
            dns.endpointsStore kd !! MetaNamespaceKey (v1.Namespace new) (v1.Name new)
              = Some (ObjEndpoints e) →
            (namedIn e ip → is_Some (dns.reverseRecordMap kd' !! ip))
            ∧ (unnamedIn e ip →
               ∀ r, dns.reverseRecordMap kd' !! ip = Some r →
                    dns.reverseRecordMap kd !! ip = Some r)))
  ∧ (∀ (e : v1.Endpoints) (svc : v1.Service) (ip : string),
       dns.getServiceFromEndpoints kd e = Ok (Some svc) →
       util.IsServiceIPSet svc = false →
       v1.Type_ (v1.Spec svc) ≠ v1.ServiceTypeExternalName →
       let kd' := dns.handleEndpointAdd kd (ObjEndpoints e) in
       (namedIn e ip → is_Some (dns.reverseRecordMap kd' !! ip))
       ∧ (unnamedIn e ip → dns.reverseRecordMap kd' !! ip = dns.reverseRecordMap kd !! ip))
  ∧ (∀ (oldEndpoints newEndpoints : v1.Endpoints) (svc : v1.Service) (ip : string),
       dns.getServiceFromEndpoints kd oldEndpoints = Ok (Some svc) →
       dns.getServiceFromEndpoints kd newEndpoints = Ok (Some svc) →
       util.IsServiceIPSet svc = false →
       v1.Type_ (v1.Spec svc) ≠ v1.ServiceTypeExternalName →
       let kd' :=
         dns.handleEndpointUpdate kd (ObjEndpoints oldEndpoints) (ObjEndpoints newEndpoints) in
       (namedIn newEndpoints ip → is_Some (dns.reverseRecordMap kd' !! ip))
       ∧ (unnamedIn newEndpoints ip → namedIn oldEndpoints ip →
          dns.reverseRecordMap kd' !! ip = None)
       ∧ (unnamedIn newEndpoints ip → unnamedIn oldEndpoints ip →
          dns.reverseRecordMap kd' !! ip = dns.reverseRecordMap kd !! ip))
  ∧ (∀ (s : v1.Service) (ip : string),
       ip ∉ util.GetClusterIPs s →
       dns.reverseRecordMap (dns.removeService kd (ObjService s)) !! ip
         = dns.reverseRecordMap kd !! ip)
  ∧ (∀ (e : v1.Endpoints) (ip : string),
       unnamedIn e ip →
       dns.reverseRecordMap (dns.handleEndpointDelete kd (ObjEndpoints e)) !! ip
         = dns.reverseRecordMap kd !! ip).
Proof.
  assert (∀ (e : v1.Endpoints) (svc : v1.Service) (ip : string),
            dns.getServiceFromEndpoints kd e = Ok (Some svc) →
            util.IsServiceIPSet svc = false →
            v1.Type_ (v1.Spec svc) ≠ v1.ServiceTypeExternalName →
            namedIn e ip → is_Some (stagedFor kd e !! ip)) as Hstaged.
  { intros e svc ip Hsvc Hheadless Htype Hnamed. unfold stagedFor.
    rewrite Hsvc, Hheadless. apply String.eqb_neq in Htype. rewrite Htype. cbn [orb].
    by apply staged_named. }
  assert (∀ kd (service : v1.Service) (ip : string),
            v1.Type_ (v1.Spec service) ≠ v1.ServiceTypeExternalName →
            util.IsServiceIPSet service = true →
            ip ∈ util.GetClusterIPs service →
            dns.reverseRecordMap (dns.newService kd (ObjService service)) !! ip
              = Some (fst (util.GetSkyMsg (dns.getServiceFQDN (dns.domain kd) service) 0)))
    as Hportal.
  { intros kd0 service ip Htype Hset Hin. unfold dns.newService. cbn [dns.assertIsService].
    apply String.eqb_neq in Htype. rewrite Htype, Hset. cbn [negb].
    rewrite newPortalService_reverse. by rewrite decide_True. }
  split_and!.
  - apply Hportal.
  - intros service e ip Htype Hheadless He kd'. unfold kd'.
    rewrite (newService_headless_reverse kd service e ip Htype Hheadless He). split.
    + intros Hnamed. destruct (staged_named kd service e ip Hnamed) as [r ->]. by eexists.
    + intros Hun. by rewrite staged_unnamed.
  - intros old new ip Htype kd'.
    set (kdR := if negb (Bool.eqb
                           (String.eqb (v1.Type_ (v1.Spec new)) v1.ServiceTypeExternalName)
                           (String.eqb (v1.Type_ (v1.Spec old)) v1.ServiceTypeExternalName))
                then dns.removeService kd (ObjService old) else kd).
    assert (kd' = dns.newService kdR (ObjService new)) as Hupd by done.
    assert (dns.endpointsStore kdR = dns.endpointsStore kd ∧ dns.domain kdR = dns.domain kd)
      as [Hstore Hdomain].
    { unfold kdR. destruct (negb _); [apply removeService_stores | done]. }
    assert (∀ r, dns.reverseRecordMap kdR !! ip = Some r →
                 dns.reverseRecordMap kd !! ip = Some r) as Hsub.
    { unfold kdR. destruct (negb _); [|done]. intros r. rewrite removeService_reverse.
      by destruct (_ && _). }
    rewrite Hupd. split.
    + intros Hset Hin. rewrite (Hportal kdR new ip Htype Hset Hin). by rewrite Hdomain.
    + intros e Hheadless He. rewrite <- Hstore in He.
      rewrite (newService_headless_reverse kdR new e ip Htype Hheadless He). split.
      * intros Hnamed. destruct (staged_named kdR new e ip Hnamed) as [r ->]. by eexists.
      * intros Hun r. rewrite staged_unnamed by done. apply Hsub.
  - intros e svc ip Hsvc Hheadless Htype kd'. unfold kd'.
    rewrite handleEndpointAdd_reverse. split.
    + intros Hnamed. destruct (Hstaged e svc ip Hsvc Hheadless Htype Hnamed) as [r ->].
      by eexists.
    + intros Hun. by rewrite stagedFor_unnamed.
  - intros oldEndpoints newEndpoints svc ip Hold Hnew Hheadless Htype kd'. unfold kd'.
    rewrite (handleEndpointUpdate_reverse kd oldEndpoints newEndpoints svc ip Hold Hheadless).
    rewrite oldAddressMap_lookup. split_and!.
    + intros Hnamed. destruct (Hstaged newEndpoints svc ip Hnew Hheadless Htype Hnamed)
        as [r ->]. by eexists.
    + intros Hun Hnamed. rewrite stagedFor_unnamed by done.
      apply not_namedIn in Hun. apply existsb_namedb in Hnamed. rewrite Hnamed.
      destruct (existsb (namedb ip) (allAddresses newEndpoints)) eqn:Hb; [|done].
      by apply existsb_namedb in Hb.
    + intros Hun Hunold. rewrite stagedFor_unnamed by done.
      apply not_namedIn in Hunold.
      destruct (existsb (namedb ip) (allAddresses newEndpoints)); [done|].
      destruct (existsb (namedb ip) (allAddresses oldEndpoints)) eqn:Hb; [|done].
      by apply existsb_namedb in Hb.
  - intros s ip Hnin. rewrite removeService_reverse.
    rewrite bool_decide_eq_false_2 by done. by rewrite andb_false_r.
  - intros e ip Hun. unfold dns.handleEndpointDelete.
    destruct (dns.getServiceFromEndpoints kd e) as [[svc|]|err]; [|done..].
    destruct (util.IsServiceIPSet svc); cbn [negb]; [done|].
    rewrite handleEndpointDelete_lookup. fold (allAddresses e).
    apply not_namedIn in Hun.
    destruct (existsb (namedb ip) (allAddresses e)) eqn:Hb; [|done].
    by apply existsb_namedb in Hb.
Qed.
End handlers.

Section handler_examples.
#[local] Existing Instance example.host.
#[local] Existing Instance spectree.cache.

Lemma reverse_records_after_handler_witness :
  let kd :=
    informer.run example.kd0
      [informer.EndpointsAdded (example.endpoints_of [example.named "10.0.0.7" "db-0"])] in
  dns.reverseRecordMap (dns.newService example.kd0 (ObjService example.web)) !! "10.0.0.5"
    = Some {| Host := "web.prod.svc.cluster.local."; Port := 0; Priority := 10;
              Weight := 10; Ttl := 30 |}
  ∧ dns.reverseRecordMap kd !! "10.0.0.7" = None
  ∧ is_Some (dns.reverseRecordMap (dns.newService kd (ObjService example.db)) !! "10.0.0.7").
Proof.
  intros kd. split_and!.
  - apply (proj1 (reverse_records_after_handler example.kd0) example.web "10.0.0.5").
    + discriminate.
    + reflexivity.
    + apply elem_of_cons. by left.
  - vm_compute. reflexivity.
  - apply (proj1 (proj2 (reverse_records_after_handler kd)) example.db
             (example.endpoints_of [example.named "10.0.0.7" "db-0"]) "10.0.0.7").
    + discriminate.
    + reflexivity.
    + vm_compute. reflexivity.
    + apply existsb_namedb. vm_compute. reflexivity.
Defined.

(** C3 as it is stated fails.  Two headless services share the address
    10.0.0.7: the endpoints object of the first carries it with a
    hostname, that of the second without one.  After the four add
    events the reverse record map has an entry for the IP, the entry of
    the first service, although it is an address of a headless service
    that lacks a hostname. *)
Lemma ptr_entry_of_shared_address :
  let queue : v1.Service :=
    {| v1.Name := "queue"; v1.Namespace := "prod";
       v1.Spec := {| v1.Type_ := "ClusterIP"; v1.ClusterIP := "None";
                     v1.ClusterIPs := []; v1.Ports := []; v1.ExternalName := "" |} |} in
  let db_endpoints := example.endpoints_of [example.named "10.0.0.7" "db-0"] in
  let queue_endpoints : v1.Endpoints :=
    {| v1.e_Name := "queue"; v1.e_Namespace := "prod";
       v1.Subsets := [ {| v1.Addresses := [example.unnamed "10.0.0.7"];
                          v1.ep_Ports := [] |} ] |} in
  let kd :=
    informer.run example.kd0
      [informer.ServiceAdded example.db;
       informer.ServiceAdded queue;
       informer.EndpointsAdded db_endpoints;
       informer.EndpointsAdded queue_endpoints] in
  dns.servicesStore kd !! "prod/queue" = Some (ObjService queue)
  ∧ util.IsServiceIPSet queue = false
  ∧ dns.endpointsStore kd !! "prod/queue" = Some (ObjEndpoints queue_endpoints)
  ∧ allAddresses queue_endpoints = [example.unnamed "10.0.0.7"]
  ∧ v1.Hostname (example.unnamed "10.0.0.7") = ""
  ∧ dns.reverseRecordMap kd !! "10.0.0.7"
    = Some {| Host := "db-0.db.prod.svc.cluster.local."; Port := 0; Priority := 10;
              Weight := 10; Ttl := 30 |}.
Proof. vm_compute. split_and!; reflexivity. Qed.
End handler_examples.

(** ** The reverse record map over a run of events *)

Section invariant.
Context `{GoLibs} {T : Type} `{treecache.TreeCache T}.
Implicit Types kd : dns.KubeDNS (T:=T).

Lemma sameStores_foldl {A} (f : dns.KubeDNS (T:=T) → A → dns.KubeDNS (T:=T)) (l : list A) kd :
  (∀ kd x, sameStores kd (f kd x)) → sameStores kd (foldl f kd l).
Proof.
  intros Hf. revert kd. induction l as [|x l IH]; intros kd; cbn [foldl]; [done|].
  unfold sameStores in *. destruct (IH (f kd x)) as [-> ->]. apply Hf.
Qed.

Lemma newService_sameStores kd (obj : Object) : sameStores kd (dns.newService kd obj).
Proof.
  unfold dns.newService. destruct (dns.assertIsService obj) as [service|]; [|done].
  destruct (String.eqb _ _); [done|].
  destruct (util.IsServiceIPSet service); cbn [negb].
  - unfold dns.newPortalService. cbv zeta.
    set (kd1 := dns.set_cache kd _).
    change (sameStores kd1 (foldl
      (λ kd ip,
         dns.set_clusterIPServiceMap
           (dns.set_reverseRecordMap kd
              (<[ip := fst (util.GetSkyMsg (dns.getServiceFQDN (dns.domain kd1) service) 0)]>
                 (dns.reverseRecordMap kd)))
           (<[ip := service]> (dns.clusterIPServiceMap kd)))
      kd1 (util.GetClusterIPs service))).
    by apply sameStores_foldl.
  - unfold dns.newHeadlessService.
    destruct (dns.endpointsStore kd !! _) as [[s|e|n|]|]; try done.
    unfold dns.generateRecordsForHeadlessService.
    by destruct (dns.headlessRecords kd e service).
Qed.

Lemma removeService_sameStores kd (obj : Object) : sameStores kd (dns.removeService kd obj).
Proof.
  unfold dns.removeService. destruct (dns.assertIsService obj) as [s|]; [|done].
  destruct (util.IsServiceIPSet s); [|done].
  set (kd1 := dns.set_cache kd _).
  change (sameStores kd1 (foldl
    (λ kd ip,
       dns.set_clusterIPServiceMap
         (dns.set_reverseRecordMap kd (delete ip (dns.reverseRecordMap kd)))
         (delete ip (dns.clusterIPServiceMap kd)))
    kd1 (util.GetClusterIPs s))).
  by apply sameStores_foldl.
Qed.

Lemma handleEndpointAdd_sameStores kd (obj : Object) :
  sameStores kd (dns.handleEndpointAdd kd obj).
Proof.
  unfold dns.handleEndpointAdd. destruct obj as [s|e|n|]; try done.
  unfold dns.addDNSUsingEndpoints.
  destruct (dns.getServiceFromEndpoints kd e) as [[svc|]|err]; try done.
  destruct (_ || _); [done|].
  unfold dns.generateRecordsForHeadlessService.
  by destruct (dns.headlessRecords kd e svc).
Qed.

Lemma handleEndpointDelete_sameStores kd (obj : Object) :
  sameStores kd (dns.handleEndpointDelete kd obj).
Proof.
  unfold dns.handleEndpointDelete. destruct obj as [s|e|n|]; try done.
  destruct (dns.getServiceFromEndpoints kd e) as [[svc|]|err]; try done.
  destruct (util.IsServiceIPSet svc); cbn [negb]; [done|].
  apply sameStores_foldl. intros kd1 subset. apply sameStores_foldl.
  intros kd2 address. by destruct (snd (dns.getHostname address)).
Qed.

Lemma usedAt_stores kd kd' (key ip : string) :
  dns.servicesStore kd' !! key = dns.servicesStore kd !! key →
  dns.endpointsStore kd' !! key = dns.endpointsStore kd !! key →
  usedAt kd' key ip → usedAt kd key ip.
Proof. unfold usedAt. intros -> ->. done. Qed.

Lemma newService_portal_reverse kd (service : v1.Service) (ip : string) :
  v1.Type_ (v1.Spec service) ≠ v1.ServiceTypeExternalName →
  util.IsServiceIPSet service = true →
  ip ∈ util.GetClusterIPs service →
  is_Some (dns.reverseRecordMap (dns.newService kd (ObjService service)) !! ip).
Proof.
  intros Htype%String.eqb_neq Hset Hin. unfold dns.newService. cbn [dns.assertIsService].
  rewrite Htype, Hset. cbn [negb]. rewrite newPortalService_reverse.
  rewrite decide_True by done. by eexists.
Qed.

Lemma newService_mono kd (obj : Object) (ip : string) :
  is_Some (dns.reverseRecordMap kd !! ip) →
  is_Some (dns.reverseRecordMap (dns.newService kd obj) !! ip).
Proof.
  intros Hsome. unfold dns.newService. destruct (dns.assertIsService obj) as [service|]; [|done].
  destruct (String.eqb _ _); [done|].
  destruct (util.IsServiceIPSet service); cbn [negb].
  - rewrite newPortalService_reverse.
    destruct (decide (ip ∈ util.GetClusterIPs service)); [by eexists | done].
  - unfold dns.newHeadlessService.
    destruct (dns.endpointsStore kd !! _) as [[s|e|n|]|]; try done.
    rewrite generateRecordsForHeadlessService_reverse.
    destruct (foldl (stage kd service) ∅ (allAddresses e) !! ip); [by eexists | done].
Qed.

Lemma handleEndpointAdd_mono kd (e : v1.Endpoints) (ip : string) :
  is_Some (dns.reverseRecordMap kd !! ip) →
  is_Some (dns.reverseRecordMap (dns.handleEndpointAdd kd (ObjEndpoints e)) !! ip).
Proof.
  intros Hsome. rewrite handleEndpointAdd_reverse.
  destruct (stagedFor kd e !! ip); [by eexists | done].
Qed.

Lemma stagedFor_named kd (e : v1.Endpoints) (svc : v1.Service) (ip : string) :
  dns.servicesStore kd !! informer.endpointsKey e = Some (ObjService svc) →
  util.IsServiceIPSet svc = false →
  v1.Type_ (v1.Spec svc) ≠ v1.ServiceTypeExternalName →
  namedIn e ip → is_Some (stagedFor kd e !! ip).
Proof.
  intros Hsvc Hheadless Htype%String.eqb_neq Hnamed.
  unfold stagedFor, dns.getServiceFromEndpoints.
  unfold informer.endpointsKey in Hsvc. rewrite Hsvc. cbn [dns.assertIsService].
  rewrite Hheadless, Htype. cbn [orb]. by apply staged_named.
Qed.
Lemma removeService_keeps kd (s : v1.Service) (ip : string) :
  is_Some (dns.reverseRecordMap kd !! ip) →
  ¬ (util.IsServiceIPSet s = true ∧ ip ∈ util.GetClusterIPs s) →
  is_Some (dns.reverseRecordMap (dns.removeService kd (ObjService s)) !! ip).
Proof.
  intros Hsome Hnot. rewrite removeService_reverse.
  destruct (util.IsServiceIPSet s); [|done]. cbn [andb].
  rewrite bool_decide_eq_false_2; [done|]. intros Hin. by apply Hnot.
Qed.

Lemma handleEndpointUpdate_keeps kd (old new : v1.Endpoints) (ip : string) :
  is_Some (dns.reverseRecordMap kd !! ip) →
  ¬ (namedIn old ip ∧ unnamedIn new ip) →
  is_Some (dns.reverseRecordMap
             (dns.handleEndpointUpdate kd (ObjEndpoints old) (ObjEndpoints new)) !! ip).
Proof.
  intros Hsome Hnot. unfold dns.handleEndpointUpdate. apply handleEndpointAdd_mono.
  destruct (dns.getServiceFromEndpoints kd old) as [[svc|]|err]; [|done..].
  destruct (util.IsServiceIPSet svc); cbn [negb]; [done|].
  cbn [dns.reverseRecordMap dns.set_reverseRecordMap]. rewrite map_fold_delete_lookup.
  destruct (dns.oldAddressMap old new !! ip) eqn:Hd; [|done].
  exfalso. apply Hnot, oldAddressMap_dom, elem_of_dom. by eexists.
Qed.

Lemma handleEndpointUpdate_named kd (old new : v1.Endpoints) (svc : v1.Service) (ip : string) :
  dns.servicesStore kd !! informer.endpointsKey new = Some (ObjService svc) →
  util.IsServiceIPSet svc = false →
  v1.Type_ (v1.Spec svc) ≠ v1.ServiceTypeExternalName →
  namedIn new ip →
  is_Some (dns.reverseRecordMap
             (dns.handleEndpointUpdate kd (ObjEndpoints old) (ObjEndpoints new)) !! ip).
Proof.
  intros Hsvc Hheadless Htype Hnamed. unfold dns.handleEndpointUpdate.
  rewrite handleEndpointAdd_reverse.
  match goal with
  | |- context [stagedFor ?kd2 new] =>
      assert (dns.servicesStore kd2 = dns.servicesStore kd) as Hstore
  end.
  { destruct (dns.getServiceFromEndpoints kd old) as [[svc'|]|err]; [|done..].
    by destruct (util.IsServiceIPSet svc'). }
  match goal with
  | |- context [stagedFor ?kd2 new] =>
      destruct (stagedFor_named kd2 new svc ip) as [r ->]; [by rewrite Hstore | done..|]
  end.
  by eexists.
Qed.

Lemma handleEndpointUpdate_portal kd (old new : v1.Endpoints) (svc : v1.Service) :
  dns.servicesStore kd !! informer.endpointsKey old = Some (ObjService svc) →
  util.IsServiceIPSet svc = true →
  dns.handleEndpointUpdate kd (ObjEndpoints old) (ObjEndpoints new)
    = dns.handleEndpointAdd kd (ObjEndpoints new).
Proof.
  intros Hsvc Hset. unfold dns.handleEndpointUpdate, dns.getServiceFromEndpoints.
  unfold informer.endpointsKey in Hsvc. rewrite Hsvc. cbn [dns.assertIsService].
  by rewrite Hset.
Qed.

Lemma handleEndpointDelete_keeps kd (e : v1.Endpoints) (ip : string) :
  is_Some (dns.reverseRecordMap kd !! ip) →
  ¬ namedIn e ip →
  is_Some (dns.reverseRecordMap (dns.handleEndpointDelete kd (ObjEndpoints e)) !! ip).
Proof.
  intros Hsome Hnot. unfold dns.handleEndpointDelete.
  destruct (dns.getServiceFromEndpoints kd e) as [[svc|]|err]; [|done..].
  destruct (util.IsServiceIPSet svc); cbn [negb]; [done|].
  rewrite handleEndpointDelete_lookup. fold (allAddresses e).
  destruct (existsb (namedb ip) (allAddresses e)) eqn:Hb; [|done].
  by apply existsb_namedb in Hb.
Qed.

Lemma handleEndpointDelete_portal kd (e : v1.Endpoints) (svc : v1.Service) :
  dns.servicesStore kd !! informer.endpointsKey e = Some (ObjService svc) →
  util.IsServiceIPSet svc = true →
  dns.handleEndpointDelete kd (ObjEndpoints e) = kd.
Proof.
  intros Hsvc Hset. unfold dns.handleEndpointDelete, dns.getServiceFromEndpoints.
  unfold informer.endpointsKey in Hsvc. rewrite Hsvc. cbn [dns.assertIsService].
  by rewrite Hset.
Qed.

Lemma ptrComplete_step kd (ev : informer.Event) :
  sameObject ev →
  (∀ key ip, released ev ip → key ≠ eventKey ev → ¬ usedAt kd key ip) →
  ptrComplete kd →
  ptrComplete (informer.deliver kd ev).
Proof.
  intros Hsame Hexcl Hinv key ip Hused.
  destruct ev as [s|old new|s|e|old new|e]; cbn [informer.deliver] in *.
  - (* a service is added *)
    set (kd1 := dns.set_servicesStore kd _) in *.
    destruct (newService_sameStores kd1 (ObjService s)) as [Hss Hes].
    apply (usedAt_stores kd1) in Hused; [| by rewrite Hss | by rewrite Hes].
    destruct (decide (key = informer.serviceKey s)) as [->|Hne].
    + destruct Hused as (s' & Hs' & Htype & Huse).
      cbn [kd1 dns.servicesStore dns.set_servicesStore] in Hs'.
      rewrite lookup_insert_eq in Hs'. injection Hs' as <-.
      destruct (util.IsServiceIPSet s) eqn:Hset.
      * by apply newService_portal_reverse.
      * destruct Huse as (e & He & Hnamed).
        rewrite (newService_headless_reverse kd1 s e ip Htype Hset He).
        destruct (staged_named kd1 s e ip Hnamed) as [r ->]. by eexists.
    + apply newService_mono. apply (Hinv key).
      apply (usedAt_stores kd kd1 key ip); [|done..].
      cbn [kd1 dns.servicesStore dns.set_servicesStore]. by rewrite lookup_insert_ne.
  - (* a service is updated *)
    set (kd1 := dns.set_servicesStore kd _) in *.
    unfold dns.updateService in *. cbn [dns.assertIsService] in *.
    set (kdR := if negb _ then dns.removeService kd1 (ObjService old) else kd1) in *.
    assert (sameStores kd1 kdR) as [HssR HesR].
    { unfold kdR. destruct (negb _); [apply removeService_sameStores | done]. }
    destruct (newService_sameStores kdR (ObjService new)) as [Hss Hes].
    apply (usedAt_stores kd1) in Hused;
      [| by rewrite Hss, HssR | by rewrite Hes, HesR].
    destruct (decide (key = informer.serviceKey new)) as [->|Hne].
    + destruct Hused as (s' & Hs' & Htype & Huse).
      cbn [kd1 dns.servicesStore dns.set_servicesStore] in Hs'.
      rewrite lookup_insert_eq in Hs'. injection Hs' as <-.
      destruct (util.IsServiceIPSet new) eqn:Hset.
      * by apply newService_portal_reverse.
      * destruct Huse as (e & He & Hnamed). rewrite <- HesR in He.
        rewrite (newService_headless_reverse kdR new e ip Htype Hset He).
        destruct (staged_named kdR new e ip Hnamed) as [r ->]. by eexists.
    + apply newService_mono.
      assert (usedAt kd key ip) as Hbefore.
      { apply (usedAt_stores kd kd1 key ip); [|done..].
        cbn [kd1 dns.servicesStore dns.set_servicesStore]. by rewrite lookup_insert_ne. }
      unfold kdR. destruct (negb _); [|by apply (Hinv key)].
      apply removeService_keeps; [by apply (Hinv key)|].
      intros Hrel. by apply (Hexcl key ip Hrel Hne).
  - (* a service is deleted *)
    set (kd1 := dns.set_servicesStore kd _) in *.
    destruct (removeService_sameStores kd1 (ObjService s)) as [Hss Hes].
    apply (usedAt_stores kd1) in Hused; [| by rewrite Hss | by rewrite Hes].
    destruct (decide (key = informer.serviceKey s)) as [->|Hne].
    + destruct Hused as (s' & Hs' & _).
      cbn [kd1 dns.servicesStore dns.set_servicesStore] in Hs'.
      by rewrite lookup_delete_eq in Hs'.
    + assert (usedAt kd key ip) as Hbefore.
      { apply (usedAt_stores kd kd1 key ip); [|done..].
        cbn [kd1 dns.servicesStore dns.set_servicesStore]. by rewrite lookup_delete_ne. }
      apply removeService_keeps; [by apply (Hinv key)|].
      intros Hrel. by apply (Hexcl key ip Hrel Hne).
  - (* an endpoints object is added *)
    set (kd1 := dns.set_endpointsStore kd _) in *.
    destruct (handleEndpointAdd_sameStores kd1 (ObjEndpoints e)) as [Hss Hes].
    apply (usedAt_stores kd1) in Hused; [| by rewrite Hss | by rewrite Hes].
    destruct (decide (key = informer.endpointsKey e)) as [->|Hne].
    + destruct Hused as (s & Hs & Htype & Huse).
      destruct (util.IsServiceIPSet s) eqn:Hset.
      * apply handleEndpointAdd_mono. apply (Hinv (informer.endpointsKey e)).
        exists s. by rewrite Hset.
      * destruct Huse as (e' & He' & Hnamed).
        cbn [kd1 dns.endpointsStore dns.set_endpointsStore] in He'.
        rewrite lookup_insert_eq in He'. injection He' as <-.
        rewrite handleEndpointAdd_reverse.
        destruct (stagedFor_named kd1 e s ip Hs Hset Htype Hnamed) as [r ->]. by eexists.
    + apply handleEndpointAdd_mono. apply (Hinv key).
      apply (usedAt_stores kd kd1 key ip); [done| |done].
      cbn [kd1 dns.endpointsStore dns.set_endpointsStore]. by rewrite lookup_insert_ne.
  - (* an endpoints object is updated *)
    set (kd1 := dns.set_endpointsStore kd _) in *.
    assert (sameStores kd1 (dns.handleEndpointUpdate kd1 (ObjEndpoints old) (ObjEndpoints new)))
      as [Hss Hes].
    { unfold dns.handleEndpointUpdate.
      match goal with
      | |- sameStores _ (dns.handleEndpointAdd ?kd2 _) =>
          assert (sameStores kd1 kd2) as [Hss2 Hes2];
          [|destruct (handleEndpointAdd_sameStores kd2 (ObjEndpoints new)) as [Hss3 Hes3];
            split; congruence]
      end.
      destruct (dns.getServiceFromEndpoints kd1 old) as [[svc|]|err]; [|done..].
      by destruct (util.IsServiceIPSet svc). }
    apply (usedAt_stores kd1) in Hused; [| by rewrite Hss | by rewrite Hes].
    cbn [sameObject] in Hsame.
    destruct (decide (key = informer.endpointsKey new)) as [->|Hne].
    + destruct Hused as (s & Hs & Htype & Huse).
      destruct (util.IsServiceIPSet s) eqn:Hset.
      * rewrite (handleEndpointUpdate_portal kd1 old new s); [|by rewrite Hsame | done].
        apply handleEndpointAdd_mono. apply (Hinv (informer.endpointsKey new)).
        exists s. by rewrite Hset.
      * destruct Huse as (e' & He' & Hnamed).
        cbn [kd1 dns.endpointsStore dns.set_endpointsStore] in He'.
        rewrite lookup_insert_eq in He'. injection He' as <-.
        by apply (handleEndpointUpdate_named kd1 old new s).
    + assert (usedAt kd key ip) as Hbefore.
      { apply (usedAt_stores kd kd1 key ip); [done| |done].
        cbn [kd1 dns.endpointsStore dns.set_endpointsStore]. by rewrite lookup_insert_ne. }
      apply handleEndpointUpdate_keeps; [by apply (Hinv key)|].
      intros Hrel. by apply (Hexcl key ip Hrel Hne).
  - (* an endpoints object is deleted *)
    set (kd1 := dns.set_endpointsStore kd _) in *.
    destruct (handleEndpointDelete_sameStores kd1 (ObjEndpoints e)) as [Hss Hes].
    apply (usedAt_stores kd1) in Hused; [| by rewrite Hss | by rewrite Hes].
    destruct (decide (key = informer.endpointsKey e)) as [->|Hne].
    + destruct Hused as (s & Hs & Htype & Huse).
      destruct (util.IsServiceIPSet s) eqn:Hset.
      * rewrite (handleEndpointDelete_portal kd1 e s Hs Hset).
        apply (Hinv (informer.endpointsKey e)). exists s. by rewrite Hset.
      * destruct Huse as (e' & He' & _).
        cbn [kd1 dns.endpointsStore dns.set_endpointsStore] in He'.
        by rewrite lookup_delete_eq in He'.
    + assert (usedAt kd key ip) as Hbefore.
      { apply (usedAt_stores kd kd1 key ip); [done| |done].
        cbn [kd1 dns.endpointsStore dns.set_endpointsStore]. by rewrite lookup_delete_ne. }
      apply handleEndpointDelete_keeps; [by apply (Hinv key)|].
      intros Hrel. by apply (Hexcl key ip Hrel Hne).
Qed.

Lemma ptrComplete_NewKubeDNS (client : dns.Clientset) (clusterDomain : string) :
  ptrComplete (dns.NewKubeDNS (T:=T) client clusterDomain).
Proof. intros key ip (s & Hs & _). cbn in Hs. by rewrite lookup_empty in Hs. Qed.

(** X24.  Every IP in use keeps its entry over a run of events.  When
    every cluster IP of a service with a cluster IP in the services
    store, and every address with a hostname of the endpoints object
    that the endpoints store holds for a headless service of the
    services store, has an entry in the reverse record map, then so it
    is after every event of the run is stored and handled, whichever
    events they are, as long as the IPs that an event gives up are not
    in use under another key when it arrives. *)
Theorem ptrComplete_run kd (events : list informer.Event) :
  admissible kd events →
  ptrComplete kd →
  ptrComplete (informer.run kd events).
Proof.
  revert kd. induction events as [|ev events IH]; intros kd Hadm Hinv; [done|].
  destruct Hadm as (Hsame & Hexcl & Hrest).
  change (informer.run kd (ev :: events)) with (informer.run (informer.deliver kd ev) events).
  apply IH; [done|]. by apply ptrComplete_step.
Qed.
End invariant.

Section invariant_examples.
#[local] Existing Instance example.host.
#[local] Existing Instance spectree.cache.

Lemma ptrComplete_run_witness :
  let gone := example.endpoints_of [example.named "10.0.0.7" "db-0"] in
  let events := [informer.ServiceAdded example.web; informer.EndpointsDeleted gone] in
  released (informer.EndpointsDeleted gone) "10.0.0.7"
  ∧ is_Some (dns.reverseRecordMap (informer.run example.kd0 events) !! "10.0.0.5").
Proof.
  intros gone events.
  set (kd := informer.deliver example.kd0 (informer.ServiceAdded example.web)).
  assert (dns.servicesStore kd = {[ "prod/web"%string := ObjService example.web ]}) as Hstore
    by (vm_compute; reflexivity).
  split.
  - apply existsb_namedb. vm_compute. reflexivity.
  - apply (λ Hadm, ptrComplete_run example.kd0 events Hadm
                     (ptrComplete_NewKubeDNS example.client "cluster.local.")
                     "prod/web"%string "10.0.0.5"%string).
    + split_and!; [done | by intros key ip [] |].
      fold kd. split_and!; [done | | done]. intros key ip (a & Ha & <- & _) _ (s & Hs & _ & Huse). rewrite Hstore in Hs.
      apply lookup_singleton_Some in Hs as [_ [= <-]].
      change (allAddresses gone) with [example.named "10.0.0.7" "db-0"] in Ha.
      apply list_elem_of_singleton in Ha as ->.
      change ("10.0.0.7"%string ∈ ["10.0.0.5"%string]) in Huse.
      by apply list_elem_of_singleton in Huse.
    + exists example.web. split_and!.
      * vm_compute. reflexivity.
      * discriminate.
      * apply elem_of_cons. by left.
Defined.
End invariant_examples.
